(** * Spilno News Bot: the publish pipeline of [app.py], embedded and verified

    The development follows the source file top to bottom:
    - Python text ([str]) as sequences of Unicode code points, with the
      [str] methods the bot calls ([split], [strip], [join], slicing);
    - the fragment of Python's [re] module the bot uses, as a backtracking
      matcher, and [re.sub] on top of it;
    - [hashlib.md5] (RFC 1321) and the UTF-8 encoder behind [str.encode];
    - the tables of the PostgreSQL database the bot reads and writes;
    - the services (GNews, GPT, WordPress, Telegram) as calls answered by an
      environment, recorded in a trace;
    - [AutoPublishScheduler.auto_publish_task] and [publish_handler] in a
      state-and-exception monad.

    What the model takes for granted:
    - a database statement runs to completion (the tables are total maps
      and lists; only the services raise);
    - the values of the rewriter's JSON object are text, and the aggregator's
      [articles] is a list of objects;
    - one run at a time: the trace and the database belong to the run;
    - the Unicode case table of [str.lower] is given by the environment. *)

From Stdlib Require Import ZArith List String Ascii Bool Lia DecimalString.
From stdpp Require Import base option list gmap strings.
Import ListNotations.

Local Open Scope Z_scope.
Local Open Scope list_scope.

(* ===================================================================== *)
(** * Python text *)
(* ===================================================================== *)

(** A Python [str] is a sequence of code points; [len] counts code points,
    not bytes, which matters for Cyrillic titles. *)
Definition pystr : Type := list Z.

(** [py_len s] is [len(s)]. *)
Definition py_len (s : pystr) : Z := Z.of_nat (length s).

(** Bytes of a Rocq string literal (the source file is UTF-8). *)
Fixpoint bytes_of_string (s : string) : list Z :=
  match s with
  | EmptyString => []
  | String a s' => Z.of_N (N_of_ascii a) :: bytes_of_string s'
  end.

(** One step of a UTF-8 decoder: [(pending continuation bytes, partial code
    point, output so far in reverse)]. *)
Definition utf8_step (st : nat * Z * list Z) (b : Z) : nat * Z * list Z :=
  let '(need, cur, out) := st in
  match need with
  | O =>
      if b <? 128 then (O, 0, b :: out)
      else if b <? 224 then (1%nat, Z.land b 31, out)
      else if b <? 240 then (2%nat, Z.land b 15, out)
      else (3%nat, Z.land b 7, out)
  | S O => (O, 0, (Z.lor (Z.shiftl cur 6) (Z.land b 63)) :: out)
  | S n => (n, Z.lor (Z.shiftl cur 6) (Z.land b 63), out)
  end.

Definition utf8_decode (bs : list Z) : pystr :=
  let '(_, _, out) := fold_left utf8_step bs (O, 0, []) in rev out.

(** [py "..."] is the Python string written as the literal. *)
Definition py (s : string) : pystr := utf8_decode (bytes_of_string s).

(** [str.encode()]: UTF-8.  Python raises [UnicodeEncodeError] on a lone
    surrogate (a code point from 55296 to 57343), which a title can hold;
    the model is of text without lone surrogates and encodes every code
    point by the length rule alone. *)
Definition utf8_encode_cp (c : Z) : list Z :=
  if c <? 128 then [c]
  else if c <? 2048 then [Z.lor 192 (Z.shiftr c 6); Z.lor 128 (Z.land c 63)]
  else if c <? 65536 then
    [Z.lor 224 (Z.shiftr c 12); Z.lor 128 (Z.land (Z.shiftr c 6) 63);
     Z.lor 128 (Z.land c 63)]
  else
    [Z.lor 240 (Z.shiftr c 18); Z.lor 128 (Z.land (Z.shiftr c 12) 63);
     Z.lor 128 (Z.land (Z.shiftr c 6) 63); Z.lor 128 (Z.land c 63)].

Definition utf8_encode (s : pystr) : list Z := flat_map utf8_encode_cp s.

(** [c.isspace()]: the code points [str.split()] and [str.strip()] treat as
    white space, and the class [\s] of a [str] pattern. *)
Definition is_space (c : Z) : bool :=
  ((9 <=? c) && (c <=? 13)) || ((28 <=? c) && (c <=? 32))
  || (c =? 133) || (c =? 160) || (c =? 5760)
  || ((8192 <=? c) && (c <=? 8202))
  || (c =? 8232) || (c =? 8233) || (c =? 8239) || (c =? 8287) || (c =? 12288).

(** [s.split()] with no separator: maximal runs of non-space characters.
    [cur] is the word being read, in reverse. *)
Fixpoint split_aux (sep : Z -> bool) (cur : pystr) (s : pystr) : list pystr :=
  match s with
  | [] => match cur with [] => [] | _ => [rev cur] end
  | c :: s' =>
      if sep c then
        match cur with
        | [] => split_aux sep [] s'
        | _ => rev cur :: split_aux sep [] s'
        end
      else split_aux sep (c :: cur) s'
  end.

Definition py_split (s : pystr) : list pystr := split_aux is_space [] s.

(** [sep.join(ws)]. *)
Fixpoint py_join (sep : pystr) (ws : list pystr) : pystr :=
  match ws with
  | [] => []
  | [w] => w
  | w :: ws' => w ++ sep ++ py_join sep ws'
  end.

Fixpoint py_lstrip (s : pystr) : pystr :=
  match s with
  | c :: s' => if is_space c then py_lstrip s' else s
  | [] => []
  end.

Definition py_rstrip (s : pystr) : pystr := rev (py_lstrip (rev s)).

(** [s.strip()]. *)
Definition py_strip (s : pystr) : pystr := py_rstrip (py_lstrip s).

(** [s[:k]]: a negative bound counts from the end. *)
Definition py_slice_to (s : pystr) (k : Z) : pystr :=
  if k <? 0 then firstn (Z.to_nat (py_len s + k)) s
  else firstn (Z.to_nat k) s.

(** [prefix in s] at the head of [s]. *)
Fixpoint starts_with (p s : pystr) : bool :=
  match p, s with
  | [], _ => true
  | _ :: _, [] => false
  | a :: p', b :: s' => (a =? b) && starts_with p' s'
  end.

(** [sub in s]. *)
Fixpoint py_contains (sub s : pystr) : bool :=
  starts_with sub s ||
  match s with
  | [] => false
  | _ :: s' => py_contains sub s'
  end.

(** [s.split(sep)] for a one-character separator: empty pieces are kept. *)
Fixpoint split_char_aux (sep : Z) (cur : pystr) (s : pystr) : list pystr :=
  match s with
  | [] => [rev cur]
  | c :: s' => if c =? sep then rev cur :: split_char_aux sep [] s'
               else split_char_aux sep (c :: cur) s'
  end.

Definition py_split_char (sep : Z) (s : pystr) : list pystr :=
  split_char_aux sep [] s.

(** The lines of [s]. *)
Definition py_lines (s : pystr) : list pystr := py_split_char 10 s.

(* ===================================================================== *)
(** * The fragment of [re] the bot uses *)
(* ===================================================================== *)

(** Items of a bracketed character set. *)
Inductive citem : Type :=
| CChar (c : Z)
| CRange (lo hi : Z)
| CSpace.

(** [.] under [re.DOTALL], [[...]] and [[^...]]. *)
Inductive cset : Type :=
| CsAny
| CsIn (items : list citem)
| CsNotIn (items : list citem).

Definition citem_mem (i : citem) (c : Z) : bool :=
  match i with
  | CChar x => c =? x
  | CRange lo hi => (lo <=? c) && (c <=? hi)
  | CSpace => is_space c
  end.

Definition cset_mem (cs : cset) (c : Z) : bool :=
  match cs with
  | CsAny => true
  | CsIn items => existsb (fun i => citem_mem i c) items
  | CsNotIn items => negb (existsb (fun i => citem_mem i c) items)
  end.

(** Patterns.  Every repetition in the source ranges over a single character
    set ([[^>]*], [.*?], [\s*], [[^>]+], [\n{3,}]), so [Star] and [StarLazy]
    take a set. *)
Inductive regex : Type :=
| Eps
| Chr (c : Z)
| OneOf (cs : cset)
| Seq (r1 r2 : regex)
| Alt (r1 r2 : regex)
| Star (cs : cset)
| StarLazy (cs : cset)
| Group (n : nat) (r : regex)
| NotAhead (r : regex).

(** Captured groups, most recent binding first. *)
Definition groups : Type := list (nat * pystr).

Definition kont : Type := pystr -> groups -> option (pystr * groups).

(** Greedy [cs*]: take as many characters as possible, give back one at a
    time when the rest of the pattern fails. *)
Fixpoint star_greedy (p : Z -> bool) (s : pystr) (g : groups) (k : kont)
  : option (pystr * groups) :=
  match s with
  | c :: s' =>
      if p c then
        match star_greedy p s' g k with
        | Some r => Some r
        | None => k s g
        end
      else k s g
  | [] => k [] g
  end.

(** Lazy [cs*?]: try the rest of the pattern first, take one more character
    when it fails. *)
Fixpoint star_lazy (p : Z -> bool) (s : pystr) (g : groups) (k : kont)
  : option (pystr * groups) :=
  match k s g with
  | Some r => Some r
  | None =>
      match s with
      | c :: s' => if p c then star_lazy p s' g k else None
      | [] => None
      end
  end.

(** The backtracking matcher: [rmatch r s g k] matches [r] at the head of
    [s] and hands the rest of the input to [k]; alternatives are tried in
    priority order, as [re] does. *)
Fixpoint rmatch (r : regex) (s : pystr) (g : groups) (k : kont)
  : option (pystr * groups) :=
  match r with
  | Eps => k s g
  | Chr c =>
      match s with
      | x :: s' => if x =? c then k s' g else None
      | [] => None
      end
  | OneOf cs =>
      match s with
      | x :: s' => if cset_mem cs x then k s' g else None
      | [] => None
      end
  | Seq r1 r2 => rmatch r1 s g (fun s1 g1 => rmatch r2 s1 g1 k)
  | Alt r1 r2 =>
      match rmatch r1 s g k with
      | Some x => Some x
      | None => rmatch r2 s g k
      end
  | Star cs => star_greedy (cset_mem cs) s g k
  | StarLazy cs => star_lazy (cset_mem cs) s g k
  | Group n r1 =>
      rmatch r1 s g
        (fun s1 g1 => k s1 ((n, firstn (length s - length s1) s) :: g1))
  | NotAhead r1 =>
      match rmatch r1 s g (fun s1 g1 => Some (s1, g1)) with
      | Some _ => None
      | None => k s g
      end
  end.

(** A match at the head of [s]: the unmatched rest and the groups. *)
Definition re_match (r : regex) (s : pystr) : option (pystr * groups) :=
  rmatch r s [] (fun s1 g1 => Some (s1, g1)).

(** Replacement templates: literal text and [\n] group references. *)
Inductive titem : Type :=
| TLit (s : pystr)
| TRef (n : nat).

Fixpoint group_get (n : nat) (g : groups) : pystr :=
  match g with
  | [] => []
  | (m, v) :: g' => if Nat.eqb m n then v else group_get n g'
  end.

Definition expand (tmpl : list titem) (g : groups) : pystr :=
  flat_map (fun t => match t with TLit s => s | TRef n => group_get n g end)
           tmpl.

(** [re.sub(r, tmpl, s)]: scan left to right, replace each leftmost match,
    resume after it.  [skip] counts the characters of the current match still
    to be passed over.  After an empty match the next character is copied. *)
Fixpoint sub_loop (r : regex) (tmpl : list titem) (s : pystr) (skip : nat)
  : pystr :=
  match skip, s with
  | S n, _ :: s' => sub_loop r tmpl s' n
  | S _, [] => []
  | O, [] =>
      match re_match r [] with
      | Some (_, g) => expand tmpl g
      | None => []
      end
  | O, c :: s' =>
      match re_match r s with
      | Some (rest, g) =>
          match (length s - length rest)%nat with
          | O => expand tmpl g ++ c :: sub_loop r tmpl s' O
          | S n => expand tmpl g ++ sub_loop r tmpl s' n
          end
      | None => c :: sub_loop r tmpl s' O
      end
  end.

Definition re_sub (r : regex) (tmpl : list titem) (s : pystr) : pystr :=
  sub_loop r tmpl s O.

(** Pattern builders. *)
Fixpoint Lit (s : pystr) : regex :=
  match s with
  | [] => Eps
  | [c] => Chr c
  | c :: s' => Seq (Chr c) (Lit s')
  end.

Definition Opt (r : regex) : regex := Alt r Eps.
Definition Plus (cs : cset) : regex := Seq (OneOf cs) (Star cs).

Fixpoint seqs (rs : list regex) : regex :=
  match rs with
  | [] => Eps
  | [r] => r
  | r :: rs' => Seq r (seqs rs')
  end.

Fixpoint alts (rs : list regex) : regex :=
  match rs with
  | [] => NotAhead Eps
  | [r] => r
  | r :: rs' => Alt r (alts rs')
  end.

(* ===================================================================== *)
(** * Text utilities of the handlers *)
(* ===================================================================== *)

(** The default topic, ["Україна"]. *)
Definition DEFAULT_TOPIC : pystr :=
  Eval vm_compute in py "Україна".

(** The bracketed set of [extract_keywords_from_title] and
    [_sanitize_query], by code point: comma, double and single quote, colon,
    semicolon, exclamation and question mark, the three kinds of brackets,
    angle brackets, slash, backslash, bar, at, hash, dollar, percent, caret,
    ampersand, asterisk, equals, plus and tilde. *)
Definition special_chars : cset :=
  CsIn (map CChar
    [44; 34; 39; 58; 59; 33; 63; 40; 41; 91; 93; 123; 125; 60; 62; 47; 92;
     124; 64; 35; 36; 37; 94; 38; 42; 61; 43; 126]).

Definition SPACE : pystr := [32].

(** [extract_keywords_from_title(title, max_words)]. *)
Definition extract_keywords_from_title (title : pystr) (max_words : nat)
  : pystr :=
  match title with
  | [] => DEFAULT_TOPIC
  | _ =>
      let cleaned := re_sub (OneOf special_chars) [TLit SPACE] title in
      let words := List.filter (fun w => 2 <? py_len w) (py_split cleaned) in
      let keywords := py_join SPACE (firstn max_words words) in
      match keywords with
      | [] => DEFAULT_TOPIC
      | _ =>
          if py_len (py_strip keywords) <? 3 then DEFAULT_TOPIC
          else py_strip keywords
      end
  end.

(** [GNewsService._sanitize_query(query)]. *)
Definition _sanitize_query (query : pystr) : pystr :=
  if bool_decide (query = []) || bool_decide (query = [42]) then DEFAULT_TOPIC
  else
    let cleaned := re_sub (OneOf special_chars) [TLit SPACE] query in
    let cleaned := py_join SPACE (py_split cleaned) in
    let cleaned :=
      if 100 <? py_len cleaned
      then py_join SPACE (firstn 10 (py_split cleaned))
      else cleaned in
    match cleaned with
    | [] => DEFAULT_TOPIC
    | _ =>
        if py_len (py_strip cleaned) <? 3 then DEFAULT_TOPIC
        else py_strip cleaned
    end.

(** The patterns of [html_to_telegram], in source order. *)
Definition LT : Z := 60.
Definition GT : Z := 62.
Definition SLASH : Z := 47.
Definition NL : Z := 10.

Definition not_gt : cset := CsNotIn [CChar GT].

(** [<h[1-6][^>]*>(.*?)</h[1-6]>] *)
Definition re_heading : regex :=
  seqs [Chr LT; Chr 104; OneOf (CsIn [CRange 49 54]); Star not_gt; Chr GT;
        Group 1 (StarLazy CsAny);
        Chr LT; Chr SLASH; Chr 104; OneOf (CsIn [CRange 49 54]); Chr GT].

(** [<strong>(.*?)</strong>] *)
Definition re_strong : regex :=
  seqs [Lit (py "<strong>"); Group 1 (StarLazy CsAny); Lit (py "</strong>")].

(** [<em>(.*?)</em>] *)
Definition re_em : regex :=
  seqs [Lit (py "<em>"); Group 1 (StarLazy CsAny); Lit (py "</em>")].

(** [</?ul[^>]*>] and [</?ol[^>]*>] *)
Definition re_ul : regex :=
  seqs [Chr LT; Opt (Chr SLASH); Lit (py "ul"); Star not_gt; Chr GT].
Definition re_ol : regex :=
  seqs [Chr LT; Opt (Chr SLASH); Lit (py "ol"); Star not_gt; Chr GT].

(** [<li[^>]*>(.*?)</li>] *)
Definition re_li : regex :=
  seqs [Lit (py "<li"); Star not_gt; Chr GT;
        Group 1 (StarLazy CsAny); Lit (py "</li>")].

(** [<p[^>]*>(.*?)</p>] *)
Definition re_p : regex :=
  seqs [Lit (py "<p"); Star not_gt; Chr GT;
        Group 1 (StarLazy CsAny); Lit (py "</p>")].

(** [<br\s*/?>] *)
Definition re_br : regex :=
  seqs [Lit (py "<br"); Star (CsIn [CSpace]); Opt (Chr SLASH); Chr GT].

(** [<(?!/?(b|i|u|s|code|pre|a))[^>]+>] *)
Definition re_other_tag : regex :=
  seqs [Chr LT;
        NotAhead (Seq (Opt (Chr SLASH))
          (Group 1 (alts [Lit (py "b"); Lit (py "i"); Lit (py "u");
                          Lit (py "s"); Lit (py "code"); Lit (py "pre");
                          Lit (py "a")])));
        Plus not_gt; Chr GT].

(** [\n{3,}] *)
Definition re_blank_lines : regex :=
  seqs [Chr NL; Chr NL; Chr NL; Star (CsIn [CChar NL])].

Definition BULLET : Z := 8226.
Definition ELLIPSIS : pystr := [46; 46; 46].

(** The body of [html_to_telegram] up to and including [strip()]. *)
Definition telegram_markup (html_content : pystr) : pystr :=
  let html_content :=
    re_sub re_heading
      [TLit [NL; NL]; TLit (py "<b>"); TRef 1; TLit (py "</b>"); TLit [NL; NL]]
      html_content in
  let html_content :=
    re_sub re_strong [TLit (py "<b>"); TRef 1; TLit (py "</b>")]
      html_content in
  let html_content :=
    re_sub re_em [TLit (py "<i>"); TRef 1; TLit (py "</i>")] html_content in
  let html_content := re_sub re_ul [] html_content in
  let html_content := re_sub re_ol [] html_content in
  let html_content :=
    re_sub re_li [TLit [NL; BULLET; 32]; TRef 1] html_content in
  let html_content := re_sub re_p [TRef 1; TLit [NL; NL]] html_content in
  let html_content := re_sub re_br [TLit [NL]] html_content in
  let html_content := re_sub re_other_tag [] html_content in
  let html_content := re_sub re_blank_lines [TLit [NL; NL]] html_content in
  py_strip html_content.

(** [html_to_telegram(html_content, max_length)]: the markup, cut to the cap. *)
Definition html_to_telegram (html_content : pystr) (max_length : Z) : pystr :=
  let html_content := telegram_markup html_content in
  if max_length <? py_len html_content
  then py_slice_to html_content (max_length - 3) ++ ELLIPSIS
  else html_content.

Definition title_example : pystr :=
  py "Економіка, зростає! (на 5%)".

Definition html_example : pystr :=
  py "<h2>Title</h2><p>Body</p><ul><li>A</li></ul>".


(* ===================================================================== *)
(** * [hashlib.md5] *)
(* ===================================================================== *)

Module MD5.

Definition mask32 : Z := 0xFFFFFFFF.

Definition add32 (x y : Z) : Z := Z.land (x + y) mask32.

Definition not32 (x : Z) : Z := Z.lxor x mask32.

(** Rotate a 32-bit word left by [c] bits. *)
Definition rotl32 (x c : Z) : Z :=
  Z.land (Z.lor (Z.shiftl x c) (Z.shiftr x (32 - c))) mask32.

(** Per-round shift amounts. *)
Definition shifts : list Z :=
  [7; 12; 17; 22; 7; 12; 17; 22; 7; 12; 17; 22; 7; 12; 17; 22;
   5; 9; 14; 20; 5; 9; 14; 20; 5; 9; 14; 20; 5; 9; 14; 20;
   4; 11; 16; 23; 4; 11; 16; 23; 4; 11; 16; 23; 4; 11; 16; 23;
   6; 10; 15; 21; 6; 10; 15; 21; 6; 10; 15; 21; 6; 10; 15; 21].

(** [floor(2^32 * abs(sin(i + 1)))] for [i] in [0..63]. *)
Definition sines : list Z :=
  [0xd76aa478; 0xe8c7b756; 0x242070db; 0xc1bdceee;
   0xf57c0faf; 0x4787c62a; 0xa8304613; 0xfd469501;
   0x698098d8; 0x8b44f7af; 0xffff5bb1; 0x895cd7be;
   0x6b901122; 0xfd987193; 0xa679438e; 0x49b40821;
   0xf61e2562; 0xc040b340; 0x265e5a51; 0xe9b6c7aa;
   0xd62f105d; 0x02441453; 0xd8a1e681; 0xe7d3fbc8;
   0x21e1cde6; 0xc33707d6; 0xf4d50d87; 0x455a14ed;
   0xa9e3e905; 0xfcefa3f8; 0x676f02d9; 0x8d2a4c8a;
   0xfffa3942; 0x8771f681; 0x6d9d6122; 0xfde5380c;
   0xa4beea44; 0x4bdecfa9; 0xf6bb4b60; 0xbebfbc70;
   0x289b7ec6; 0xeaa127fa; 0xd4ef3085; 0x04881d05;
   0xd9d4d039; 0xe6db99e5; 0x1fa27cf8; 0xc4ac5665;
   0xf4292244; 0x432aff97; 0xab9423a7; 0xfc93a039;
   0x655b59c3; 0x8f0ccc92; 0xffeff47d; 0x85845dd1;
   0x6fa87e4f; 0xfe2ce6e0; 0xa3014314; 0x4e0811a1;
   0xf7537e82; 0xbd3af235; 0x2ad7d2bb; 0xeb86d391].

Definition state : Type := (Z * Z * Z * Z)%type.

Definition init : state := (0x67452301, 0xefcdab89, 0x98badcfe, 0x10325476).

(** Little-endian bytes of the low [n] bytes of [x]. *)
Fixpoint le_bytes (n : nat) (x : Z) : list Z :=
  match n with
  | O => []
  | S n' => Z.land x 255 :: le_bytes n' (Z.shiftr x 8)
  end.

(** The message, a [1] bit, zeros up to 56 mod 64, the bit length. *)
Definition pad (msg : list Z) : list Z :=
  let len := Z.of_nat (length msg) in
  let zeros := Z.to_nat ((55 - len) mod 64) in
  msg ++ [128] ++ repeat 0 zeros ++ le_bytes 8 (8 * len).

(** Sixteen little-endian words of a 64-byte block. *)
Fixpoint words (n : nat) (bs : list Z) : list Z :=
  match n with
  | O => []
  | S n' =>
      match bs with
      | b0 :: b1 :: b2 :: b3 :: bs' =>
          (b0 + Z.shiftl b1 8 + Z.shiftl b2 16 + Z.shiftl b3 24)
            :: words n' bs'
      | _ => []
      end
  end.

(** Round [i] on the working state, with the block's words [m]. *)
Definition round (m : list Z) (st : state) (i : Z) : state :=
  let '(a, b, c, d) := st in
  let '(f, g) :=
    if i <? 16 then
      (Z.lor (Z.land b c) (Z.land (not32 b) d), i)
    else if i <? 32 then
      (Z.lor (Z.land d b) (Z.land (not32 d) c), (5 * i + 1) mod 16)
    else if i <? 48 then
      (Z.lxor (Z.lxor b c) d, (3 * i + 5) mod 16)
    else
      (Z.lxor c (Z.lor b (not32 d)), (7 * i) mod 16) in
  let f := add32 (add32 (add32 f a) (nth (Z.to_nat i) sines 0))
                 (nth (Z.to_nat g) m 0) in
  (d, add32 b (rotl32 f (nth (Z.to_nat i) shifts 0)), b, c).

Definition block (st : state) (bs : list Z) : state :=
  let m := words 16 bs in
  let '(a, b, c, d) := fold_left (round m) (map Z.of_nat (seq 0 64)) st in
  let '(a0, b0, c0, d0) := st in
  (add32 a0 a, add32 b0 b, add32 c0 c, add32 d0 d).

Fixpoint blocks (n : nat) (st : state) (bs : list Z) : state :=
  match n with
  | O => st
  | S n' => blocks n' (block st (firstn 64 bs)) (skipn 64 bs)
  end.

(** [md5(msg).digest()]: sixteen bytes. *)
Definition digest (msg : list Z) : list Z :=
  let padded := pad msg in
  let '(a, b, c, d) := blocks (length padded / 64) init padded in
  le_bytes 4 a ++ le_bytes 4 b ++ le_bytes 4 c ++ le_bytes 4 d.

Definition hex_digit (n : Z) : ascii :=
  ascii_of_N (Z.to_N (if n <? 10 then 48 + n else 87 + n)).

(** [md5(msg).hexdigest()]: thirty-two lower-case hexadecimal digits. *)
Fixpoint hex (bs : list Z) : string :=
  match bs with
  | [] => EmptyString
  | b :: bs' =>
      String (hex_digit (Z.shiftr b 4)) (String (hex_digit (Z.land b 15))
             (hex bs'))
  end.

Definition hexdigest (msg : list Z) : string := hex (digest msg).

End MD5.

(* ===================================================================== *)
(** * Data of the bot *)
(* ===================================================================== *)

(** A raised Python exception: its class name and [str(e)]. *)
Inductive exn : Type := PyExc (kind : string) (msg : pystr).

Definition exn_str (e : exn) : pystr := match e with PyExc _ m => m end.

(** An article of the GNews response (a JSON object; [dict.get] reads). *)
Record NewsItem : Type := mkNews {
  n_title : option pystr;
  n_description : option pystr;
  n_url : option pystr;
  n_image : option pystr;
  n_source_name : option pystr
}.

(** The image argument of [WordPressService.upload_image]. *)
Record ImageSource : Type := mkImage {
  img_custom : bool;
  img_file_id : option pystr;
  img_url : option pystr
}.

(** The article dictionary: the text fields of the rewriter's JSON object
    and the [category_id] slot the handlers add. *)
Record Article : Type := mkArticle {
  fields : gmap string pystr;
  category_id : option Z
}.

(** The JSON body of a created WordPress post, as far as it is read. *)
Record WpPost : Type := mkWpPost { wp_id : Z; wp_link : pystr }.

(** An [aiohttp] response: status, [resp.text()] and [resp.json()]. *)
Record HttpResponse (J : Type) : Type := mkResp {
  status : Z;
  text : pystr;
  json : exn + J
}.
Arguments mkResp {J} _ _ _.
Arguments status {J} _.
Arguments text {J} _.
Arguments json {J} _.

(** The body of a GNews answer: [data.get('articles', [])]. *)
Record GNewsBody : Type := mkBody { articles : option (list NewsItem) }.

(** [chat_id] of [bot.send_message]: an operator's numeric id, or the
    channel name of the configuration. *)
Inductive chat_id : Type := ChatInt (n : Z) | ChatStr (s : pystr).

Inductive parse_mode : Type := NoParseMode | Markdown | HTML.

(** Calls that leave the process, with their arguments. *)
Inductive Call : Type :=
| CallGNewsSearch (q lang country : pystr) (max_results : Z)
| CallGptChat (sources : list NewsItem)
| CallWpUploadImage (src : ImageSource)
| CallWpCreatePost (a : Article) (featured_media_id : option Z)
| CallSendMessage (chat : chat_id) (body : pystr) (mode : parse_mode)
| CallEditText (body : pystr)
| CallAnswer (body : pystr).

Definition Trace : Type := list Call.

(** Lines written through [logger], one constructor per call site. *)
Inductive LogRecord : Type :=
| LogGNewsOk (found : nat) (cleaned original : pystr)
| LogGNewsApiError (code : Z) (cleaned original body : pystr)
| LogGNewsRequestFailed (cleaned original : pystr) (e : exn)
| LogGptFailed (e : exn)
| LogImageUploadFailed (e : exn)
| LogAutoPublishFailed (e : exn)
| LogPublishingFailed (e : exn).

(** ** Tables *)

(** A row of [user_settings]. *)
Record UserSettings : Type := mkSettings {
  auto_publish_enabled : bool;
  auto_publish_interval : Z;
  auto_publish_to_wp : bool;
  auto_publish_to_tg : bool;
  enabled_categories : list Z;
  last_publish_time : option Z
}.

(** A row of [published_articles], with the columns the insert writes. *)
Record PublishedArticle : Type := mkPublished {
  pa_user_id : Z;
  pa_wp_post_id : option Z;
  pa_tg_message_id : option Z;
  pa_title : pystr;
  pa_url : option pystr;
  pa_category_id : option Z;
  published_to_wp : bool;
  published_to_tg : bool
}.

(** The [details] dictionary of a log row. *)
Record LogDetails : Type := mkDetails {
  d_wp_post_id : option Z;
  d_url : option pystr
}.

(** A row of [logs]. *)
Record LogRow : Type := mkLog {
  log_user_id : Z;
  log_kind : string;
  log_status : string;
  log_message : pystr;
  log_details : option LogDetails
}.

(** The database.  [article_fingerprints] has a unique [title_hash]: a map
    from the hash to [original_title]. *)
Record Database : Type := mkDb {
  wp_categories : list (Z * pystr);
  published_articles : list PublishedArticle;
  article_fingerprints : gmap string pystr;
  user_settings : gmap Z UserSettings;
  logs : list LogRow
}.

(** The conversation state of the operator who pressed a button. *)
Record FsmData : Type := mkFsm {
  generated_article : option Article;
  selected_image : option ImageSource;
  fsm_sources : list NewsItem
}.

Definition fsm_empty : FsmData := mkFsm None None [].

(** Everything a run can change: the database, the calls made so far, the
    log file and the conversation state. *)
Record World : Type := mkWorld {
  db : Database;
  trace : Trace;
  logger : list LogRecord;
  fsm : FsmData
}.

(** What a run cannot change: [Config], the Unicode case table behind
    [str.lower], the database clock, and the answers of the services, each
    a function of the calls made before and of the arguments. *)
Record Env : Type := mkEnv {
  CHANNEL_ID : pystr;
  WP_SITE_URL : pystr;
  str_lower : pystr -> pystr;
  db_now : Trace -> Z;
  gnews_get : Trace -> pystr -> pystr -> pystr -> Z
              -> exn + HttpResponse GNewsBody;
  gpt_chat : Trace -> list NewsItem -> exn + (exn + gmap string pystr);
  wp_upload : Trace -> ImageSource -> exn + Z;
  wp_post : Trace -> Article -> option Z -> exn + HttpResponse WpPost;
  tg_send : Trace -> chat_id -> pystr -> parse_mode -> exn + Z;
  tg_edit : Trace -> pystr -> exn + unit;
  tg_answer : Trace -> pystr -> exn + unit
}.

(** [str.lower] on Basic Latin, Latin-1 and the Cyrillic block
    U+0400..U+045F, where it is a per-character table. *)
Definition lower_cp (c : Z) : Z :=
  if (65 <=? c) && (c <=? 90) then c + 32
  else if (192 <=? c) && (c <=? 222) && negb (c =? 215) then c + 32
  else if (1024 <=? c) && (c <=? 1039) then c + 80
  else if (1040 <=? c) && (c <=? 1071) then c + 32
  else c.

Definition lower_simple (s : pystr) : pystr := map lower_cp s.

(* ===================================================================== *)
(** * Runs: state, exceptions, calls *)
(* ===================================================================== *)

Inductive result (A : Type) : Type :=
| Ok (a : A)
| Raised (e : exn).
Arguments Ok {A} _.
Arguments Raised {A} _.

(** A computation reads the environment, changes the world and returns or
    raises; what it changed before raising stays changed. *)
Definition M (A : Type) : Type := Env -> World -> result A * World.

Definition ret {A} (a : A) : M A := fun _ w => (Ok a, w).

Definition bind {A B} (c : M A) (f : A -> M B) : M B :=
  fun E w =>
    match c E w with
    | (Ok a, w') => f a E w'
    | (Raised e, w') => (Raised e, w')
    end.

Definition raise {A} (e : exn) : M A := fun _ w => (Raised e, w).

(** [try: c  except Exception as e: h e]. *)
Definition try_except {A} (c : M A) (h : exn -> M A) : M A :=
  fun E w =>
    match c E w with
    | (Ok a, w') => (Ok a, w')
    | (Raised e, w') => h e E w'
    end.

Declare Scope run_scope.
Delimit Scope run_scope with run.
Notation "x <- c ;; k" := (bind c (fun x => k))
  (at level 100, c at next level, right associativity) : run_scope.
Notation "c ;; k" := (bind c (fun _ => k))
  (at level 100, right associativity) : run_scope.
Local Open Scope run_scope.

Definition ask {A} (f : Env -> A) : M A := fun E w => (Ok (f E), w).

Definition read_db {A} (f : Database -> A) : M A :=
  fun _ w => (Ok (f (db w)), w).

Definition set_db (d : Database) (w : World) : World :=
  mkWorld d (trace w) (logger w) (fsm w).

Definition write_db (f : Database -> Database) : M unit :=
  fun _ w => (Ok tt, set_db (f (db w)) w).

(** The world after one more log line, and after one more call. *)
Definition logged (l : LogRecord) (w : World) : World :=
  mkWorld (db w) (trace w) (logger w ++ [l]) (fsm w).

Definition called (c : Call) (w : World) : World :=
  mkWorld (db w) (trace w ++ [c]) (logger w) (fsm w).

(** [logger.info/warning/error]. *)
Definition log_line (l : LogRecord) : M unit :=
  fun _ w => (Ok tt, logged l w).

(** A call to a service: recorded in the trace, answered by the
    environment from the calls made before it. *)
Definition call {A} (c : Call) (answer : Env -> Trace -> exn + A) : M A :=
  fun E w =>
    match answer E (trace w) with
    | inl e => (Raised e, called c w)
    | inr a => (Ok a, called c w)
    end.

(** [d[key]] on a dictionary of text fields. *)
Definition dict_get (d : gmap string pystr) (key : string) : M pystr :=
  match d !! key with
  | Some v => ret v
  | None => raise (PyExc "KeyError" (py key))
  end.

(* ===================================================================== *)
(** * class Database *)
(* ===================================================================== *)

Definition set_published (v : list PublishedArticle) (d : Database)
  : Database :=
  mkDb (wp_categories d) v (article_fingerprints d) (user_settings d) (logs d).

Definition set_fingerprints (v : gmap string pystr) (d : Database)
  : Database :=
  mkDb (wp_categories d) (published_articles d) v (user_settings d) (logs d).

Definition set_settings (v : gmap Z UserSettings) (d : Database) : Database :=
  mkDb (wp_categories d) (published_articles d) (article_fingerprints d) v
       (logs d).

Definition set_logs (v : list LogRow) (d : Database) : Database :=
  mkDb (wp_categories d) (published_articles d) (article_fingerprints d)
       (user_settings d) v.

(** [SELECT id FROM wp_categories WHERE name = $1]. *)
Fixpoint find_category (name : pystr) (cats : list (Z * pystr)) : option Z :=
  match cats with
  | [] => None
  | (i, n) :: cats' =>
      if bool_decide (n = name) then Some i else find_category name cats'
  end.

Definition get_category_id_by_name (name : pystr) : M (option Z) :=
  read_db (fun d => find_category name (wp_categories d)).

(** [save_published_article]: the [sources] argument is not stored. *)
Definition save_published_article (user_id : Z) (wp_post_id : option Z)
    (tg_message_id : option Z) (title : pystr) (url : option pystr)
    (cat : option Z) (to_wp to_tg : bool) (sources : list NewsItem)
  : M unit :=
  write_db (fun d =>
    set_published
      (published_articles d ++
         [mkPublished user_id wp_post_id tg_message_id title url cat
                      to_wp to_tg]) d).

(** [hashlib.md5(title.lower().encode()).hexdigest()]. *)
Definition title_hash (lower : pystr -> pystr) (title : pystr) : string :=
  MD5.hexdigest (utf8_encode (lower title)).

(** [INSERT ... ON CONFLICT (title_hash) DO NOTHING]. *)
Definition insert_fingerprint (h : string) (title : pystr)
    (t : gmap string pystr) : gmap string pystr :=
  match t !! h with
  | Some _ => t
  | None => <[h := title]> t
  end.

Definition add_article_fingerprint (title : pystr) : M unit :=
  lower <- ask str_lower ;;
  let title_hash := title_hash lower title in
  write_db (fun d =>
    set_fingerprints
      (insert_fingerprint title_hash title (article_fingerprints d)) d).

Definition check_duplicate (title : pystr) : M bool :=
  lower <- ask str_lower ;;
  let title_hash := title_hash lower title in
  read_db (fun d => bool_decide (is_Some (article_fingerprints d !! title_hash))).

Definition default_settings : UserSettings :=
  mkSettings false 180 true false [] None.

(** [get_user_settings]: the stored row, or the defaults, inserted first. *)
Definition get_user_settings (user_id : Z) : M UserSettings :=
  row <- read_db (fun d => user_settings d !! user_id) ;;
  match row with
  | Some r => ret r
  | None =>
      write_db (fun d =>
        set_settings (<[user_id := default_settings]> (user_settings d)) d) ;;
      ret default_settings
  end.

(** [UPDATE user_settings SET last_publish_time = NOW() WHERE user_id = $1]. *)
Definition update_last_publish_time (user_id : Z) : M unit :=
  fun E w =>
    let t := db_now E (trace w) in
    write_db (fun d =>
      set_settings
        (alter (fun r =>
           mkSettings (auto_publish_enabled r) (auto_publish_interval r)
                      (auto_publish_to_wp r) (auto_publish_to_tg r)
                      (enabled_categories r) (Some t))
           user_id (user_settings d)) d) E w.

(** [log_action]: an empty [details] dictionary is stored as NULL. *)
Definition log_action (user_id : Z) (kind st : string) (message : pystr)
    (details : option LogDetails) : M unit :=
  write_db (fun d =>
    set_logs (logs d ++ [mkLog user_id kind st message details]) d).

(* ===================================================================== *)
(** * Services *)
(* ===================================================================== *)

(** [resp.json()]. *)
Definition resp_json {J} (r : HttpResponse J) : M J :=
  match json r with
  | inl e => raise e
  | inr j => ret j
  end.

(** [GNewsService.search_news(query, lang, country, max_results)]. *)
Definition search_news (query lang country : pystr) (max_results : Z)
  : M (list NewsItem) :=
  let cleaned_query := _sanitize_query query in
  try_except
    (resp <- call (CallGNewsSearch cleaned_query lang country max_results)
               (fun E t => gnews_get E t cleaned_query lang country
                                     max_results) ;;
     if status resp =? 200 then
       data <- resp_json resp ;;
       let articles := default [] (articles data) in
       log_line (LogGNewsOk (length articles) cleaned_query query) ;;
       ret articles
     else
       log_line (LogGNewsApiError (status resp) cleaned_query query
                                  (text resp)) ;;
       ret [])
    (fun e =>
       log_line (LogGNewsRequestFailed cleaned_query query e) ;;
       ret []).

(** The fields [generate_article] requires of the rewriter's answer. *)
Definition required : list string :=
  ["title"; "category"; "excerpt"; "content"; "seo_description"]%string.

(** [field in article_data] for every required field. *)
Definition has_required (article_data : gmap string pystr) : bool :=
  forallb (fun field => bool_decide (is_Some (article_data !! field)))
          required.

Definition MISSING_FIELDS : exn :=
  PyExc "ValueError" (py "Missing required fields in GPT response").

(** [GPTService.generate_article(sources)]. *)
Definition generate_article (sources : list NewsItem)
  : M (gmap string pystr) :=
  try_except
    (response <- call (CallGptChat sources)
                   (fun E t => gpt_chat E t sources) ;;
     article_data <- match response with
                     | inl e => raise e
                     | inr d => ret d
                     end ;;
     if negb (has_required article_data) then raise MISSING_FIELDS
     else ret article_data)
    (fun e => log_line (LogGptFailed e) ;; raise e).

(** [WordPressService.upload_image]: the download, the re-encoding and the
    media upload as one call; it returns the media id or raises. *)
Definition upload_image (src : ImageSource) : M Z :=
  call (CallWpUploadImage src) (fun E t => wp_upload E t src).

(** [str(n)] for an integer. *)
Definition str_of_Z (n : Z) : pystr :=
  bytes_of_string (DecimalString.NilZero.string_of_int (Z.to_int n)).

(** [WordPressService.create_post(article, featured_media_id)]. *)
Definition create_post (a : Article) (featured_media_id : option Z)
  : M WpPost :=
  resp <- call (CallWpCreatePost a featured_media_id)
            (fun E t => wp_post E t a featured_media_id) ;;
  if negb ((status resp =? 200) || (status resp =? 201)) then
    raise (PyExc "Exception"
             (py "Post creation failed: " ++ str_of_Z (status resp)
                 ++ py " - " ++ text resp))
  else resp_json resp.

(** [bot.send_message(chat_id, text, parse_mode=...)]: the message id. *)
Definition send_message (chat : chat_id) (body : pystr) (mode : parse_mode)
  : M Z :=
  call (CallSendMessage chat body mode) (fun E t => tg_send E t chat body mode).

(** [message.edit_text(text, ...)]. *)
Definition edit_text (body : pystr) : M unit :=
  call (CallEditText body) (fun E t => tg_edit E t body).

(** [callback.answer(text, show_alert=True)]. *)
Definition callback_answer (body : pystr) : M unit :=
  call (CallAnswer body) (fun E t => tg_answer E t body).

(* ===================================================================== *)
(** * class AutoPublishScheduler *)
(* ===================================================================== *)

(** Truth of an optional text ([if wp_url:]) and of an optional integer
    ([if tg_message_id:]). *)
Definition truthy_str (s : option pystr) : bool :=
  match s with
  | Some (_ :: _) => true
  | _ => false
  end.

Definition truthy_int (n : option Z) : bool :=
  match n with
  | Some z => negb (z =? 0)
  | None => false
  end.

(** [category_id not in enabled_cats]. *)
Definition not_in_cats (cat : option Z) (cats : list Z) : bool :=
  match cat with
  | Some c => negb (existsb (Z.eqb c) cats)
  | None => true
  end.

Definition is_nil {A} (l : list A) : bool :=
  match l with [] => true | _ => false end.

Definition MSG_NO_NEWS : pystr := py "⚠️ Автопублікація: новини не знайдено".

Definition MSG_DUPLICATE : pystr := py "⏭️ Виявлено дублікат статті".

Definition msg_skipped (category : pystr) : pystr :=
  py "⏭️ Статтю пропущено (категорія '" ++ category ++ py "' вимкнена)".

Definition msg_failed (e : exn) : pystr :=
  py "❌ Помилка автопублікації: " ++ exn_str e.

(** The channel post: the converted content, the link to the site when the
    post was created there, and the footer. *)
Definition channel_text (site_url : pystr) (content : pystr)
    (wp_url : option pystr) : pystr :=
  let telegram_content := html_to_telegram content 3800 in
  let telegram_content :=
    if truthy_str wp_url then
      telegram_content ++ [NL; NL] ++ py "📰 <b>Читати повністю:</b> "
        ++ default [] wp_url ++ [NL; NL]
    else telegram_content in
  telegram_content ++ py "<b>Джерело:</b> <a href='" ++ site_url
    ++ py "'>Спільно</a>".

Definition auto_result_text (title : pystr) (wp_url : option pystr)
    (tg_message_id : option Z) : pystr :=
  let result_text :=
    py "✅ **АВТОПУБЛІКАЦІЯ**" ++ [NL; NL] ++ py "📰 " ++ title ++ [NL; NL] in
  let result_text :=
    if truthy_str wp_url
    then result_text ++ py "🌐 WordPress: " ++ default [] wp_url ++ [NL]
    else result_text in
  if truthy_int tg_message_id
  then result_text ++ py "📱 Telegram: опубліковано" ++ [NL]
  else result_text.

(** Cover image: a failed upload is logged and the run goes on without. *)
Definition upload_cover (main_news : NewsItem) : M (option Z) :=
  if truthy_str (n_image main_news) then
    try_except
      (m <- upload_image (mkImage false None (n_image main_news)) ;;
       ret (Some m))
      (fun e => log_line (LogImageUploadFailed e) ;; ret None)
  else ret None.

(** Site phase: [wp_post_id] and [wp_url]. *)
Definition site_phase (settings : UserSettings) (art : Article)
    (featured_media_id : option Z) : M (option Z * option pystr) :=
  if auto_publish_to_wp settings then
    wp_post <- create_post art featured_media_id ;;
    ret (Some (wp_id wp_post), Some (wp_link wp_post))
  else ret (None, None).

(** Channel phase: [tg_message_id]. *)
Definition channel_phase (settings : UserSettings)
    (article : gmap string pystr) (wp_url : option pystr) : M (option Z) :=
  if auto_publish_to_tg settings then
    content <- dict_get article "content" ;;
    site <- ask WP_SITE_URL ;;
    channel <- ask CHANNEL_ID ;;
    tg_msg <- send_message (ChatStr channel)
                (channel_text site content wp_url) HTML ;;
    ret (Some tg_msg)
  else ret None.

(** Record, fingerprint, last publish time, report to the operator, audit
    log. *)
Definition record_phase (user_id : Z) (settings : UserSettings)
    (sources : list NewsItem) (title : pystr) (cat : option Z)
    (wp_post_id : option Z) (wp_url : option pystr)
    (tg_message_id : option Z) : M unit :=
  save_published_article user_id wp_post_id tg_message_id title wp_url cat
    (auto_publish_to_wp settings) (auto_publish_to_tg settings) sources ;;
  add_article_fingerprint title ;;
  update_last_publish_time user_id ;;
  send_message (ChatInt user_id)
    (auto_result_text title wp_url tg_message_id) Markdown ;;
  log_action user_id "auto_publish" "success"
    (py "Auto-published: " ++ title)
    (Some (mkDetails wp_post_id wp_url)).

(** The steps of [auto_publish_task] after the duplicate check. *)
Definition auto_publish_steps (user_id : Z) (settings : UserSettings)
    (main_news : NewsItem) (sources : list NewsItem)
    (article : gmap string pystr) (cat : option Z) : M unit :=
  title <- dict_get article "title" ;;
  featured_media_id <- upload_cover main_news ;;
  wp <- site_phase settings (mkArticle article cat) featured_media_id ;;
  tg_message_id <- channel_phase settings article (snd wp) ;;
  record_phase user_id settings sources title cat (fst wp) (snd wp)
    tg_message_id.

(** The seed search and the source search of the scheduled task. *)
Definition search_seed : M (list NewsItem) :=
  search_news DEFAULT_TOPIC (py "uk") (py "ua") 10.

Definition search_sources (main_news : NewsItem) : M (list NewsItem) :=
  let title := default [] (n_title main_news) in
  let query_words := extract_keywords_from_title title 5 in
  search_news query_words (py "uk") (py "ua") 10.

(** From the rewritten article on: category check, duplicate check,
    publication. *)
Definition publish_rewritten (user_id : Z) (settings : UserSettings)
    (main_news : NewsItem) (sources : list NewsItem)
    (article : gmap string pystr) : M unit :=
  category <- dict_get article "category" ;;
  cat <- get_category_id_by_name category ;;
  let enabled_cats := enabled_categories settings in
  if negb (is_nil enabled_cats) && not_in_cats cat enabled_cats then
    send_message (ChatInt user_id) (msg_skipped category) NoParseMode ;;
    ret tt
  else
    title <- dict_get article "title" ;;
    dup <- check_duplicate title ;;
    if dup then
      send_message (ChatInt user_id) MSG_DUPLICATE NoParseMode ;; ret tt
    else
      auto_publish_steps user_id settings main_news sources article cat.

(** The body of the [try] of [auto_publish_task]. *)
Definition auto_publish_body (user_id : Z) : M unit :=
  settings <- get_user_settings user_id ;;
  if negb (auto_publish_enabled settings) then ret tt
  else
    news <- search_seed ;;
    match news with
    | [] => send_message (ChatInt user_id) MSG_NO_NEWS NoParseMode ;; ret tt
    | main_news :: _ =>
        sources <- search_sources main_news ;;
        article <- generate_article sources ;;
        publish_rewritten user_id settings main_news sources article
    end.

(** The [except] branch of [auto_publish_task]: a log line, an error row
    in the audit log, a message to the operator. *)
Definition failure_report (user_id : Z) (e : exn) : M unit :=
  log_line (LogAutoPublishFailed e) ;;
  log_action user_id "auto_publish" "error" (exn_str e) None ;;
  send_message (ChatInt user_id) (msg_failed e) NoParseMode ;;
  ret tt.

(** [AutoPublishScheduler.auto_publish_task(user_id)]. *)
Definition auto_publish_task (user_id : Z) : M unit :=
  try_except (auto_publish_body user_id) (failure_report user_id).

(* ===================================================================== *)
(** * The manual handler *)
(* ===================================================================== *)

(** A pressed button: its [data] and the operator who pressed it. *)
Record Callback : Type := mkCallback {
  cb_data : pystr;
  from_user_id : Z
}.

Definition set_fsm (f : FsmData) : M unit :=
  fun _ w => (Ok tt, mkWorld (db w) (trace w) (logger w) f).

Definition manual_result_text (title category : pystr)
    (wp_url : option pystr) (tg_message_id : option Z) (n_sources : nat)
  : pystr :=
  let result_text :=
    py "✅ **ОПУБЛІКОВАНО!**" ++ [NL; NL] ++ py "📰 **" ++ title ++ py "**"
      ++ [NL; NL] in
  let result_text :=
    if truthy_str wp_url
    then result_text ++ py "🌐 WordPress: " ++ default [] wp_url ++ [NL]
    else result_text in
  let result_text :=
    if truthy_int tg_message_id
    then result_text ++ py "📱 Telegram: опубліковано" ++ [NL]
    else result_text in
  result_text ++ [NL] ++ py "📁 Категорія: " ++ category ++ [NL]
    ++ py "📊 Джерел: " ++ str_of_Z (Z.of_nat n_sources).

(** [publish_type in ['wp', 'both']] and [publish_type in ['tg', 'both']]. *)
Definition wants_wp (publish_type : pystr) : bool :=
  bool_decide (publish_type = py "wp") || bool_decide (publish_type = py "both").

Definition wants_tg (publish_type : pystr) : bool :=
  bool_decide (publish_type = py "tg") || bool_decide (publish_type = py "both").

(** The body of the [try] of [publish_handler]. *)
Definition publish_body (cb : Callback) (publish_type : pystr)
    (article : Article) (image : option ImageSource)
    (sources : list NewsItem) : M unit :=
  wp <- (if wants_wp publish_type then
           edit_text (py "📤 Завантажую зображення...") ;;
           featured_media_id <-
             (match image with
              | Some src =>
                  try_except (m <- upload_image src ;; ret (Some m))
                    (fun e => log_line (LogImageUploadFailed e) ;; ret None)
              | None => ret None
              end) ;;
           edit_text (py "📤 Створюю пост на WordPress...") ;;
           wp_post <- create_post article featured_media_id ;;
           ret (Some (wp_id wp_post), Some (wp_link wp_post))
         else ret (None, None)) ;;
  let wp_post_id := fst wp in
  let wp_url := snd wp in
  tg_message_id <-
    (if wants_tg publish_type then
       edit_text (py "📤 Публікую в Telegram...") ;;
       content <- dict_get (fields article) "content" ;;
       site <- ask WP_SITE_URL ;;
       channel <- ask CHANNEL_ID ;;
       tg_msg <- send_message (ChatStr channel)
                   (channel_text site content wp_url) HTML ;;
       ret (Some tg_msg)
     else ret None) ;;
  edit_text (py "📤 Зберігаю в БД...") ;;
  title <- dict_get (fields article) "title" ;;
  save_published_article (from_user_id cb) wp_post_id tg_message_id title
    wp_url (category_id article) (wants_wp publish_type)
    (wants_tg publish_type) sources ;;
  add_article_fingerprint title ;;
  log_action (from_user_id cb) "publish" "success"
    (py "Published: " ++ title) (Some (mkDetails wp_post_id None)) ;;
  category <- dict_get (fields article) "category" ;;
  edit_text (manual_result_text title category wp_url tg_message_id
               (length sources)) ;;
  set_fsm fsm_empty.

(** [publish_handler(callback, state, db)], bound to the buttons whose
    data starts with [publish_]. *)
Definition publish_handler (cb : Callback) : M unit :=
  publish_type <-
    (match py_split_char 95 (cb_data cb) with
     | _ :: t :: _ => ret t
     | _ => raise (PyExc "IndexError" (py "list index out of range"))
     end) ;;
  data <- (fun _ w => (Ok (fsm w), w)) ;;
  match generated_article data with
  | None => callback_answer (py "❌ Статтю не знайдено")
  | Some article =>
      edit_text (py "📤 Публікую...") ;;
      try_except
        (publish_body cb publish_type article (selected_image data)
                      (fsm_sources data))
        (fun e =>
           log_line (LogPublishingFailed e) ;;
           log_action (from_user_id cb) "publish" "error" (exn_str e) None ;;
           edit_text (py "❌ Помилка публікації:" ++ [NL; NL] ++ exn_str e))
  end.

(** A call to one of the two destinations: the site (image upload, post
    creation) or the channel. *)
Definition is_destination_call (E : Env) (c : Call) : bool :=
  match c with
  | CallWpUploadImage _ => true
  | CallWpCreatePost _ _ => true
  | CallSendMessage (ChatStr s) _ _ => bool_decide (s = CHANNEL_ID E)
  | _ => false
  end.

(** The calls a run added to the trace. *)
Definition new_calls (w w' : World) : Trace :=
  skipn (length (trace w)) (trace w').

Definition new_logs (w w' : World) : list LogRow :=
  skipn (length (logs (db w))) (logs (db w')).

(* ===================================================================== *)
(** * The derived query, as the specification words it *)
(* ===================================================================== *)

(** A character the derivation removes. *)
Definition is_removed (c : Z) : bool := cset_mem special_chars c.

(** Tokens are the runs between removed characters and white space; tokens
    of length at most two are discarded; the first five that remain are
    joined by a space; an empty result, or one under three characters, gives
    way to the default topic. *)
Definition derived_query (title : pystr) : pystr :=
  let tokens := split_aux (fun c => is_removed c || is_space c) [] title in
  let significant := List.filter (fun w => negb (py_len w <=? 2)) tokens in
  let query := py_join SPACE (firstn 5 significant) in
  if is_nil query || (py_len query <? 3) then DEFAULT_TOPIC else query.

(** A word: not empty, and free of separators. *)
Definition word_of (sep : Z -> bool) (w : pystr) : Prop :=
  w <> [] /\ Forall (fun c => sep c = false) w.

(** The words [extract_keywords_from_title] keeps. *)
Definition kept_words (title : pystr) (max_words : nat) : list pystr :=
  firstn max_words
    (List.filter (fun w => 2 <? py_len w)
       (split_aux (fun c => is_removed c || is_space c) [] title)).

(* ===================================================================== *)
(** * Fingerprint histories and pipeline stages *)
(* ===================================================================== *)


(** Automatic mode is on for the operator, the seed search found
    [main_news] first, the source search found [sources], and [w2] is the
    world in which the rewriter is asked. *)
Definition sourced (user_id : Z) (E : Env) (w : World) (s : UserSettings)
    (main_news : NewsItem) (sources : list NewsItem) (w2 : World) : Prop :=
  user_settings (db w) !! user_id = Some s
  /\ auto_publish_enabled s = true
  /\ exists rest w1,
       search_seed E w = (Ok (main_news :: rest), w1)
       /\ search_sources main_news E w1 = (Ok sources, w2).

(** The scheduled run for [user_id] got the rewritten [article] and stands,
    in world [w3], before the category check. *)
Definition rewritten (user_id : Z) (E : Env) (w : World) (s : UserSettings)
    (main_news : NewsItem) (sources : list NewsItem)
    (article : gmap string pystr) (w3 : World) : Prop :=
  exists w2,
    sourced user_id E w s main_news sources w2
    /\ generate_article sources E w2 = (Ok article, w3).

(** The category filter lets the article through. *)
Definition passes_filter (s : UserSettings) (cat : option Z) : bool :=
  negb (negb (is_nil (enabled_categories s))
        && not_in_cats cat (enabled_categories s)).

(** The two search calls of a scheduled run. *)
Definition seed_call : Call :=
  CallGNewsSearch (_sanitize_query DEFAULT_TOPIC) (py "uk") (py "ua") 10.

Definition sources_call (main_news : NewsItem) : Call :=
  CallGNewsSearch
    (_sanitize_query
       (extract_keywords_from_title (default [] (n_title main_news)) 5))
    (py "uk") (py "ua") 10.

(** A message to the operator. *)
Definition told (user_id : Z) (body : pystr) : Call :=
  CallSendMessage (ChatInt user_id) body NoParseMode.

(** A computation that leaves the database as it found it. *)
Definition keeps_db {A} (c : M A) : Prop :=
  forall E w, db (snd (c E w)) = db w.

(** A computation that only adds calls to the trace. *)
Definition grows_trace {A} (c : M A) : Prop :=
  forall E w, exists l, trace (snd (c E w)) = trace w ++ l.

(** The error row [failure_report] writes. *)
Definition error_row (user_id : Z) (e : exn) : LogRow :=
  mkLog user_id "auto_publish" "error" (exn_str e) None.




(* ===================================================================== *)
(** * Scenarios *)
(* ===================================================================== *)

Definition operator : Z := 1001.

Definition news_example : NewsItem :=
  mkNews (Some title_example) (Some (py "Огляд тижня"))
         (Some (py "https://example.org/a")) None (Some (py "Укрінформ")).

Definition article_title : pystr := py "Економіка зростає".

Definition reply_full : gmap string pystr :=
  list_to_map
    [("title"%string, article_title);
     ("category"%string, py "Вдома");
     ("excerpt"%string, py "Коротко про головне");
     ("content"%string, html_example);
     ("seo_description"%string, py "Огляд економіки")].

(** The same answer without its [seo_description]. *)
Definition reply_partial : gmap string pystr :=
  delete "seo_description"%string reply_full.

Definition post_example : WpPost := mkWpPost 42 (py "https://spilno.online/?p=42").

Definition channel_down : exn := PyExc "TelegramAPIError" (py "chat not found").

(** Every service answers well. *)
Definition env_ok : Env :=
  {| CHANNEL_ID := py "@spilno_news";
     WP_SITE_URL := py "https://spilno.online";
     str_lower := lower_simple;
     db_now := fun _ => 1730000000;
     gnews_get := fun _ _ _ _ _ =>
       inr (mkResp 200 [] (inr (mkBody (Some [news_example]))));
     gpt_chat := fun _ _ => inr (inr reply_full);
     wp_upload := fun _ _ => inr 7;
     wp_post := fun _ _ _ => inr (mkResp 201 [] (inr post_example));
     tg_send := fun _ _ _ _ => inr 500;
     tg_edit := fun _ _ => inr tt;
     tg_answer := fun _ _ => inr tt |}.

(** The channel refuses the post; messages to operators pass. *)
Definition env_channel_down : Env :=
  {| CHANNEL_ID := CHANNEL_ID env_ok;
     WP_SITE_URL := WP_SITE_URL env_ok;
     str_lower := str_lower env_ok;
     db_now := db_now env_ok;
     gnews_get := gnews_get env_ok;
     gpt_chat := gpt_chat env_ok;
     wp_upload := wp_upload env_ok;
     wp_post := wp_post env_ok;
     tg_send := fun _ chat _ _ =>
       match chat with
       | ChatStr _ => inl channel_down
       | ChatInt _ => inr 500
       end;
     tg_edit := tg_edit env_ok;
     tg_answer := tg_answer env_ok |}.

(** The rewriter leaves a required field out. *)
Definition env_partial_reply : Env :=
  {| CHANNEL_ID := CHANNEL_ID env_ok;
     WP_SITE_URL := WP_SITE_URL env_ok;
     str_lower := str_lower env_ok;
     db_now := db_now env_ok;
     gnews_get := gnews_get env_ok;
     gpt_chat := fun _ _ => inr (inr reply_partial);
     wp_upload := wp_upload env_ok;
     wp_post := wp_post env_ok;
     tg_send := tg_send env_ok;
     tg_edit := tg_edit env_ok;
     tg_answer := tg_answer env_ok |}.


Definition categories_example : list (Z * pystr) :=
  [(1, py "У світі"); (2, py "Вдома"); (3, py "Поради")].

(** A database with one operator and the given fingerprints. *)
Definition db_example (s : UserSettings) (fps : gmap string pystr)
  : Database :=
  mkDb categories_example [] fps {[ operator := s ]} [].

Definition world_example (s : UserSettings) (fps : gmap string pystr)
  : World :=
  mkWorld (db_example s fps) [] [] fsm_empty.

(** Both destinations on, every category allowed. *)
Definition settings_on : UserSettings := mkSettings true 180 true true [] None.

(** Only the category with id 1 allowed. *)
Definition settings_restricted : UserSettings :=
  mkSettings true 180 true true [1] None.

(** A fresh database: no operator, no fingerprint. *)
Definition world_fresh : World :=
  mkWorld (mkDb categories_example [] ∅ ∅ []) [] [] fsm_empty.

(** The fingerprint of the article's title is registered. *)
Definition fingerprints_seen : gmap string pystr :=
  insert_fingerprint (title_hash lower_simple article_title) article_title ∅.

(** The operator has the article in the conversation state and presses
    the button that publishes to the site. *)
Definition world_manual : World :=
  mkWorld (db_example settings_on fingerprints_seen) [] []
          (mkFsm (Some (mkArticle reply_full (Some 2))) None [news_example]).

Definition press_publish_wp : Callback := mkCallback (py "publish_wp") operator.

(** The worlds of a scheduled run after its two searches and after the
    rewriter answered, when the seed search found [news_example]. *)
Definition world_sourced (E : Env) (w : World) : World :=
  snd (search_sources news_example E (snd (search_seed E w))).

Definition world_rewritten (E : Env) (w : World) : World :=
  snd (generate_article [news_example] E (world_sourced E w)).


(** The worlds the scenario runs end in. *)
Definition end_filtered : World :=
  snd (auto_publish_task operator env_ok
         (world_example settings_restricted ∅)).

Definition end_channel_down : World :=
  snd (auto_publish_task operator env_channel_down
         (world_example settings_on ∅)).

Definition end_manual : World :=
  snd (publish_handler press_publish_wp env_ok world_manual).

Definition end_full : World :=
  snd (auto_publish_task operator env_ok (world_example settings_on ∅)).

From Stdlib Require DecimalPos DecimalZ.

(* ===================================================================== *)
(** * More of the text utilities *)
(* ===================================================================== *)

(** [<[^>]+>], the pattern of [strip_html_tags]. *)
Definition re_tag : regex := seqs [Chr LT; Plus not_gt; Chr GT].

(** [strip_html_tags(text)]. *)
Definition strip_html_tags (text : pystr) : pystr := re_sub re_tag [] text.

(** No match of [r] starts anywhere in [s]. *)
Fixpoint match_free (r : regex) (s : pystr) : Prop :=
  re_match r s = None
  /\ match s with
     | [] => True
     | _ :: s' => match_free r s'
     end.

(** The number of line feeds [s] starts with. *)
Fixpoint leading_newlines (s : pystr) : nat :=
  match s with
  | c :: s' => if c =? NL then S (leading_newlines s') else O
  | [] => O
  end.

(** A text in the normal form of the sanitizer: its words, joined by single
    spaces. *)
Definition single_spaced (s : pystr) : Prop :=
  py_join SPACE (py_split s) = s.

(** The words of a text after the special characters gave way to spaces. *)
Definition clean_words (s : pystr) : list pystr :=
  split_aux (fun c => is_removed c || is_space c) [] s.

(** The words [_sanitize_query] keeps: all of them, or the first ten when
    the cleaned query is longer than a hundred characters. *)
Definition sanitized_words (query : pystr) : list pystr :=
  if 100 <? py_len (py_join SPACE (clean_words query))
  then firstn 10 (clean_words query)
  else clean_words query.

(** [l[:k]] on a list: a negative bound counts from the end. *)
Definition py_list_to {A} (l : list A) (k : Z) : list A :=
  if k <? 0 then firstn (Z.to_nat (Z.of_nat (length l) + k)) l
  else firstn (Z.to_nat k) l.

(** [words] of [extract_keywords_from_title]: the words of the cleaned
    title that are longer than two characters. *)
Definition long_words (title : pystr) : list pystr :=
  List.filter (fun w => 2 <? py_len w)
    (py_split (re_sub (OneOf special_chars) [TLit SPACE] title)).

(** [extract_keywords_from_title(title, max_words)] for any integer
    [max_words]: [words[:max_words]] is a slice, and a negative limit
    drops words from the end. *)
Definition extract_keywords_from_title_int (title : pystr) (max_words : Z)
  : pystr :=
  match title with
  | [] => DEFAULT_TOPIC
  | _ =>
      let cleaned := re_sub (OneOf special_chars) [TLit SPACE] title in
      let words := List.filter (fun w => 2 <? py_len w) (py_split cleaned) in
      let keywords := py_join SPACE (py_list_to words max_words) in
      match keywords with
      | [] => DEFAULT_TOPIC
      | _ =>
          if py_len (py_strip keywords) <? 3 then DEFAULT_TOPIC
          else py_strip keywords
      end
  end.

(** How many of [n] words the slice [words[:k]] keeps at most. *)
Definition slice_count (n : nat) (k : Z) : nat :=
  if k <? 0 then Z.to_nat (Z.of_nat n + k) else Z.to_nat k.

(** The rest of [s] after its longest prefix in [p]. *)
Fixpoint drop_while (p : Z -> bool) (s : pystr) : pystr :=
  match s with
  | c :: s' => if p c then drop_while p s' else s
  | [] => []
  end.

(** A pattern that must read [<] first. *)
Definition opens_with_lt (r : regex) : Prop :=
  forall (s : pystr) g k,
    match s with
    | c :: _ => c <> LT
    | [] => True
    end -> rmatch r s g k = None.

(* ===================================================================== *)
(** * The scheduled run, past its checks *)
(* ===================================================================== *)

(** The row [save_published_article] writes in a scheduled run, [wp] being
    the post's id and link. *)
Definition record_of (user_id : Z) (s : UserSettings) (title : pystr)
    (cat : option Z) (wp : option Z * option pystr) (tg_message_id : option Z)
  : PublishedArticle :=
  mkPublished user_id (fst wp) tg_message_id title (snd wp) cat
              (auto_publish_to_wp s) (auto_publish_to_tg s).

(** The audit row of a successful scheduled run. *)
Definition success_row (user_id : Z) (title : pystr)
    (wp : option Z * option pystr) : LogRow :=
  mkLog user_id "auto_publish" "success" (py "Auto-published: " ++ title)
        (Some (mkDetails (fst wp) (snd wp))).

(** A settings row with [last_publish_time] set to [t]. *)
Definition stamped (t : Z) (r : UserSettings) : UserSettings :=
  mkSettings (auto_publish_enabled r) (auto_publish_interval r)
             (auto_publish_to_wp r) (auto_publish_to_tg r)
             (enabled_categories r) (Some t).

(** The scheduled run for [user_id] holds the rewritten [article], its
    category [cat] passes the filter and its [title] has no fingerprint:
    in world [w3] the run stands before the cover upload. *)
Definition cleared (user_id : Z) (E : Env) (w : World) (s : UserSettings)
    (main_news : NewsItem) (sources : list NewsItem)
    (article : gmap string pystr) (w3 : World) (cat : option Z)
    (title : pystr) : Prop :=
  rewritten user_id E w s main_news sources article w3
  /\ (exists category,
        article !! "category"%string = Some category
        /\ cat = find_category category (wp_categories (db w)))
  /\ passes_filter s cat = true
  /\ article !! "title"%string = Some title
  /\ article_fingerprints (db w) !! title_hash (str_lower E) title = None.

(** The database after the three writes of [record_phase], made at the
    trace [t]. *)
Definition db_recorded (E : Env) (t : Trace) (user_id : Z)
    (rec : PublishedArticle) (d : Database) : Database :=
  set_settings
    (alter (stamped (db_now E t)) user_id (user_settings d))
    (set_fingerprints
       (insert_fingerprint (title_hash (str_lower E) (pa_title rec))
          (pa_title rec) (article_fingerprints d))
       (set_published (published_articles d ++ [rec]) d)).

(** The upload call for the cover of [main_news]. *)
Definition cover_call (main_news : NewsItem) : Call :=
  CallWpUploadImage (mkImage false None (n_image main_news)).

(** A message posted to a channel, as opposed to an operator's chat. *)
Definition is_channel_post (c : Call) : bool :=
  match c with
  | CallSendMessage (ChatStr _) _ _ => true
  | _ => false
  end.

(** The exception [create_post] raises on a status other than 200, 201. *)
Definition post_refused (resp : HttpResponse WpPost) : exn :=
  PyExc "Exception"
    (py "Post creation failed: " ++ str_of_Z (status resp) ++ py " - "
        ++ text resp).


(** The audit row a run leaves once its record is written: the success row
    if the report reached the operator, the error row of the failed report
    otherwise. *)
Definition report_row (E : Env) (t : Trace) (user_id : Z) (title : pystr)
    (wp : option Z * option pystr) (tg_message_id : option Z) : LogRow :=
  match tg_send E t (ChatInt user_id)
          (auto_result_text title (snd wp) tg_message_id) Markdown with
  | inr _ => success_row user_id title wp
  | inl e => error_row user_id e
  end.

(** The site answers 500 to every post; the other services answer well. *)
Definition env_site_refuses : Env :=
  {| CHANNEL_ID := CHANNEL_ID env_ok;
     WP_SITE_URL := WP_SITE_URL env_ok;
     str_lower := str_lower env_ok;
     db_now := db_now env_ok;
     gnews_get := gnews_get env_ok;
     gpt_chat := gpt_chat env_ok;
     wp_upload := wp_upload env_ok;
     wp_post := fun _ _ _ =>
       inr (mkResp 500 (py "Internal Server Error")
                   (inl (PyExc "ContentTypeError" [])));
     tg_send := tg_send env_ok;
     tg_edit := tg_edit env_ok;
     tg_answer := tg_answer env_ok |}.

(** The operator has blocked the bot: the channel takes the post, the
    operator's chat refuses every message. *)
Definition operator_blocked : exn :=
  PyExc "TelegramForbiddenError" (py "bot was blocked by the user").

Definition env_operator_blocked : Env :=
  {| CHANNEL_ID := CHANNEL_ID env_ok;
     WP_SITE_URL := WP_SITE_URL env_ok;
     str_lower := str_lower env_ok;
     db_now := db_now env_ok;
     gnews_get := gnews_get env_ok;
     gpt_chat := gpt_chat env_ok;
     wp_upload := wp_upload env_ok;
     wp_post := wp_post env_ok;
     tg_send := fun _ chat _ _ =>
       match chat with
       | ChatStr _ => inr 500
       | ChatInt _ => inl operator_blocked
       end;
     tg_edit := tg_edit env_ok;
     tg_answer := tg_answer env_ok |}.


(** How a post fails: the exception [create_post] raises for the site's
    answer, if any.  A connection error, a status other than 200 and 201,
    or a body that is not JSON. *)
Definition post_failure (a : exn + HttpResponse WpPost) : option exn :=
  match a with
  | inl e => Some e
  | inr resp =>
      if negb ((status resp =? 200) || (status resp =? 201))
      then Some (post_refused resp)
      else match json resp with
           | inl e => Some e
           | inr _ => None
           end
  end.

(** The worlds of the scenario runs, named for the statements below. *)
Definition world_cleared (E : Env) : World :=
  world_rewritten E (world_example settings_on ∅).

Definition article_example : Article := mkArticle reply_full (Some 2).

Definition world_posted (E : Env) : World :=
  snd (site_phase settings_on article_example None E (world_cleared E)).

Definition world_sent (E : Env) : World :=
  snd (channel_phase settings_on reply_full (Some (wp_link post_example)) E
         (world_posted E)).

Definition end_site_refuses : World :=
  snd (auto_publish_task operator env_site_refuses
         (world_example settings_on ∅)).

Definition end_operator_blocked : World :=
  snd (auto_publish_task operator env_operator_blocked
         (world_example settings_on ∅)).

(** A later answer of the rewriter, under another title. *)
Definition other_title : pystr := py "Ціни падають".

Definition env_other_title : Env :=
  {| CHANNEL_ID := CHANNEL_ID env_ok;
     WP_SITE_URL := WP_SITE_URL env_ok;
     str_lower := str_lower env_ok;
     db_now := db_now env_ok;
     gnews_get := gnews_get env_ok;
     gpt_chat := fun _ _ =>
       inr (inr (<["title"%string := other_title]> reply_full));
     wp_upload := wp_upload env_ok;
     wp_post := wp_post env_ok;
     tg_send := tg_send env_ok;
     tg_edit := tg_edit env_ok;
     tg_answer := tg_answer env_ok |}.

(** The record of the scenario run that publishes [title] to both
    destinations. *)
Definition record_example (title : pystr) : PublishedArticle :=
  record_of operator settings_on title (Some 2)
            (Some 42, Some (wp_link post_example)) (Some 500).

(* ===================================================================== *)
(** * Reasoning about runs *)
(* ===================================================================== *)

(** [c], run in [w], ends in a result and a world that satisfy [Q]. *)
Definition wp {A} (c : M A) (E : Env) (w : World)
    (Q : result A -> World -> Prop) : Prop :=
  Q (fst (c E w)) (snd (c E w)).

(** [state.get_data()]. *)
Definition get_fsm : M FsmData := fun _ w => (Ok (fsm w), w).


(* ===================================================================== *)
(** * The manual handler, outcomes *)
(* ===================================================================== *)

(** The error row [publish_handler] writes. *)
Definition manual_error_row (cb : Callback) (e : exn) : LogRow :=
  mkLog (from_user_id cb) "publish" "error" (exn_str e) None.

(** The success row of a manual publication: its details hold the post's
    id only. *)
Definition manual_success_row (cb : Callback) (title : pystr)
    (wp_post_id : option Z) : LogRow :=
  mkLog (from_user_id cb) "publish" "success" (py "Published: " ++ title)
        (Some (mkDetails wp_post_id None)).

(** What a manual publication has written once its record is stored. *)
Definition manually_recorded (E : Env) (cb : Callback) (w wf : World)
    (title : pystr) : Prop :=
  exists rec rows,
    published_articles (db wf) = published_articles (db w) ++ [rec]
    /\ pa_title rec = title
    /\ pa_user_id rec = from_user_id cb
    /\ article_fingerprints (db wf)
       = insert_fingerprint (title_hash (str_lower E) title) title
           (article_fingerprints (db w))
    /\ logs (db wf)
       = logs (db w)
           ++ manual_success_row cb title (pa_wp_post_id rec) :: rows.


(** The invariant of the two stores: the title of every record has its
    fingerprint. *)
Definition records_have_fingerprints (E : Env) (w : World) : Prop :=
  Forall (fun rec =>
            is_Some (article_fingerprints (db w)
                       !! title_hash (str_lower E) (pa_title rec)))
         (published_articles (db w)).

(** What happens to the bot, one event after the other: the scheduler
    fires for an operator, an operator presses a publish button, a
    fingerprint is registered. *)
Inductive Event : Type :=
| Fired (user_id : Z)
| Pressed (cb : Callback)
| Registered (title : pystr).

Definition run_event (E : Env) (ev : Event) (w : World) : World :=
  match ev with
  | Fired user_id => snd (auto_publish_task user_id E w)
  | Pressed cb => snd (publish_handler cb E w)
  | Registered title => snd (add_article_fingerprint title E w)
  end.

Definition run_events (E : Env) (evs : list Event) (w : World) : World :=
  fold_left (fun w ev => run_event E ev w) evs w.

(** The scenario store with the article's fingerprint registered. *)
Definition world_seen : World := world_example settings_on fingerprints_seen.

(* ===================================================================== *)
(** * class Database: the settings of an operator *)
(* ===================================================================== *)

(** A column of [user_settings] and the value written to it: the [key]
    and [value] of [update_user_setting], for the columns the bot writes.
    [enabled_categories] is stored as JSON text and read back as the same
    list. *)
Inductive Setting : Type :=
| Set_auto_publish_enabled (value : bool)
| Set_auto_publish_interval (value : Z)
| Set_auto_publish_to_wp (value : bool)
| Set_auto_publish_to_tg (value : bool)
| Set_enabled_categories (value : list Z).

(** [UPDATE user_settings SET key = value], on one row. *)
Definition apply_setting (kv : Setting) (r : UserSettings) : UserSettings :=
  match kv with
  | Set_auto_publish_enabled v =>
      mkSettings v (auto_publish_interval r) (auto_publish_to_wp r)
                 (auto_publish_to_tg r) (enabled_categories r)
                 (last_publish_time r)
  | Set_auto_publish_interval v =>
      mkSettings (auto_publish_enabled r) v (auto_publish_to_wp r)
                 (auto_publish_to_tg r) (enabled_categories r)
                 (last_publish_time r)
  | Set_auto_publish_to_wp v =>
      mkSettings (auto_publish_enabled r) (auto_publish_interval r) v
                 (auto_publish_to_tg r) (enabled_categories r)
                 (last_publish_time r)
  | Set_auto_publish_to_tg v =>
      mkSettings (auto_publish_enabled r) (auto_publish_interval r)
                 (auto_publish_to_wp r) v (enabled_categories r)
                 (last_publish_time r)
  | Set_enabled_categories v =>
      mkSettings (auto_publish_enabled r) (auto_publish_interval r)
                 (auto_publish_to_wp r) (auto_publish_to_tg r) v
                 (last_publish_time r)
  end.

(** [update_user_setting]: the row is created first if it is missing. *)
Definition update_user_setting (user_id : Z) (kv : Setting) : M unit :=
  get_user_settings user_id ;;
  write_db (fun d =>
    set_settings (alter (apply_setting kv) user_id (user_settings d)) d).

(** The row [get_user_settings] answers with: the stored one, or the
    defaults. *)
Definition row_of (user_id : Z) (d : Database) : UserSettings :=
  default default_settings (user_settings d !! user_id).

(* ===================================================================== *)
(** * The settings screens *)
(* ===================================================================== *)

Definition check_mark (b : bool) : pystr := if b then py "✅" else py "⬜".

(** [settings_handler(callback, db)]: the text of the screen; the
    keyboard is not part of the recorded call. *)
Definition settings_text (settings : UserSettings) : pystr :=
  let auto_status :=
    if auto_publish_enabled settings then py "🟢 Увімкнено" else py "⚪ Вимкнено" in
  let interval := auto_publish_interval settings in
  let hours := interval / 60 in
  let wp_status := check_mark (auto_publish_to_wp settings) in
  let tg_status := check_mark (auto_publish_to_tg settings) in
  py "⚙️ **НАЛАШТУВАННЯ**" ++ [NL; NL]
    ++ py "🤖 **Автопублікація:** " ++ auto_status ++ [NL]
    ++ py "⏰ **Інтервал:** " ++ str_of_Z interval ++ py " хв (" ++ str_of_Z hours
    ++ py " год)" ++ [NL; NL]
    ++ py "**Цілі публікації:**" ++ [NL]
    ++ wp_status ++ py " WordPress" ++ [NL]
    ++ tg_status ++ py " Telegram" ++ [NL; NL]
    ++ py "**Категорії:** "
    ++ str_of_Z (Z.of_nat (length (enabled_categories settings)))
    ++ py " активних".

Definition settings_handler (cb : Callback) : M unit :=
  settings <- get_user_settings (from_user_id cb) ;;
  edit_text (settings_text settings).

(** [publish_targets_handler(callback, db)]. *)
Definition publish_targets_text (settings : UserSettings) : pystr :=
  let wp_status := check_mark (auto_publish_to_wp settings) in
  let tg_status := check_mark (auto_publish_to_tg settings) in
  py "🎯 **ЦІЛІ ПУБЛІКАЦІЇ**" ++ [NL; NL]
    ++ wp_status ++ py " WordPress (spilno.online)" ++ [NL]
    ++ tg_status ++ py " Telegram канал" ++ [NL; NL]
    ++ py "Оберіть що змінити:".

Definition publish_targets_handler (cb : Callback) : M unit :=
  settings <- get_user_settings (from_user_id cb) ;;
  edit_text (publish_targets_text settings).

(** [toggle_wp_handler] and [toggle_tg_handler]. *)
Definition toggle_wp_handler (cb : Callback) : M unit :=
  let user_id := from_user_id cb in
  settings <- get_user_settings user_id ;;
  let new_val := negb (auto_publish_to_wp settings) in
  update_user_setting user_id (Set_auto_publish_to_wp new_val) ;;
  callback_answer (py "✅ Змінено") ;;
  publish_targets_handler cb.

Definition toggle_tg_handler (cb : Callback) : M unit :=
  let user_id := from_user_id cb in
  settings <- get_user_settings user_id ;;
  let new_val := negb (auto_publish_to_tg settings) in
  update_user_setting user_id (Set_auto_publish_to_tg new_val) ;;
  callback_answer (py "✅ Змінено") ;;
  publish_targets_handler cb.

(* ===================================================================== *)
(** * The schedule *)
(* ===================================================================== *)

(** A job of the scheduler: its id, the minutes of its interval trigger
    and the operator [auto_publish_task] is called for. *)
Record Job : Type := mkJob {
  job_id : pystr;
  job_minutes : Z;
  job_args : Z
}.

(** The two lines [AutoPublishScheduler] writes to the log. *)
Inductive ScheduleLine : Type :=
| LogStarted (user_id interval_minutes : Z)
| LogStopped (user_id : Z).

(** The scheduler: its job store, ids unique, and the lines written for
    it. *)
Record Scheduler : Type := mkScheduler {
  jobs : list Job;
  schedule_log : list ScheduleLine
}.

Definition has_id (id : pystr) (j : Job) : bool := bool_decide (job_id j = id).

(** [scheduler.get_job(id)]. *)
Definition get_job (id : pystr) (js : list Job) : option Job :=
  List.find (has_id id) js.

(** [scheduler.remove_job(id)]: [JobLookupError] without such a job. *)
Definition remove_job (id : pystr) (js : list Job) : exn + list Job :=
  match get_job id js with
  | Some _ => inr (List.filter (fun j => negb (has_id id j)) js)
  | None => inl (PyExc "JobLookupError" id)
  end.

Definition replace_job (job : Job) (js : list Job) : list Job :=
  map (fun j => if has_id (job_id job) j then job else j) js.

(** [scheduler.add_job(..., id=..., replace_existing=...)]. *)
Definition add_job (job : Job) (replace_existing : bool) (js : list Job)
  : exn + list Job :=
  match get_job (job_id job) js with
  | None => inr (js ++ [job])
  | Some _ =>
      if replace_existing then inr (replace_job job js)
      else inl (PyExc "ConflictingIdError" (job_id job))
  end.

Definition job_name (user_id : Z) : pystr :=
  py "auto_publish_" ++ str_of_Z user_id.

(** [start_user_schedule(user_id, interval_minutes)]. *)
Definition start_user_schedule (user_id interval_minutes : Z) (s : Scheduler)
  : exn + Scheduler :=
  let job_id := job_name user_id in
  match (match get_job job_id (jobs s) with
         | Some _ => remove_job job_id (jobs s)
         | None => inr (jobs s)
         end) with
  | inl e => inl e
  | inr js =>
      match add_job (mkJob job_id interval_minutes user_id) true js with
      | inl e => inl e
      | inr js' =>
          inr (mkScheduler js'
                 (schedule_log s ++ [LogStarted user_id interval_minutes]))
      end
  end.

(** [stop_user_schedule(user_id)]. *)
Definition stop_user_schedule (user_id : Z) (s : Scheduler)
  : exn + Scheduler :=
  let job_id := job_name user_id in
  match get_job job_id (jobs s) with
  | Some _ =>
      match remove_job job_id (jobs s) with
      | inl e => inl e
      | inr js' => inr (mkScheduler js' (schedule_log s ++ [LogStopped user_id]))
      end
  | None => inr s
  end.

(** The job store holds at most one job per id. *)
Definition unique_ids (js : list Job) : Prop := NoDup (map job_id js).

(* ===================================================================== *)
(** * Handlers that use the schedule *)
(* ===================================================================== *)

(** A handler that has the scheduler at hand runs on the world and the
    scheduler. *)
Definition Bot : Type := (World * Scheduler)%type.

Definition MS (A : Type) : Type := Env -> Bot -> result A * Bot.

Definition bind_bot {A B} (c : MS A) (f : A -> MS B) : MS B :=
  fun E b =>
    match c E b with
    | (Ok a, b') => f a E b'
    | (Raised e, b') => (Raised e, b')
    end.

Definition in_world {A} (c : M A) : MS A :=
  fun E b =>
    match c E (fst b) with
    | (r, w') => (r, (w', snd b))
    end.

Definition in_scheduler (f : Scheduler -> exn + Scheduler) : MS unit :=
  fun _ b =>
    match f (snd b) with
    | inr s' => (Ok tt, (fst b, s'))
    | inl e => (Raised e, b)
    end.

Declare Scope bot_scope.
Delimit Scope bot_scope with bot.
Notation "x <- c ;; k" := (bind_bot c (fun x => k))
  (at level 100, c at next level, right associativity) : bot_scope.
Notation "c ;; k" := (bind_bot c (fun _ => k))
  (at level 100, right associativity) : bot_scope.

(** [toggle_auto_handler(callback, db, scheduler)]. *)
Definition toggle_auto_handler (cb : Callback) : MS unit :=
  (let user_id := from_user_id cb in
   settings <- in_world (get_user_settings user_id) ;;
   let new_status := negb (auto_publish_enabled settings) in
   in_world (update_user_setting user_id
               (Set_auto_publish_enabled new_status)) ;;
   (if new_status then
      in_scheduler (start_user_schedule user_id
                      (auto_publish_interval settings)) ;;
      in_world (callback_answer (py "✅ Автопублікацію увімкнено"))
    else
      in_scheduler (stop_user_schedule user_id) ;;
      in_world (callback_answer (py "⚪ Автопублікацію вимкнено"))) ;;
   in_world (settings_handler cb))%bot.

(** The operator's schedule agrees with the stored settings: a job under
    the operator's name exists exactly when automatic mode is on. *)
Definition schedule_agrees (user_id : Z) (b : Bot) : Prop :=
  is_Some (get_job (job_name user_id) (jobs (snd b)))
  <-> auto_publish_enabled (row_of user_id (db (fst b))) = true.

(* ===================================================================== *)
(** * The router *)
(* ===================================================================== *)

(** The filter of a callback handler: [F.data == s] or
    [F.data.startswith(s)]. *)
Inductive CallbackFilter : Type :=
| DataIs (s : pystr)
| DataStartsWith (s : pystr).

Definition accepts (f : CallbackFilter) (data : pystr) : bool :=
  match f with
  | DataIs s => bool_decide (data = s)
  | DataStartsWith s => starts_with s data
  end.

(** The handlers registered with [@router.callback_query], by name, in
    the order of the source. *)
Definition callback_handlers : list (CallbackFilter * string) :=
  [
   (DataIs (py "main_menu"), "show_main_menu"%string);
   (DataIs (py "create_manual_article"), "create_manual_article_handler"%string);
   (DataIs (py "skip_manual_seo"), "skip_manual_seo_handler"%string);
   (DataStartsWith (py "manual_cat:"), "process_manual_category"%string);
   (DataIs (py "upload_manual_image"), "upload_manual_image_handler"%string);
   (DataIs (py "skip_manual_image"), "skip_manual_image_handler"%string);
   (DataIs (py "publish_manual_article"), "publish_manual_article_handler"%string);
   (DataStartsWith (py "publish_manual_"), "process_manual_publish"%string);
   (DataIs (py "save_manual_draft"), "save_manual_draft_handler"%string);
   (DataIs (py "fetch_news"), "fetch_news_handler"%string);
   (DataStartsWith (py "news_geo:"), "fetch_news_by_geo_handler"%string);
   (DataStartsWith (py "select_news:"), "select_news_handler"%string);
   (DataIs (py "back_to_news_list"), "back_to_news_list_handler"%string);
   (DataStartsWith (py "write_article:"), "write_article_direct_handler"%string);
   (DataStartsWith (py "find_sources:"), "find_sources_handler"%string);
   (DataIs (py "show_images"), "show_images_handler"%string);
   (DataStartsWith (py "select_image:"), "select_image_handler"%string);
   (DataIs (py "no_image"), "no_image_handler"%string);
   (DataIs (py "search_news"), "search_news_handler"%string);
   (DataIs (py "show_search_results"), "show_search_results_handler"%string);
   (DataIs (py "show_by_sources"), "show_by_sources_handler"%string);
   (DataStartsWith (py "select_source:"), "select_source_handler"%string);
   (DataStartsWith (py "select_search_result:"), "select_search_result_handler"%string);
   (DataStartsWith (py "find_sources_search:"), "find_sources_search_handler"%string);
   (DataStartsWith (py "write_article_search:"), "write_article_search_handler"%string);
   (DataIs (py "edit_source_query"), "edit_source_query_handler"%string);
   (DataIs (py "write_from_sources"), "write_article_handler"%string);
   (DataIs (py "change_category"), "change_category_handler"%string);
   (DataStartsWith (py "select_cat:"), "select_category_handler"%string);
   (DataIs (py "edit_article"), "edit_article_handler"%string);
   (DataIs (py "edit_title"), "edit_title_prompt"%string);
   (DataIs (py "edit_excerpt"), "edit_excerpt_prompt"%string);
   (DataIs (py "edit_content"), "edit_content_info"%string);
   (DataIs (py "publish_menu"), "publish_menu_handler"%string);
   (DataStartsWith (py "publish_"), "publish_handler"%string);
   (DataIs (py "save_draft"), "save_draft_handler"%string);
   (DataIs (py "show_drafts"), "show_drafts_handler"%string);
   (DataIs (py "show_published"), "show_published_handler"%string);
   (DataStartsWith (py "view_article:"), "view_article_handler"%string);
   (DataStartsWith (py "delete_article:"), "delete_article_handler"%string);
   (DataStartsWith (py "confirm_delete_article:"), "confirm_delete_article_handler"%string);
   (DataStartsWith (py "open_draft:"), "open_draft_handler"%string);
   (DataStartsWith (py "delete_draft:"), "delete_draft_handler"%string);
   (DataStartsWith (py "publish_draft:"), "publish_draft_handler"%string);
   (DataIs (py "settings"), "settings_handler"%string);
   (DataIs (py "toggle_auto"), "toggle_auto_handler"%string);
   (DataIs (py "change_interval"), "change_interval_handler"%string);
   (DataStartsWith (py "set_interval:"), "set_interval_handler"%string);
   (DataIs (py "publish_targets"), "publish_targets_handler"%string);
   (DataIs (py "toggle_wp"), "toggle_wp_handler"%string);
   (DataIs (py "toggle_tg"), "toggle_tg_handler"%string);
   (DataIs (py "statistics"), "statistics_handler"%string);
   (DataStartsWith (py "stats:"), "show_stats_handler"%string)
  ].

(** The handler a pressed button reaches: the router calls the first
    registered handler whose filter accepts the button's data. *)
Fixpoint first_accepting (hs : list (CallbackFilter * string)) (data : pystr)
  : option string :=
  match hs with
  | [] => None
  | (f, name) :: hs' =>
      if accepts f data then Some name else first_accepting hs' data
  end.

Definition route (data : pystr) : option string :=
  first_accepting callback_handlers data.

(** The operator has an article in the conversation state and presses
    the button of the settings screen that leads to the publish targets. *)
Definition press_publish_targets : Callback :=
  mkCallback (py "publish_targets") operator.

Definition end_targets : World :=
  snd (publish_handler press_publish_targets env_ok world_manual).


(* ===================================================================== *)
(** * Properties of the text utilities *)
(* ===================================================================== *)

Lemma re_match_one_of cs c s :
  re_match (OneOf cs) (c :: s) = if cset_mem cs c then Some (s, []) else None.
Proof. reflexivity. Qed.

(** Substituting a fixed text for a one-character set is a per-character
    replacement. *)
Lemma re_sub_one_of cs t s :
  re_sub (OneOf cs) [TLit t] s
  = flat_map (fun c => if cset_mem cs c then t else [c]) s.
Proof.
  unfold re_sub. induction s as [|c s IH]; [reflexivity|].
  cbn [sub_loop flat_map]. rewrite re_match_one_of.
  destruct (cset_mem cs c).
  - replace (length (c :: s) - length s)%nat with 1%nat by (simpl; lia).
    rewrite IH. simpl. now rewrite app_nil_r.
  - now rewrite IH.
Qed.

(** Splitting the cleaned title on white space is splitting the title on
    white space and removed characters. *)
Lemma split_cleaned (sp : Z -> bool) (s : pystr) : forall cur : pystr,
  split_aux is_space cur
    (flat_map (fun c => if sp c then SPACE else [c]) s)
  = split_aux (fun c => sp c || is_space c) cur s.
Proof.
  induction s as [|c s IH]; intros cur; [reflexivity|].
  cbn [flat_map]. destruct (sp c) eqn:Hc; cbn [app SPACE split_aux].
  - rewrite Hc. change (is_space 32) with true. cbn.
    destruct cur; now rewrite IH.
  - rewrite Hc. cbn. destruct (is_space c); [destruct cur|]; now rewrite IH.
Qed.

Lemma split_aux_words (sep : Z -> bool) (s : pystr) : forall cur : pystr,
  Forall (fun c => sep c = false) cur ->
  Forall (word_of sep) (split_aux sep cur s).
Proof.
  induction s as [|c s IH]; intros cur Hcur; cbn [split_aux].
  - destruct cur as [|a cur]; constructor; [|constructor].
    split.
    + intros H. apply (f_equal (@length Z)) in H.
      rewrite length_rev in H. discriminate.
    + apply Forall_rev. exact Hcur.
  - destruct (sep c) eqn:Hc.
    + destruct cur as [|a cur]; [now apply IH|].
      constructor; [|now apply IH].
      split.
      * intros H. apply (f_equal (@length Z)) in H.
        rewrite length_rev in H. discriminate.
      * apply Forall_rev. exact Hcur.
    + apply IH. constructor; assumption.
Qed.

Lemma Forall_filter_keep {A} (P : A -> Prop) f (l : list A) :
  Forall P l -> Forall P (List.filter f l).
Proof.
  induction 1 as [|x l Hx Hl IH]; cbn; [constructor|].
  destruct (f x); [constructor|]; assumption.
Qed.

Lemma Forall_firstn_keep {A} (P : A -> Prop) n (l : list A) :
  Forall P l -> Forall P (firstn n l).
Proof.
  intros H. revert n. induction H as [|x l Hx Hl IH]; intros [|n]; cbn;
    constructor; auto.
Qed.

Lemma py_join_chars (P : Z -> Prop) sep ws :
  Forall P sep -> Forall (Forall P) ws -> Forall P (py_join sep ws).
Proof.
  intros Hsep. induction 1 as [|w ws Hw Hws IH]; cbn; [constructor|].
  destruct ws as [|w' ws]; [assumption|].
  apply Forall_app. split; [assumption|].
  apply Forall_app. split; assumption.
Qed.

(** The first and the last character of a joined list of words. *)
Lemma py_join_head sep a w ws :
  exists t, py_join sep ((a :: w) :: ws) = a :: t.
Proof. destruct ws; cbn; eauto. Qed.

Lemma py_join_last (P : Z -> Prop) sep ws :
  ws <> [] -> Forall (fun w => w <> [] /\ Forall P w) ws ->
  exists t b, py_join sep ws = t ++ [b] /\ P b.
Proof.
  intros Hne H. induction H as [|w ws [Hw Hc] Hws IH]; [congruence|].
  destruct ws as [|w' ws].
  - cbn. destruct (exists_last Hw) as (t & b & ->).
    exists t, b. split; [reflexivity|].
    apply Forall_app in Hc as [_ Hb]. now inversion Hb.
  - destruct IH as (t & b & Heq & Hb); [congruence|].
    exists (w ++ sep ++ t), b. split; [|assumption].
    change (py_join sep (w :: w' :: ws))
      with (w ++ sep ++ py_join sep (w' :: ws)).
    rewrite Heq. now rewrite <- !app_assoc.
Qed.

Lemma py_strip_fixed a s t b :
  is_space a = false -> is_space b = false ->
  a :: s = t ++ [b] -> py_strip (a :: s) = a :: s.
Proof.
  intros Ha Hb Heq. unfold py_strip, py_rstrip.
  cbn [py_lstrip]. rewrite Ha. rewrite Heq, rev_app_distr.
  cbn [rev app py_lstrip]. rewrite Hb.
  change (b :: rev t) with (rev [b] ++ rev t).
  rewrite <- rev_app_distr. apply rev_involutive.
Qed.

(** Stripping a joined list of space-free words changes nothing. *)
Lemma py_strip_join ws :
  Forall (word_of is_space) ws ->
  py_strip (py_join SPACE ws) = py_join SPACE ws.
Proof.
  intros H. destruct ws as [|w ws]; [reflexivity|].
  assert (Hw : word_of is_space w) by now inversion H.
  destruct Hw as [Hne Hc]. destruct w as [|a w]; [congruence|].
  destruct (py_join_head SPACE a w ws) as (t & Hj).
  destruct (py_join_last (fun c => is_space c = false) SPACE ((a :: w) :: ws))
    as (t' & b & Hl & Hb); [congruence|exact H|].
  set (j := py_join SPACE ((a :: w) :: ws)).
  change (j = a :: t) in Hj. change (j = t' ++ [b]) in Hl.
  change (py_strip j = j).
  rewrite Hj in Hl |- *. eapply py_strip_fixed; [|exact Hb|exact Hl].
  now inversion Hc.
Qed.

Lemma word_of_weaken (p q : Z -> bool) w :
  (forall c, p c = false -> q c = false) -> word_of p w -> word_of q w.
Proof.
  intros Hpq [Hne Hc]. split; [assumption|].
  eapply Forall_impl; [exact Hc|]. cbn. auto.
Qed.

Lemma kept_words_are_words title n :
  Forall (word_of (fun c => is_removed c || is_space c)) (kept_words title n).
Proof.
  unfold kept_words. apply Forall_firstn_keep, Forall_filter_keep.
  apply split_aux_words. constructor.
Qed.

Lemma extract_keywords_unfold title n :
  title <> [] ->
  extract_keywords_from_title title n =
    let q := py_join SPACE (kept_words title n) in
    match q with
    | [] => DEFAULT_TOPIC
    | _ :: _ => if py_len q <? 3 then DEFAULT_TOPIC else q
    end.
Proof.
  intros Hne. unfold extract_keywords_from_title.
  destruct title as [|c title]; [congruence|].
  rewrite re_sub_one_of. unfold py_split. rewrite split_cleaned.
  rewrite py_strip_join; [reflexivity|].
  eapply Forall_impl; [apply (kept_words_are_words (c :: title) n)|].
  intros w. apply word_of_weaken. intros x Hx.
  now apply orb_false_iff in Hx.
Qed.

Lemma filter_long_short (l : list pystr) :
  List.filter (fun w => negb (py_len w <=? 2)) l
  = List.filter (fun w => 2 <? py_len w) l.
Proof.
  apply List.filter_ext. intros w. now rewrite Z.ltb_antisym.
Qed.

(** The code computes the query of the specification. *)
Lemma extract_keywords_is_derived_query title :
  extract_keywords_from_title title 5 = derived_query title.
Proof.
  destruct title as [|c title]; [reflexivity|].
  rewrite extract_keywords_unfold by congruence.
  unfold derived_query. rewrite filter_long_short.
  change (firstn 5 _) with (kept_words (c :: title) 5).
  cbv zeta. destruct (py_join SPACE (kept_words (c :: title) 5)); reflexivity.
Qed.

(** No removed character survives in the derived query. *)
Lemma extract_keywords_clean title n :
  Forall (fun c => is_removed c = false) (extract_keywords_from_title title n).
Proof.
  assert (Hd : Forall (fun c => is_removed c = false) DEFAULT_TOPIC).
  { repeat constructor. }
  destruct title as [|c title]; [exact Hd|].
  rewrite extract_keywords_unfold by congruence.
  assert (Hq : Forall (fun c => is_removed c = false)
                 (py_join SPACE (kept_words (c :: title) n))).
  { apply py_join_chars; [repeat constructor|].
    eapply Forall_impl; [apply kept_words_are_words|].
    intros w [_ Hw]. eapply Forall_impl; [exact Hw|].
    cbn. intros x Hx. now apply orb_false_iff in Hx. }
  cbv zeta.
  destruct (py_join SPACE (kept_words (c :: title) n)) as [|x q];
    [exact Hd|].
  destruct (py_len (x :: q) <? 3); assumption.
Qed.

(** C8. For every seed title the search query derived by
    [extract_keywords_from_title] with five words is the one the
    specification describes: the listed characters are taken out (each
    gives way to a space, so it ends a token as white space does), tokens
    of length at most two are dropped, the first five that remain are
    joined, and an empty or too short result gives the default topic; none
    of the listed characters occurs in the query.  On the example title the
    query is the two words of the title that are longer than two
    characters: Cyrillic letters and one space, no punctuation. *)
Theorem derived_query_extraction :
  (forall title,
     extract_keywords_from_title title 5 = derived_query title
     /\ Forall (fun c => is_removed c = false)
               (extract_keywords_from_title title 5))
  /\ extract_keywords_from_title title_example 5 = py "Економіка зростає"
  /\ py_split (extract_keywords_from_title title_example 5)
     = [py "Економіка"; py "зростає"]
  /\ forallb (fun c => negb (is_removed c))
             (extract_keywords_from_title title_example 5) = true
  /\ forallb (fun c => (c =? 32) || ((1024 <=? c) && (c <=? 1279)))
             (extract_keywords_from_title title_example 5) = true.
Proof.
  split; [|repeat split; vm_compute; reflexivity].
  intros title. split.
  - apply extract_keywords_is_derived_query.
  - apply extract_keywords_clean.
Qed.

(** ** The channel markup *)

Lemma py_slice_to_nonneg s k :
  0 <= k -> py_slice_to s k = firstn (Z.to_nat k) s.
Proof.
  intros H. unfold py_slice_to.
  destruct (k <? 0) eqn:E; [apply Z.ltb_lt in E; lia|reflexivity].
Qed.

(** The cut: nothing happens under the cap, and over it the text is its
    first [max_length - 3] characters and the ellipsis. *)
Lemma html_to_telegram_cut html max_length :
  3 <= max_length ->
  (py_len (telegram_markup html) <= max_length ->
   html_to_telegram html max_length = telegram_markup html)
  /\ (max_length < py_len (telegram_markup html) ->
      html_to_telegram html max_length
      = firstn (Z.to_nat (max_length - 3)) (telegram_markup html) ++ ELLIPSIS).
Proof.
  intros Hcap. unfold html_to_telegram. split; intros H.
  - destruct (max_length <? py_len (telegram_markup html)) eqn:E;
      [apply Z.ltb_lt in E; lia|reflexivity].
  - destruct (max_length <? py_len (telegram_markup html)) eqn:E;
      [|apply Z.ltb_ge in E; lia].
    rewrite py_slice_to_nonneg by lia. reflexivity.
Qed.

Lemma html_to_telegram_length html max_length :
  3 <= max_length -> py_len (html_to_telegram html max_length) <= max_length.
Proof.
  intros Hcap. destruct (html_to_telegram_cut html max_length Hcap) as [Hs Hl].
  destruct (Z_le_gt_dec (py_len (telegram_markup html)) max_length) as [H|H].
  - now rewrite Hs.
  - rewrite Hl by lia. unfold py_len in *.
    rewrite length_app, length_firstn. cbn [ELLIPSIS length]. lia.
Qed.

(** C9, as the code has it.  On the example the converter's output has no
    heading and no list tag left, carries the heading's text in a bold
    tag, and has a bullet line for the list item.  For every input and
    every cap of at least three characters (the handlers pass 3800) the
    output is no longer than the cap: under the cap it is the converted
    text, over it the first [max_length - 3] characters followed by the
    ellipsis. *)
Theorem channel_markup_conversion :
  forall (html : pystr) (max_length : Z),
    3 <= max_length ->
    let out := html_to_telegram html_example 3800 in
    out = py "<b>Title</b>" ++ [NL; NL] ++ py "Body" ++ [NL; NL]
            ++ [BULLET; 32] ++ py "A"
    /\ py_contains (py "<h2") out = false
    /\ py_contains (py "</h2") out = false
    /\ py_contains (py "<ul") out = false
    /\ py_contains (py "</ul") out = false
    /\ py_contains (py "<li") out = false
    /\ py_contains (py "</li") out = false
    /\ py_contains (py "<b>Title</b>") out = true
    /\ In ([BULLET; 32] ++ py "A") (py_lines out)
    /\ py_len (html_to_telegram html max_length) <= max_length
    /\ (py_len (telegram_markup html) <= max_length ->
        html_to_telegram html max_length = telegram_markup html)
    /\ (max_length < py_len (telegram_markup html) ->
        html_to_telegram html max_length
        = firstn (Z.to_nat (max_length - 3)) (telegram_markup html)
            ++ ELLIPSIS).
Proof.
  intros html max_length Hcap out.
  assert (Hout : out = py "<b>Title</b>" ++ [NL; NL] ++ py "Body"
                         ++ [NL; NL] ++ [BULLET; 32] ++ py "A")
    by (vm_compute; reflexivity).
  rewrite Hout.
  do 8 (split; [vm_compute; reflexivity|]).
  split; [vm_compute; tauto|].
  split; [now apply html_to_telegram_length|].
  now apply html_to_telegram_cut.
Qed.

Lemma channel_markup_conversion_witness :
  3 <= 10
  /\ html_to_telegram (py "<p>Economy grows again</p>") 10
     = py "Economy..."
  /\ py_len (html_to_telegram (py "<p>Economy grows again</p>") 10) <= 10.
Proof.
  assert (Hcap : 3 <= 10) by lia.
  split; [exact Hcap|]. split; [vm_compute; reflexivity|].
  pose proof (channel_markup_conversion (py "<p>Economy grows again</p>")
                10 Hcap) as (_ & _ & _ & _ & _ & _ & _ & _ & _ & Hlen & _).
  exact Hlen.
Defined.

(** With a cap under three characters the cut overshoots: [s[:max_length-3]]
    counts from the end of the text, and the ellipsis alone is three
    characters long. *)
Lemma small_cap_is_exceeded :
  html_to_telegram (py "abcd") 2 = py "abc..."
  /\ ~ (forall (html : pystr) (max_length : Z),
          py_len (html_to_telegram html max_length) <= max_length).
Proof.
  assert (H : html_to_telegram (py "abcd") 2 = py "abc...")
    by (vm_compute; reflexivity).
  split; [exact H|].
  intros Hall. specialize (Hall (py "abcd") 2). rewrite H in Hall.
  vm_compute in Hall. apply Hall. reflexivity.
Qed.

(* ===================================================================== *)
(** * Runs, step by step *)
(* ===================================================================== *)

Lemma bind_run {A B} (c : M A) (f : A -> M B) E w r w' :
  c E w = (r, w') ->
  bind c f E w = match r with
                 | Ok a => f a E w'
                 | Raised e => (Raised e, w')
                 end.
Proof. intros H. unfold bind. rewrite H. destruct r; reflexivity. Qed.

Lemma try_run {A} (c : M A) (h : exn -> M A) E w r w' :
  c E w = (r, w') ->
  try_except c h E w = match r with
                       | Ok a => (Ok a, w')
                       | Raised e => h e E w'
                       end.
Proof. intros H. unfold try_except. rewrite H. destruct r; reflexivity. Qed.

Lemma call_run {A} (c : Call) (answer : Env -> Trace -> exn + A) E w :
  call c answer E w
  = (match answer E (trace w) with inl e => Raised e | inr a => Ok a end,
     called c w).
Proof. unfold call. destruct (answer E (trace w)); reflexivity. Qed.

Lemma send_message_run chat body mode E w :
  send_message chat body mode E w
  = (match tg_send E (trace w) chat body mode with
     | inl e => Raised e
     | inr m => Ok m
     end, called (CallSendMessage chat body mode) w).
Proof. apply call_run. Qed.

(** A message whose id is not used. *)
Lemma tell_run chat body mode E w :
  (send_message chat body mode ;; ret tt) E w
  = (match tg_send E (trace w) chat body mode with
     | inl e => Raised e
     | inr _ => Ok tt
     end, called (CallSendMessage chat body mode) w).
Proof.
  unfold bind. rewrite send_message_run.
  destruct (tg_send E (trace w) chat body mode); reflexivity.
Qed.

Lemma get_user_settings_stored user_id s E w :
  user_settings (db w) !! user_id = Some s ->
  get_user_settings user_id E w = (Ok s, w).
Proof.
  intros H. unfold get_user_settings, bind, read_db. rewrite H. reflexivity.
Qed.



Lemma new_calls_app w w' l : trace w' = trace w ++ l -> new_calls w w' = l.
Proof. intros H. unfold new_calls. rewrite H. apply drop_app_length. Qed.

Lemma new_logs_app w w' l :
  logs (db w') = logs (db w) ++ l -> new_logs w w' = l.
Proof. intros H. unfold new_logs. rewrite H. apply drop_app_length. Qed.

Lemma new_logs_same w w' : db w' = db w -> new_logs w w' = [].
Proof.
  intros H. apply new_logs_app. rewrite H. now rewrite app_nil_r.
Qed.

(** ** What leaves the database alone, what only adds calls *)

Create HintDb frame.

Lemma keeps_db_ret {A} (a : A) : keeps_db (ret a).
Proof. intros E w. reflexivity. Qed.

Lemma keeps_db_raise {A} e : keeps_db (@raise A e).
Proof. intros E w. reflexivity. Qed.

Lemma keeps_db_ask {A} (f : Env -> A) : keeps_db (ask f).
Proof. intros E w. reflexivity. Qed.

Lemma keeps_db_read {A} (f : Database -> A) : keeps_db (read_db f).
Proof. intros E w. reflexivity. Qed.

Lemma keeps_db_log l : keeps_db (log_line l).
Proof. intros E w. reflexivity. Qed.

Lemma keeps_db_call {A} c (answer : Env -> Trace -> exn + A) :
  keeps_db (call c answer).
Proof. intros E w. rewrite call_run. reflexivity. Qed.

Lemma keeps_db_bind {A B} (c : M A) (f : A -> M B) :
  keeps_db c -> (forall a, keeps_db (f a)) -> keeps_db (bind c f).
Proof.
  intros Hc Hf E w. unfold bind. specialize (Hc E w).
  destruct (c E w) as [[a|e] w1]; cbn in *; [|assumption].
  rewrite Hf. assumption.
Qed.

Lemma keeps_db_try {A} (c : M A) (h : exn -> M A) :
  keeps_db c -> (forall e, keeps_db (h e)) -> keeps_db (try_except c h).
Proof.
  intros Hc Hh E w. unfold try_except. specialize (Hc E w).
  destruct (c E w) as [[a|e] w1]; cbn in *; [assumption|].
  rewrite Hh. assumption.
Qed.

Lemma keeps_db_dict_get d key : keeps_db (dict_get d key).
Proof. intros E w. unfold dict_get. destruct (d !! key); reflexivity. Qed.

#[local] Hint Resolve keeps_db_ret keeps_db_raise keeps_db_ask keeps_db_read
  keeps_db_log keeps_db_call keeps_db_dict_get : frame.

Lemma grows_trace_ret {A} (a : A) : grows_trace (ret a).
Proof. intros E w. exists []. cbn. now rewrite app_nil_r. Qed.

Lemma grows_trace_raise {A} e : grows_trace (@raise A e).
Proof. intros E w. exists []. cbn. now rewrite app_nil_r. Qed.

Lemma grows_trace_ask {A} (f : Env -> A) : grows_trace (ask f).
Proof. intros E w. exists []. cbn. now rewrite app_nil_r. Qed.

Lemma grows_trace_read {A} (f : Database -> A) : grows_trace (read_db f).
Proof. intros E w. exists []. cbn. now rewrite app_nil_r. Qed.

Lemma grows_trace_write f : grows_trace (write_db f).
Proof. intros E w. exists []. cbn. now rewrite app_nil_r. Qed.

Lemma grows_trace_log l : grows_trace (log_line l).
Proof. intros E w. exists []. cbn. now rewrite app_nil_r. Qed.

Lemma grows_trace_call {A} c (answer : Env -> Trace -> exn + A) :
  grows_trace (call c answer).
Proof. intros E w. rewrite call_run. exists [c]. reflexivity. Qed.

Lemma grows_trace_bind {A B} (c : M A) (f : A -> M B) :
  grows_trace c -> (forall a, grows_trace (f a)) -> grows_trace (bind c f).
Proof.
  intros Hc Hf E w. unfold bind. destruct (Hc E w) as [l Hl].
  destruct (c E w) as [[a|e] w1]; cbn in *; [|eauto].
  destruct (Hf a E w1) as [l' Hl']. exists (l ++ l').
  rewrite Hl', Hl. now rewrite app_assoc.
Qed.

Lemma grows_trace_try {A} (c : M A) (h : exn -> M A) :
  grows_trace c -> (forall e, grows_trace (h e)) ->
  grows_trace (try_except c h).
Proof.
  intros Hc Hh E w. unfold try_except. destruct (Hc E w) as [l Hl].
  destruct (c E w) as [[a|e] w1]; cbn in *; [eauto|].
  destruct (Hh e E w1) as [l' Hl']. exists (l ++ l').
  rewrite Hl', Hl. now rewrite app_assoc.
Qed.

Lemma grows_trace_dict_get d key : grows_trace (dict_get d key).
Proof.
  intros E w. exists []. unfold dict_get.
  destruct (d !! key); cbn; now rewrite app_nil_r.
Qed.

#[local] Hint Resolve grows_trace_ret grows_trace_raise grows_trace_ask
  grows_trace_read grows_trace_write grows_trace_log grows_trace_call
  grows_trace_dict_get : frame.

(** Walks through a computation built from the steps above. *)
Ltac frame :=
  repeat first
    [ progress intros
    | apply keeps_db_bind | apply keeps_db_try
    | apply grows_trace_bind | apply grows_trace_try
    | solve [auto with frame]
    | match goal with
      | |- keeps_db (if ?b then _ else _) => destruct b
      | |- grows_trace (if ?b then _ else _) => destruct b
      | |- keeps_db (match ?x with _ => _ end) => destruct x
      | |- grows_trace (match ?x with _ => _ end) => destruct x
      end ].

Lemma keeps_db_search q lang country n :
  keeps_db (search_news q lang country n).
Proof. unfold search_news, resp_json. frame. Qed.

Lemma keeps_db_generate sources : keeps_db (generate_article sources).
Proof. unfold generate_article. frame. Qed.

Lemma grows_trace_generate sources : grows_trace (generate_article sources).
Proof. unfold generate_article. frame. Qed.

Lemma keeps_db_upload_cover main_news : keeps_db (upload_cover main_news).
Proof. unfold upload_cover, upload_image. frame. Qed.

Lemma keeps_db_site s art media : keeps_db (site_phase s art media).
Proof. unfold site_phase, create_post, resp_json. frame. Qed.

Lemma keeps_db_channel s article url : keeps_db (channel_phase s article url).
Proof. unfold channel_phase, send_message. frame. Qed.

Lemma grows_trace_channel s article url :
  grows_trace (channel_phase s article url).
Proof. unfold channel_phase, send_message. frame. Qed.

Lemma keeps_db_at {A} (c : M A) E w r w' :
  keeps_db c -> c E w = (r, w') -> db w' = db w.
Proof. intros Hc H. specialize (Hc E w). now rewrite H in Hc. Qed.

Lemma grows_trace_at {A} (c : M A) E w r w' :
  grows_trace c -> c E w = (r, w') -> exists l, trace w' = trace w ++ l.
Proof. intros Hc H. specialize (Hc E w). now rewrite H in Hc. Qed.

(** ** The aggregator *)

(** [search_news] returns a list whatever the aggregator does: it makes one
    call, writes one log line and leaves the database alone. *)
Lemma search_news_total q lang country n E w :
  exists items line,
    search_news q lang country n E w
    = (Ok items,
       logged line (called (CallGNewsSearch (_sanitize_query q) lang country n)
                           w)).
Proof.
  unfold search_news, try_except, bind. rewrite call_run.
  destruct (gnews_get E (trace w) (_sanitize_query q) lang country n)
    as [e|resp]; [eexists _, _; reflexivity|].
  destruct (status resp =? 200); [|eexists _, _; reflexivity].
  unfold resp_json. destruct (json resp) as [e|body];
    eexists _, _; reflexivity.
Qed.



(** ** The rewriter *)

Lemma generate_article_run sources E w :
  generate_article sources E w
  = match gpt_chat E (trace w) sources with
    | inr (inr reply) =>
        if has_required reply then (Ok reply, called (CallGptChat sources) w)
        else (Raised MISSING_FIELDS,
              logged (LogGptFailed MISSING_FIELDS)
                     (called (CallGptChat sources) w))
    | inr (inl e) | inl e =>
        (Raised e, logged (LogGptFailed e) (called (CallGptChat sources) w))
    end.
Proof.
  unfold generate_article, try_except, bind. rewrite call_run.
  destruct (gpt_chat E (trace w) sources) as [e|[e|reply]]; try reflexivity.
  cbn -[has_required MISSING_FIELDS].
  destruct (has_required reply); reflexivity.
Qed.

(** An article that came back from [generate_article] has the five
    fields. *)
Lemma generate_article_ok sources E w article w' :
  generate_article sources E w = (Ok article, w') ->
  w' = called (CallGptChat sources) w /\ has_required article = true.
Proof.
  rewrite generate_article_run.
  destruct (gpt_chat E (trace w) sources) as [e|[e|reply]]; try discriminate.
  destruct (has_required reply) eqn:H; [|discriminate].
  intros [= <- <-]. split; [reflexivity|assumption].
Qed.

Lemma missing_field_not_required (reply : gmap string pystr) field :
  In field required -> reply !! field = None -> has_required reply = false.
Proof.
  intros Hin Hnone. unfold has_required.
  apply not_true_is_false. intros Hall.
  rewrite forallb_forall in Hall. specialize (Hall field Hin).
  rewrite Hnone in Hall. apply bool_decide_eq_true in Hall.
  destruct Hall as [? ?]. discriminate.
Qed.

(** ** The [except] branch *)

Lemma failure_report_run user_id e E w :
  failure_report user_id e E w
  = (match tg_send E (trace w) (ChatInt user_id) (msg_failed e) NoParseMode
     with
     | inl e' => Raised e'
     | inr _ => Ok tt
     end,
     called (told user_id (msg_failed e))
       (set_db (set_logs (logs (db w) ++ [error_row user_id e]) (db w))
          (logged (LogAutoPublishFailed e) w))).
Proof.
  unfold failure_report. unfold bind at 1. unfold log_line.
  unfold bind at 1. unfold log_action, write_db.
  rewrite tell_run. reflexivity.
Qed.

(** The outcome of the task from the outcome of its body. *)
Lemma task_run user_id E w r w' :
  auto_publish_body user_id E w = (r, w') ->
  auto_publish_task user_id E w
  = match r with
    | Ok a => (Ok a, w')
    | Raised e => failure_report user_id e E w'
    end.
Proof. apply try_run. Qed.

(** What the task adds on top of its body: nothing when the body returns,
    an error row and a message to the operator when it raises. *)
Lemma task_wraps user_id E w r w' :
  auto_publish_body user_id E w = (r, w') ->
  let wf := snd (auto_publish_task user_id E w) in
  published_articles (db wf) = published_articles (db w')
  /\ article_fingerprints (db wf) = article_fingerprints (db w')
  /\ user_settings (db wf) = user_settings (db w')
  /\ logs (db wf) = logs (db w')
       ++ match r with Ok _ => [] | Raised e => [error_row user_id e] end
  /\ trace wf = trace w'
       ++ match r with
          | Ok _ => []
          | Raised e => [told user_id (msg_failed e)]
          end.
Proof.
  intros H. rewrite (task_run _ _ _ _ _ H). destruct r as [[]|e].
  - cbn. now rewrite !app_nil_r.
  - rewrite failure_report_run. cbn. repeat split; reflexivity.
Qed.

(* ===================================================================== *)
(** * The scheduled task *)
(* ===================================================================== *)

Lemma search_at q lang country n E w items w' :
  search_news q lang country n E w = (Ok items, w') ->
  db w' = db w
  /\ trace w' = trace w ++ [CallGNewsSearch (_sanitize_query q) lang country n].
Proof.
  destruct (search_news_total q lang country n E w) as (i & l & H).
  rewrite H. intros [= _ <-]. split; reflexivity.
Qed.

Lemma sourced_frame user_id E w s main_news sources w2 :
  sourced user_id E w s main_news sources w2 ->
  db w2 = db w /\ trace w2 = trace w ++ [seed_call; sources_call main_news].
Proof.
  intros (_ & _ & rest & w1 & H1 & H2).
  apply search_at in H1 as [Hd1 Ht1]. apply search_at in H2 as [Hd2 Ht2].
  split; [congruence|]. rewrite Ht2, Ht1, <- app_assoc. reflexivity.
Qed.

Lemma sourced_body user_id E w s main_news sources w2 :
  sourced user_id E w s main_news sources w2 ->
  auto_publish_body user_id E w
  = bind (generate_article sources)
         (publish_rewritten user_id s main_news sources) E w2.
Proof.
  intros (Hs & Hon & rest & w1 & H1 & H2). unfold auto_publish_body.
  rewrite (bind_run _ _ _ _ _ _ (get_user_settings_stored _ _ E _ Hs)).
  rewrite Hon. cbn [negb].
  rewrite (bind_run _ _ _ _ _ _ H1). cbv beta iota.
  rewrite (bind_run _ _ _ _ _ _ H2). reflexivity.
Qed.

Lemma rewritten_frame user_id E w s main_news sources article w3 :
  rewritten user_id E w s main_news sources article w3 ->
  db w3 = db w
  /\ trace w3
     = trace w ++ [seed_call; sources_call main_news; CallGptChat sources]
  /\ has_required article = true.
Proof.
  intros (w2 & Hs & Hg). apply sourced_frame in Hs as [Hd Ht].
  apply generate_article_ok in Hg as [-> Hr]. cbn.
  rewrite Hd, Ht, <- app_assoc. auto.
Qed.

Lemma rewritten_body user_id E w s main_news sources article w3 :
  rewritten user_id E w s main_news sources article w3 ->
  auto_publish_body user_id E w
  = publish_rewritten user_id s main_news sources article E w3.
Proof.
  intros (w2 & Hs & Hg). rewrite (sourced_body _ _ _ _ _ _ _ Hs).
  now rewrite (bind_run _ _ _ _ _ _ Hg).
Qed.

Lemma dict_get_run (d : gmap string pystr) key v E w :
  d !! key = Some v -> dict_get d key E w = (Ok v, w).
Proof. intros H. unfold dict_get. now rewrite H. Qed.

(** The three ways on from the rewritten article. *)
Lemma publish_rewritten_skip user_id s main_news sources
    (article : gmap string pystr) category E w3 :
  article !! "category"%string = Some category ->
  passes_filter s (find_category category (wp_categories (db w3))) = false ->
  publish_rewritten user_id s main_news sources article E w3
  = (send_message (ChatInt user_id) (msg_skipped category) NoParseMode ;;
     ret tt) E w3.
Proof.
  intros Hc Hf. unfold publish_rewritten.
  rewrite (bind_run _ _ _ _ _ _ (dict_get_run _ _ _ E w3 Hc)).
  unfold get_category_id_by_name. unfold bind at 1. unfold read_db at 1.
  unfold passes_filter in Hf. apply negb_false_iff in Hf. now rewrite Hf.
Qed.

Lemma publish_rewritten_checked user_id s main_news sources
    (article : gmap string pystr) category title E w3 :
  article !! "category"%string = Some category ->
  passes_filter s (find_category category (wp_categories (db w3))) = true ->
  article !! "title"%string = Some title ->
  publish_rewritten user_id s main_news sources article E w3
  = if bool_decide (is_Some (article_fingerprints (db w3)
                               !! title_hash (str_lower E) title))
    then (send_message (ChatInt user_id) MSG_DUPLICATE NoParseMode ;; ret tt)
           E w3
    else auto_publish_steps user_id s main_news sources article
           (find_category category (wp_categories (db w3))) E w3.
Proof.
  intros Hc Hf Ht. unfold publish_rewritten.
  rewrite (bind_run _ _ _ _ _ _ (dict_get_run _ _ _ E w3 Hc)).
  unfold get_category_id_by_name. unfold bind at 1. unfold read_db at 1.
  unfold passes_filter in Hf. apply negb_true_iff in Hf. rewrite Hf.
  rewrite (bind_run _ _ _ _ _ _ (dict_get_run _ _ _ E w3 Ht)).
  unfold check_duplicate. unfold bind at 1. unfold ask at 1.
  unfold bind at 1. unfold read_db at 1.
  now destruct (bool_decide _).
Qed.

(** A run that ends by telling the operator something: no destination is
    called after the message, nothing but the audit log can change, and
    the audit log changes only when the message itself fails. *)
Lemma neutral_outcome user_id E w w3 pre body :
  db w3 = db w -> trace w3 = trace w ++ pre ->
  auto_publish_body user_id E w
  = (send_message (ChatInt user_id) body NoParseMode ;; ret tt) E w3 ->
  let run := auto_publish_task user_id E w in
  let wf := snd run in
  published_articles (db wf) = published_articles (db w)
  /\ article_fingerprints (db wf) = article_fingerprints (db w)
  /\ user_settings (db wf) = user_settings (db w)
  /\ (exists rest,
        new_calls w wf = pre ++ told user_id body :: rest
        /\ Forall (fun c => is_destination_call E c = false) rest)
  /\ Forall (fun row => log_status row = "error"%string) (new_logs w wf)
  /\ (forall m,
        tg_send E (trace w3) (ChatInt user_id) body NoParseMode = inr m ->
        run = (Ok tt, called (told user_id body) w3)
        /\ db wf = db w
        /\ new_calls w wf = pre ++ [told user_id body]).
Proof.
  intros Hd Ht Hbody run wf. rewrite tell_run in Hbody.
  assert (Hrun : run = match tg_send E (trace w3) (ChatInt user_id) body
                               NoParseMode with
                       | inl e =>
                           failure_report user_id e E
                             (called (told user_id body) w3)
                       | inr _ => (Ok tt, called (told user_id body) w3)
                       end).
  { unfold run. rewrite (task_run _ _ _ _ _ Hbody).
    now destruct (tg_send E (trace w3) (ChatInt user_id) body NoParseMode). }
  pose proof (task_wraps _ _ _ _ _ Hbody) as (Hp & Hf & Hs & Hl & Hc).
  fold run in Hp, Hf, Hs, Hl, Hc. fold wf in Hp, Hf, Hs, Hl, Hc.
  cbn [called db trace] in Hp, Hf, Hs, Hl, Hc. rewrite Hd in Hp, Hf, Hs, Hl.
  destruct (tg_send E (trace w3) (ChatInt user_id) body NoParseMode)
    as [e|m0]; rewrite Ht in Hc;
    (split; [exact Hp|]; split; [exact Hf|]; split; [exact Hs|];
     split; [|split]).
  - exists [told user_id (msg_failed e)]. split; [|repeat constructor].
    apply new_calls_app. rewrite Hc, <- !app_assoc. reflexivity.
  - rewrite (new_logs_app _ _ _ Hl). repeat constructor.
  - intros m Hm. discriminate.
  - exists []. split; [|constructor].
    apply new_calls_app. rewrite Hc, <- !app_assoc. reflexivity.
  - rewrite (new_logs_app _ _ _ Hl). constructor.
  - intros m _. split; [exact Hrun|]. split.
    + unfold wf. rewrite Hrun. exact Hd.
    + apply new_calls_app. rewrite Hc, <- !app_assoc. reflexivity.
Qed.

Lemma disabled_auto_mode_noop_run E w user_id s :
  user_settings (db w) !! user_id = Some s ->
  auto_publish_enabled s = false ->
  auto_publish_task user_id E w = (Ok tt, w).
Proof.
  intros Hs Hoff.
  assert (Hb : auto_publish_body user_id E w = (Ok tt, w)).
  { unfold auto_publish_body.
    rewrite (bind_run _ _ _ _ _ _ (get_user_settings_stored _ _ E _ Hs)).
    now rewrite Hoff. }
  now rewrite (task_run _ _ _ _ _ Hb).
Qed.

(** C5. For every operator whose stored settings have automatic mode off,
    a run of the scheduled task returns at once: it makes no call to any
    service and leaves the database, the log file and the conversation
    state as they were. *)
Theorem disabled_auto_mode_is_noop :
  forall (E : Env) (w : World) (user_id : Z) (s : UserSettings),
    user_settings (db w) !! user_id = Some s ->
    auto_publish_enabled s = false ->
    auto_publish_task user_id E w = (Ok tt, w)
    /\ new_calls w (snd (auto_publish_task user_id E w)) = []
    /\ db (snd (auto_publish_task user_id E w)) = db w.
Proof.
  intros E w user_id s Hs Hoff.
  rewrite (disabled_auto_mode_noop_run E w user_id s Hs Hoff). repeat split.
  apply new_calls_app. cbn. now rewrite app_nil_r.
Qed.

Lemma disabled_auto_mode_is_noop_witness :
  user_settings (db (world_example default_settings ∅)) !! operator
  = Some default_settings
  /\ auto_publish_enabled default_settings = false
  /\ auto_publish_task operator env_ok (world_example default_settings ∅)
     = (Ok tt, world_example default_settings ∅).
Proof.
  assert (Hrow : user_settings (db (world_example default_settings ∅))
                   !! operator = Some default_settings)
    by (vm_compute; reflexivity).
  split; [exact Hrow|]. split; [reflexivity|].
  exact (proj1 (disabled_auto_mode_is_noop env_ok
                  (world_example default_settings ∅) operator
                  default_settings Hrow eq_refl)).
Defined.

(** The first run for an operator without a settings row creates the
    default row, and that is all it does. *)
Lemma first_access_creates_defaults E w user_id :
  user_settings (db w) !! user_id = None ->
  auto_publish_task user_id E w
  = (Ok tt,
     set_db (set_settings (<[user_id := default_settings]>
                             (user_settings (db w))) (db w)) w).
Proof.
  intros H. unfold auto_publish_task, try_except, auto_publish_body.
  unfold get_user_settings, bind, read_db. rewrite H. reflexivity.
Qed.



(* ===================================================================== *)
(** * Gates of the scheduled pipeline *)
(* ===================================================================== *)

(** C7. For every answer of the rewriter in which one of the five required
    fields is missing, the scheduled run fails hard: the audit log gets one
    error row with the validation message and the operator is told; the
    run calls no destination and writes no publish record, no fingerprint
    and no last publish time. *)
Theorem missing_field_is_hard_failure :
  forall (E : Env) (w : World) (user_id : Z) (s : UserSettings)
         (main_news : NewsItem) (sources : list NewsItem) (w2 : World)
         (reply : gmap string pystr) (field : string),
    sourced user_id E w s main_news sources w2 ->
    gpt_chat E (trace w2) sources = inr (inr reply) ->
    In field required ->
    reply !! field = None ->
    let wf := snd (auto_publish_task user_id E w) in
    new_logs w wf = [error_row user_id MISSING_FIELDS]
    /\ new_calls w wf
       = [seed_call; sources_call main_news; CallGptChat sources;
          told user_id (msg_failed MISSING_FIELDS)]
    /\ Forall (fun c => is_destination_call E c = false) (new_calls w wf)
    /\ published_articles (db wf) = published_articles (db w)
    /\ article_fingerprints (db wf) = article_fingerprints (db w)
    /\ user_settings (db wf) = user_settings (db w).
Proof.
  intros E w user_id s main_news sources w2 reply field Hs Hg Hin Hnone wf.
  pose proof (missing_field_not_required reply field Hin Hnone) as Hreq.
  pose proof (sourced_frame _ _ _ _ _ _ _ Hs) as [Hd Ht].
  assert (Hb : auto_publish_body user_id E w
               = (Raised MISSING_FIELDS,
                  logged (LogGptFailed MISSING_FIELDS)
                         (called (CallGptChat sources) w2))).
  { rewrite (sourced_body _ _ _ _ _ _ _ Hs). unfold bind.
    rewrite generate_article_run, Hg, Hreq. reflexivity. }
  pose proof (task_wraps _ _ _ _ _ Hb) as (Hp & Hf & Hu & Hl & Hc).
  fold wf in Hp, Hf, Hu, Hl, Hc.
  cbn [logged called db trace] in Hp, Hf, Hu, Hl, Hc.
  rewrite Hd in Hp, Hf, Hu, Hl. rewrite Ht in Hc.
  assert (Hcalls : new_calls w wf
                   = [seed_call; sources_call main_news; CallGptChat sources;
                      told user_id (msg_failed MISSING_FIELDS)]).
  { apply new_calls_app. rewrite Hc, <- !app_assoc. reflexivity. }
  split; [now apply new_logs_app|]. split; [exact Hcalls|].
  split; [rewrite Hcalls; repeat constructor|]. auto.
Qed.

Lemma missing_field_is_hard_failure_witness :
  In "seo_description"%string required
  /\ reply_partial !! "seo_description"%string = None
  /\ new_logs (world_example settings_on ∅)
       (snd (auto_publish_task operator env_partial_reply
               (world_example settings_on ∅)))
     = [error_row operator MISSING_FIELDS].
Proof.
  assert (Hin : In "seo_description"%string required)
    by (cbn; tauto).
  assert (Hnone : reply_partial !! "seo_description"%string = None)
    by (vm_compute; reflexivity).
  split; [exact Hin|]. split; [exact Hnone|].
  refine (proj1 (missing_field_is_hard_failure env_partial_reply
                   (world_example settings_on ∅) operator settings_on
                   news_example [news_example]
                   (world_sourced env_partial_reply
                                  (world_example settings_on ∅))
                   reply_partial "seo_description" _ _ Hin Hnone)).
  - split; [vm_compute; reflexivity|]. split; [reflexivity|].
    exists [], (snd (search_seed env_partial_reply
                       (world_example settings_on ∅))).
    split; vm_compute; reflexivity.
  - reflexivity.
Defined.

(** C6, as the code has it.  For every scheduled run in which the category
    filter is on (the allowed set is not empty) and the category the
    rewritten article resolves to is not in the set, the run calls no
    destination, writes no fingerprint, no publish record and no last
    publish time, and tells the operator that the article was skipped.  No
    audit row tagged skipped is written: when the operator was told the
    audit log is untouched. *)
Theorem category_filter_skip :
  forall (E : Env) (w : World) (user_id : Z) (s : UserSettings)
         (main_news : NewsItem) (sources : list NewsItem)
         (article : gmap string pystr) (w3 : World) (category : pystr),
    rewritten user_id E w s main_news sources article w3 ->
    article !! "category"%string = Some category ->
    enabled_categories s <> [] ->
    not_in_cats (find_category category (wp_categories (db w)))
                (enabled_categories s) = true ->
    let run := auto_publish_task user_id E w in
    let wf := snd run in
    Forall (fun c => is_destination_call E c = false) (new_calls w wf)
    /\ (exists rest,
          new_calls w wf
          = [seed_call; sources_call main_news; CallGptChat sources]
            ++ told user_id (msg_skipped category) :: rest)
    /\ article_fingerprints (db wf) = article_fingerprints (db w)
    /\ published_articles (db wf) = published_articles (db w)
    /\ user_settings (db wf) = user_settings (db w)
    /\ Forall (fun row => log_status row <> "skipped"%string) (new_logs w wf)
    /\ (forall m,
          tg_send E (trace w3) (ChatInt user_id) (msg_skipped category)
                  NoParseMode = inr m ->
          fst run = Ok tt /\ new_logs w wf = [] /\ db wf = db w).
Proof.
  intros E w user_id s main_news sources article w3 category Hr Hc Hne Hnot
         run wf.
  pose proof (rewritten_frame _ _ _ _ _ _ _ _ Hr) as (Hd & Ht & _).
  assert (Hfilter : passes_filter s
            (find_category category (wp_categories (db w3))) = false).
  { unfold passes_filter. rewrite Hd, Hnot.
    destruct (enabled_categories s); [congruence|reflexivity]. }
  pose proof (rewritten_body _ _ _ _ _ _ _ _ Hr) as Hb.
  rewrite (publish_rewritten_skip _ _ _ _ _ _ _ _ Hc Hfilter) in Hb.
  destruct (neutral_outcome _ _ _ _ _ _ Hd Ht Hb)
    as (Hp & Hf & Hu & (rest & Hcalls & Hrest) & Hlogs & Hok).
  fold run in Hp, Hf, Hu, Hcalls, Hlogs, Hok.
  fold wf in Hp, Hf, Hu, Hcalls, Hlogs, Hok.
  split; [|split; [|split; [|split; [|split; [|split]]]]]; auto.
  - rewrite Hcalls. repeat (constructor; [reflexivity|]). exact Hrest.
  - exists rest. exact Hcalls.
  - eapply Forall_impl; [exact Hlogs|]. cbn. intros row ->. discriminate.
  - intros m Hm. destruct (Hok m Hm) as (Hrun & Hdb & _).
    rewrite Hrun. split; [reflexivity|]. split; [|exact Hdb].
    now apply new_logs_same.
Qed.

Lemma category_filter_skip_witness :
  enabled_categories settings_restricted <> []
  /\ not_in_cats (find_category (py "Вдома") categories_example)
                 (enabled_categories settings_restricted) = true
  /\ article_fingerprints
       (db (snd (auto_publish_task operator env_ok
                   (world_example settings_restricted ∅))))
     = ∅.
Proof.
  assert (Hne : enabled_categories settings_restricted <> [])
    by discriminate.
  assert (Hnot : not_in_cats (find_category (py "Вдома") categories_example)
                   (enabled_categories settings_restricted) = true)
    by (vm_compute; reflexivity).
  split; [exact Hne|]. split; [exact Hnot|].
  refine (proj1 (proj2 (proj2 (category_filter_skip env_ok
            (world_example settings_restricted ∅) operator
            settings_restricted news_example [news_example] reply_full
            (world_rewritten env_ok (world_example settings_restricted ∅))
            (py "Вдома") _ _ Hne Hnot)))).
  - exists (world_sourced env_ok (world_example settings_restricted ∅)).
    split; [|vm_compute; reflexivity].
    split; [vm_compute; reflexivity|]. split; [reflexivity|].
    exists [], (snd (search_seed env_ok
                       (world_example settings_restricted ∅))).
    split; vm_compute; reflexivity.
  - vm_compute. reflexivity.
Defined.

(** The run of the filter scenario writes no audit row at all, where the
    specification asks for one row tagged skipped. *)
Lemma category_skip_writes_no_audit_row :
  enabled_categories settings_restricted <> []
  /\ find_category (py "Вдома") categories_example = Some 2
  /\ not_in_cats (Some 2) (enabled_categories settings_restricted) = true
  /\ In (told operator (msg_skipped (py "Вдома")))
        (new_calls (world_example settings_restricted ∅) end_filtered)
  /\ new_logs (world_example settings_restricted ∅) end_filtered = []
  /\ ~ (exists row,
          new_logs (world_example settings_restricted ∅) end_filtered = [row]
          /\ log_status row = "skipped"%string).
Proof.
  assert (Hlogs : new_logs (world_example settings_restricted ∅)
                    end_filtered = [])
    by (vm_compute; reflexivity).
  split; [discriminate|]. split; [vm_compute; reflexivity|].
  split; [vm_compute; reflexivity|].
  split; [vm_compute; tauto|]. split; [exact Hlogs|].
  intros (row & Hrow & _). rewrite Hlogs in Hrow. discriminate.
Qed.

(** C2, as the code has it.  At the scheduled entry point the duplicate
    check comes before any destination call: for every scheduled run whose
    rewritten title has its fingerprint in the store, the run calls no
    destination, writes no publish record, no fingerprint and no last
    publish time, and tells the operator that a duplicate was found. *)
Theorem scheduled_duplicate_is_skipped :
  forall (E : Env) (w : World) (user_id : Z) (s : UserSettings)
         (main_news : NewsItem) (sources : list NewsItem)
         (article : gmap string pystr) (w3 : World) (category title : pystr),
    rewritten user_id E w s main_news sources article w3 ->
    article !! "category"%string = Some category ->
    passes_filter s (find_category category (wp_categories (db w))) = true ->
    article !! "title"%string = Some title ->
    is_Some (article_fingerprints (db w) !! title_hash (str_lower E) title) ->
    let run := auto_publish_task user_id E w in
    let wf := snd run in
    Forall (fun c => is_destination_call E c = false) (new_calls w wf)
    /\ (exists rest,
          new_calls w wf
          = [seed_call; sources_call main_news; CallGptChat sources]
            ++ told user_id MSG_DUPLICATE :: rest)
    /\ published_articles (db wf) = published_articles (db w)
    /\ article_fingerprints (db wf) = article_fingerprints (db w)
    /\ user_settings (db wf) = user_settings (db w)
    /\ (forall m,
          tg_send E (trace w3) (ChatInt user_id) MSG_DUPLICATE NoParseMode
          = inr m ->
          fst run = Ok tt /\ db wf = db w).
Proof.
  intros E w user_id s main_news sources article w3 category title
         Hr Hc Hpass Ht Hseen run wf.
  pose proof (rewritten_frame _ _ _ _ _ _ _ _ Hr) as (Hd & Htr & _).
  pose proof (rewritten_body _ _ _ _ _ _ _ _ Hr) as Hb.
  rewrite <- Hd in Hpass, Hseen.
  rewrite (publish_rewritten_checked _ _ _ _ _ _ _ _ _ Hc Hpass Ht) in Hb.
  rewrite bool_decide_eq_true_2 in Hb by exact Hseen.
  destruct (neutral_outcome _ _ _ _ _ _ Hd Htr Hb)
    as (Hp & Hf & Hu & (rest & Hcalls & Hrest) & _ & Hok).
  fold run in Hp, Hf, Hu, Hcalls, Hok. fold wf in Hp, Hf, Hu, Hcalls, Hok.
  split; [|split; [|split; [|split; [|split]]]]; auto.
  - rewrite Hcalls. repeat (constructor; [reflexivity|]). exact Hrest.
  - exists rest. exact Hcalls.
  - intros m Hm. destruct (Hok m Hm) as (Hrun & Hdb & _).
    rewrite Hrun. split; [reflexivity|exact Hdb].
Qed.

Lemma scheduled_duplicate_is_skipped_witness :
  is_Some (fingerprints_seen !! title_hash lower_simple article_title)
  /\ Forall (fun c => is_destination_call env_ok c = false)
       (new_calls (world_example settings_on fingerprints_seen)
          (snd (auto_publish_task operator env_ok
                  (world_example settings_on fingerprints_seen)))).
Proof.
  assert (Hseen : is_Some (fingerprints_seen
                             !! title_hash lower_simple article_title))
    by (vm_compute; eauto).
  split; [exact Hseen|].
  refine (proj1 (scheduled_duplicate_is_skipped env_ok
            (world_example settings_on fingerprints_seen) operator
            settings_on news_example [news_example] reply_full
            (world_rewritten env_ok
               (world_example settings_on fingerprints_seen))
            (py "Вдома") article_title _ _ _ _ Hseen)).
  - exists (world_sourced env_ok
              (world_example settings_on fingerprints_seen)).
    split; [|vm_compute; reflexivity].
    split; [vm_compute; reflexivity|]. split; [reflexivity|].
    exists [], (snd (search_seed env_ok
                       (world_example settings_on fingerprints_seen))).
    split; vm_compute; reflexivity.
  - vm_compute. reflexivity.
  - reflexivity.
  - vm_compute. reflexivity.
Defined.

Lemma has_required_lookup (article : gmap string pystr) field :
  has_required article = true -> In field required ->
  exists v, article !! field = Some v.
Proof.
  unfold has_required. rewrite forallb_forall. intros H Hin.
  specialize (H field Hin). apply bool_decide_eq_true in H.
  destruct H as [v Hv]. eauto.
Qed.

Lemma no_destination_among (E : Env) (l : list Call) :
  Forall (fun c => is_destination_call E c = false) l ->
  ~ Exists (fun c => is_destination_call E c = true) l.
Proof.
  intros Hall Hex. apply List.Exists_exists in Hex as (c & Hin & Hc).
  rewrite List.Forall_forall in Hall. specialize (Hall c Hin). congruence.
Qed.

(** Whatever the services answer, a scheduled run that calls a destination
    has passed the duplicate check: it holds a rewritten article whose
    title had no fingerprint in the store. *)
Lemma destination_call_needs_fresh_title E w user_id :
  Exists (fun c => is_destination_call E c = true)
         (new_calls w (snd (auto_publish_task user_id E w))) ->
  exists s main_news sources article w3 title,
    rewritten user_id E w s main_news sources article w3
    /\ article !! "title"%string = Some title
    /\ article_fingerprints (db w) !! title_hash (str_lower E) title = None.
Proof.
  intros Hex.
  destruct (user_settings (db w) !! user_id) as [s|] eqn:Hs.
  2:{ exfalso. revert Hex. rewrite (first_access_creates_defaults _ _ _ Hs).
      apply no_destination_among. unfold new_calls. cbn.
      rewrite drop_all. constructor. }
  destruct (auto_publish_enabled s) eqn:Hon.
  2:{ exfalso. revert Hex.
      rewrite (disabled_auto_mode_noop_run E w user_id s Hs Hon).
      apply no_destination_among. unfold new_calls. cbn.
      rewrite drop_all. constructor. }
  destruct (search_news_total DEFAULT_TOPIC (py "uk") (py "ua") 10 E w)
    as (items & line & H1).
  fold search_seed in H1. fold seed_call in H1.
  destruct items as [|main_news rest].
  { exfalso. revert Hex.
    destruct (neutral_outcome user_id E w (logged line (called seed_call w))
                [seed_call] MSG_NO_NEWS eq_refl eq_refl)
      as (_ & _ & _ & (l & -> & Hl) & _).
    - unfold auto_publish_body.
      rewrite (bind_run _ _ _ _ _ _ (get_user_settings_stored _ _ E _ Hs)).
      rewrite Hon. cbn [negb]. now rewrite (bind_run _ _ _ _ _ _ H1).
    - apply no_destination_among.
      repeat (constructor; [reflexivity|]). exact Hl. }
  destruct (search_news_total
              (extract_keywords_from_title (default [] (n_title main_news)) 5)
              (py "uk") (py "ua") 10 E
              (logged line (called seed_call w)))
    as (sources & line2 & H2).
  fold (search_sources main_news) in H2. fold (sources_call main_news) in H2.
  set (w2 := logged line2 (called (sources_call main_news)
                             (logged line (called seed_call w)))) in *.
  assert (Hsrc : sourced user_id E w s main_news sources w2).
  { split; [exact Hs|]. split; [exact Hon|]. eauto. }
  destruct (generate_article sources E w2) as [[article|e] w3] eqn:Hg.
  2:{ exfalso. revert Hex.
      pose proof (sourced_frame _ _ _ _ _ _ _ Hsrc) as [_ Ht2].
      pose proof (grows_trace_at _ _ _ _ _
                    (grows_trace_generate sources) Hg) as Hgrow.
      rewrite generate_article_run in Hg.
      assert (Ht3 : trace w3 = trace w2 ++ [CallGptChat sources]).
      { destruct (gpt_chat E (trace w2) sources) as [e'|[e'|reply]];
          [injection Hg as _ <-; reflexivity
          |injection Hg as _ <-; reflexivity|].
        destruct (has_required reply); injection Hg as _ <-; reflexivity. }
      assert (Hb : auto_publish_body user_id E w = (Raised e, w3)).
      { rewrite (sourced_body _ _ _ _ _ _ _ Hsrc). unfold bind.
        rewrite generate_article_run. rewrite Hg. reflexivity. }
      pose proof (task_wraps _ _ _ _ _ Hb) as (_ & _ & _ & _ & Hc).
      rewrite (new_calls_app _ _
                 ([seed_call; sources_call main_news; CallGptChat sources]
                    ++ [told user_id (msg_failed e)])).
      - apply no_destination_among. repeat constructor.
      - rewrite Hc, Ht3, Ht2, <- !app_assoc. reflexivity. }
  assert (Hr : rewritten user_id E w s main_news sources article w3)
    by (exists w2; auto).
  pose proof (rewritten_frame _ _ _ _ _ _ _ _ Hr) as (Hd & Htr & Hreq).
  destruct (has_required_lookup article "category" Hreq) as [category Hc];
    [cbn; tauto|].
  destruct (has_required_lookup article "title" Hreq) as [title Ht];
    [cbn; tauto|].
  pose proof (rewritten_body _ _ _ _ _ _ _ _ Hr) as Hb.
  destruct (passes_filter s (find_category category (wp_categories (db w3))))
    eqn:Hpass.
  2:{ exfalso. revert Hex.
      rewrite (publish_rewritten_skip _ _ _ _ _ _ _ _ Hc Hpass) in Hb.
      destruct (neutral_outcome _ _ _ _ _ _ Hd Htr Hb)
        as (_ & _ & _ & (l & -> & Hl) & _).
      apply no_destination_among.
      repeat (constructor; [reflexivity|]). exact Hl. }
  rewrite (publish_rewritten_checked _ _ _ _ _ _ _ _ _ Hc Hpass Ht) in Hb.
  destruct (article_fingerprints (db w3) !! title_hash (str_lower E) title)
    as [seen|] eqn:Hseen.
  { exfalso. revert Hex.
    rewrite bool_decide_eq_true_2 in Hb by eauto.
    destruct (neutral_outcome _ _ _ _ _ _ Hd Htr Hb)
      as (_ & _ & _ & (l & -> & Hl) & _).
    apply no_destination_among.
    repeat (constructor; [reflexivity|]). exact Hl. }
  exists s, main_news, sources, article, w3, title.
  rewrite <- Hd. auto.
Qed.

(** The manual handler makes no duplicate check: with the fingerprint of
    the article's title in the store, pressing the button still creates the
    post on the site and stores a second publish record. *)
Lemma manual_publish_ignores_fingerprint :
  generated_article (fsm world_manual)
  = Some (mkArticle reply_full (Some 2))
  /\ reply_full !! "title"%string = Some article_title
  /\ fst (check_duplicate article_title env_ok world_manual) = Ok true
  /\ In (CallWpCreatePost (mkArticle reply_full (Some 2)) None)
        (new_calls world_manual end_manual)
  /\ Exists (fun c => is_destination_call env_ok c = true)
            (new_calls world_manual end_manual)
  /\ map pa_title (published_articles (db end_manual)) = [article_title]
  /\ ~ Forall (fun c => is_destination_call env_ok c = false)
              (new_calls world_manual end_manual).
Proof.
  assert (Hin : In (CallWpCreatePost (mkArticle reply_full (Some 2)) None)
                   (new_calls world_manual end_manual)).
  { vm_compute. tauto. }
  split; [reflexivity|]. split; [vm_compute; reflexivity|].
  split; [vm_compute; reflexivity|]. split; [exact Hin|].
  split; [apply List.Exists_exists; eexists; split; [exact Hin|reflexivity]|].
  split; [vm_compute; reflexivity|].
  intros Hall. rewrite List.Forall_forall in Hall.
  specialize (Hall _ Hin). discriminate.
Qed.

(** ** Partial failure *)

Lemma site_phase_ok s art media E w4 pid url w5 :
  site_phase s art media E w4 = (Ok (Some pid, url), w5) ->
  auto_publish_to_wp s = true
  /\ trace w5 = trace w4 ++ [CallWpCreatePost art media].
Proof.
  unfold site_phase. destruct (auto_publish_to_wp s); [|discriminate].
  unfold bind at 1. unfold create_post. unfold bind at 1.
  rewrite call_run.
  destruct (wp_post E (trace w4) art media) as [e|resp]; [discriminate|].
  destruct (negb _).
  - cbn. discriminate.
  - unfold resp_json. destruct (json resp); cbn; [discriminate|].
    intros [= _ _ <-]. split; reflexivity.
Qed.

(** C1, as the code has it.  For every scheduled run in which the site
    phase succeeds and the channel phase raises, the exception ends the run
    before the record step: the post stays on the site, but no publish
    record is written, no fingerprint is registered and the last publish
    time is not updated; the audit log gets one error row carrying the
    exception's text, and the operator is told. *)
Theorem channel_failure_leaves_no_record :
  forall (E : Env) (w : World) (user_id : Z) (s : UserSettings)
         (main_news : NewsItem) (sources : list NewsItem)
         (article : gmap string pystr) (w3 : World) (category title : pystr)
         (media : option Z) (w4 : World) (pid : Z) (url : option pystr)
         (w5 : World) (e : exn) (w6 : World),
    rewritten user_id E w s main_news sources article w3 ->
    article !! "category"%string = Some category ->
    passes_filter s (find_category category (wp_categories (db w))) = true ->
    article !! "title"%string = Some title ->
    article_fingerprints (db w) !! title_hash (str_lower E) title = None ->
    upload_cover main_news E w3 = (Ok media, w4) ->
    site_phase s
      (mkArticle article (find_category category (wp_categories (db w))))
      media E w4 = (Ok (Some pid, url), w5) ->
    channel_phase s article url E w5 = (Raised e, w6) ->
    let wf := snd (auto_publish_task user_id E w) in
    In (CallWpCreatePost
          (mkArticle article (find_category category (wp_categories (db w))))
          media) (new_calls w wf)
    /\ published_articles (db wf) = published_articles (db w)
    /\ article_fingerprints (db wf) = article_fingerprints (db w)
    /\ user_settings (db wf) = user_settings (db w)
    /\ new_logs w wf = [error_row user_id e]
    /\ In (told user_id (msg_failed e)) (new_calls w wf).
Proof.
  intros E w user_id s main_news sources article w3 category title media w4
         pid url w5 e w6 Hr Hc Hpass Ht Hfresh Hup Hsite Hchan wf.
  pose proof (rewritten_frame _ _ _ _ _ _ _ _ Hr) as (Hd & Htr & _).
  pose proof (rewritten_body _ _ _ _ _ _ _ _ Hr) as Hb.
  rewrite <- Hd in Hpass, Hfresh, Hsite.
  rewrite (publish_rewritten_checked _ _ _ _ _ _ _ _ _ Hc Hpass Ht) in Hb.
  rewrite bool_decide_eq_false_2 in Hb
    by (rewrite Hfresh; apply is_Some_None).
  assert (Hsteps : auto_publish_body user_id E w = (Raised e, w6)).
  { rewrite Hb. unfold auto_publish_steps.
    rewrite (bind_run _ _ _ _ _ _ (dict_get_run _ _ _ E w3 Ht)).
    rewrite (bind_run _ _ _ _ _ _ Hup). cbv beta iota.
    rewrite (bind_run _ _ _ _ _ _ Hsite). cbv beta iota. cbn [fst snd].
    now rewrite (bind_run _ _ _ _ _ _ Hchan). }
  pose proof (keeps_db_at _ _ _ _ _ (keeps_db_upload_cover _) Hup) as Hd4.
  pose proof (keeps_db_at _ _ _ _ _ (keeps_db_site _ _ _) Hsite) as Hd5.
  pose proof (keeps_db_at _ _ _ _ _ (keeps_db_channel _ _ _) Hchan) as Hd6.
  assert (Hup' : exists l, trace w4 = trace w3 ++ l).
  { eapply grows_trace_at; [|exact Hup].
    unfold upload_cover, upload_image. frame. }
  destruct Hup' as [l4 Ht4].
  destruct (site_phase_ok _ _ _ _ _ _ _ _ Hsite) as [_ Ht5].
  destruct (grows_trace_at _ _ _ _ _ (grows_trace_channel _ _ _) Hchan)
    as [l6 Ht6].
  pose proof (task_wraps _ _ _ _ _ Hsteps) as (Hp & Hf & Hu & Hl & Hcalls).
  fold wf in Hp, Hf, Hu, Hl, Hcalls.
  assert (Hdb : db w6 = db w) by congruence.
  rewrite Hdb in Hp, Hf, Hu, Hl.
  assert (Hnew : new_calls w wf
                 = [seed_call; sources_call main_news; CallGptChat sources]
                   ++ l4
                   ++ [CallWpCreatePost
                         (mkArticle article
                            (find_category category (wp_categories (db w3))))
                         media]
                   ++ l6 ++ [told user_id (msg_failed e)]).
  { apply new_calls_app. rewrite Hcalls, Ht6, Ht5, Ht4, Htr.
    now rewrite <- !app_assoc. }
  rewrite Hd in Hnew.
  split; [|split; [exact Hp|split; [exact Hf|split; [exact Hu|split]]]].
  - rewrite Hnew, !in_app_iff. right. right. left. now left.
  - now apply new_logs_app.
  - rewrite Hnew, !in_app_iff. right. right. right. right. now left.
Qed.

Lemma channel_failure_leaves_no_record_witness :
  article_fingerprints (db (world_example settings_on ∅))
    !! title_hash (str_lower env_channel_down) article_title = None
  /\ published_articles
       (db (snd (auto_publish_task operator env_channel_down
                   (world_example settings_on ∅))))
     = [].
Proof.
  assert (Hfresh :
    article_fingerprints (db (world_example settings_on ∅))
      !! title_hash (str_lower env_channel_down) article_title = None)
    by (vm_compute; reflexivity).
  split; [exact Hfresh|].
  set (w := world_example settings_on ∅).
  set (w3 := world_rewritten env_channel_down w).
  set (art := mkArticle reply_full
                (find_category (py "Вдома") (wp_categories (db w)))).
  set (w5 := snd (site_phase settings_on art None env_channel_down w3)).
  refine (proj1 (proj2 (channel_failure_leaves_no_record env_channel_down
            w operator settings_on news_example [news_example] reply_full
            w3 (py "Вдома") article_title None w3 42
            (Some (wp_link post_example)) w5 channel_down
            (snd (channel_phase settings_on reply_full
                    (Some (wp_link post_example)) env_channel_down w5))
            _ _ _ _ Hfresh _ _ _))).
  - exists (world_sourced env_channel_down w).
    split; [|vm_compute; reflexivity].
    split; [vm_compute; reflexivity|]. split; [reflexivity|].
    exists [], (snd (search_seed env_channel_down w)).
    split; vm_compute; reflexivity.
  - vm_compute. reflexivity.
  - reflexivity.
  - vm_compute. reflexivity.
  - vm_compute. reflexivity.
  - vm_compute. reflexivity.
  - vm_compute. reflexivity.
Defined.

(** The run of the scenario in which the site takes the post and the
    channel refuses it: no publish record and no fingerprint, where the
    specification asks for a record marked site-only and a registered
    fingerprint. *)
Lemma partial_success_is_not_recorded :
  In (CallWpCreatePost (mkArticle reply_full (Some 2)) None)
     (new_calls (world_example settings_on ∅) end_channel_down)
  /\ wp_post env_channel_down [] (mkArticle reply_full (Some 2)) None
     = inr (mkResp 201 [] (inr post_example))
  /\ In (told operator (msg_failed channel_down))
        (new_calls (world_example settings_on ∅) end_channel_down)
  /\ ~ (exists rec,
          In rec (published_articles (db end_channel_down))
          /\ published_to_wp rec = true /\ published_to_tg rec = false)
  /\ fst (check_duplicate article_title env_channel_down end_channel_down)
     = Ok false.
Proof.
  assert (Hnone : published_articles (db end_channel_down) = [])
    by (vm_compute; reflexivity).
  split; [vm_compute; tauto|]. split; [reflexivity|].
  split; [vm_compute; tauto|]. split.
  - intros (rec & Hin & _). rewrite Hnone in Hin. destruct Hin.
  - vm_compute. reflexivity.
Qed.

(** When both phases succeed the record step runs: one publish record
    with both flags, the fingerprint, the last publish time, a success row. *)
Example full_success_is_recorded :
  map (fun r => (published_to_wp r, published_to_tg r, pa_wp_post_id r))
      (published_articles (db end_full)) = [(true, true, Some 42)]
  /\ fst (check_duplicate article_title env_ok end_full) = Ok true
  /\ map log_status (new_logs (world_example settings_on ∅) end_full)
     = ["success"%string]
  /\ (last_publish_time <$> user_settings (db end_full) !! operator)
     = Some (Some 1730000000).
Proof. repeat split; vm_compute; reflexivity. Qed.

(* ===================================================================== *)
(** * The fingerprint store *)
(* ===================================================================== *)

Lemma check_duplicate_run title E w :
  check_duplicate title E w
  = (Ok (bool_decide (is_Some (article_fingerprints (db w)
                                 !! title_hash (str_lower E) title))), w).
Proof. reflexivity. Qed.

Lemma add_article_fingerprint_run title E w :
  add_article_fingerprint title E w
  = (Ok tt,
     set_db (set_fingerprints
               (insert_fingerprint (title_hash (str_lower E) title) title
                  (article_fingerprints (db w))) (db w)) w).
Proof. reflexivity. Qed.

Lemma insert_fingerprint_lookup h title (t : gmap string pystr) :
  is_Some (insert_fingerprint h title t !! h).
Proof.
  unfold insert_fingerprint. destruct (t !! h) eqn:E.
  - rewrite E. eauto.
  - rewrite lookup_insert_eq. eauto.
Qed.

Lemma insert_fingerprint_other h h' title (t : gmap string pystr) :
  h <> h' -> insert_fingerprint h title t !! h' = t !! h'.
Proof.
  intros Hne. unfold insert_fingerprint.
  destruct (t !! h); [reflexivity|]. now apply lookup_insert_ne.
Qed.








(** C4, as the code has it.  The normal form of a title is its lower-case
    form, nothing more: for all titles that are identical after
    lower-casing, adding one makes [check_duplicate] answer true for the
    other. *)
Theorem same_lowercase_is_same_article :
  forall (E : Env) (w : World) (t1 t2 : pystr),
    str_lower E t1 = str_lower E t2 ->
    let w1 := snd (add_article_fingerprint t1 E w) in
    check_duplicate t2 E w1 = (Ok true, w1).
Proof.
  intros E w t1 t2 Hlow w1. rewrite check_duplicate_run. f_equal. f_equal.
  apply bool_decide_eq_true_2. unfold w1.
  rewrite add_article_fingerprint_run.
  cbn [snd set_db db set_fingerprints article_fingerprints].
  unfold title_hash. rewrite <- Hlow. apply insert_fingerprint_lookup.
Qed.

Lemma same_lowercase_is_same_article_witness :
  str_lower env_ok (py "Економіка ЗРОСТАЄ") = str_lower env_ok article_title
  /\ fst (check_duplicate article_title env_ok
            (snd (add_article_fingerprint (py "Економіка ЗРОСТАЄ") env_ok
                    world_fresh)))
     = Ok true.
Proof.
  assert (Hlow : str_lower env_ok (py "Економіка ЗРОСТАЄ")
                 = str_lower env_ok article_title)
    by (vm_compute; reflexivity).
  split; [exact Hlow|].
  now rewrite (same_lowercase_is_same_article env_ok world_fresh
                 (py "Економіка ЗРОСТАЄ") article_title Hlow).
Defined.

(** Surrounding white space is part of the hashed text: a title and the
    same title behind a space are two articles. *)
Lemma surrounding_space_is_not_trimmed :
  py_strip (lower_simple (py " abc")) = py_strip (lower_simple (py "abc"))
  /\ title_hash lower_simple (py "abc") = "900150983cd24fb0d6963f7d28e17f72"%string
  /\ title_hash lower_simple (py " abc") = "12cfaf7fd98f33be8038b3d56c18f061"%string
  /\ ~ (forall (E : Env) (w : World) (t1 t2 : pystr),
          py_strip (str_lower E t1) = py_strip (str_lower E t2) ->
          fst (check_duplicate t2 E (snd (add_article_fingerprint t1 E w)))
          = Ok true).
Proof.
  split; [vm_compute; reflexivity|]. split; [vm_compute; reflexivity|].
  split; [vm_compute; reflexivity|].
  intros Hall.
  specialize (Hall env_ok world_fresh (py "abc") (py " abc")).
  assert (Hfalse : fst (check_duplicate (py " abc") env_ok
                          (snd (add_article_fingerprint (py "abc") env_ok
                                  world_fresh))) = Ok false)
    by (vm_compute; reflexivity).
  rewrite Hfalse in Hall. discriminate Hall. vm_compute. reflexivity.
Qed.

(* ===================================================================== *)
(** * More on the text utilities *)
(* ===================================================================== *)

(** ** Words, joined and split again *)

Lemma split_aux_word (sep : Z -> bool) (w : pystr) : forall (cur s : pystr),
  Forall (fun c => sep c = false) w ->
  split_aux sep cur (w ++ s) = split_aux sep (rev w ++ cur) s.
Proof.
  induction w as [|c w IH]; intros cur s Hw; [reflexivity|].
  inversion Hw as [|? ? Hc Hw']; subst. cbn [app split_aux]. rewrite Hc.
  rewrite IH by assumption. cbn [rev]. now rewrite <- app_assoc.
Qed.

Lemma split_aux_end (sep : Z -> bool) (w : pystr) :
  w <> [] -> Forall (fun c => sep c = false) w ->
  split_aux sep [] w = [w].
Proof.
  intros Hne Hw. rewrite <- (app_nil_r w) at 1.
  rewrite split_aux_word by assumption. cbn [split_aux]. rewrite app_nil_r.
  destruct (rev w) eqn:E.
  - apply (f_equal (@rev Z)) in E. rewrite rev_involutive in E. now subst.
  - rewrite <- E. now rewrite rev_involutive.
Qed.

(** [' '.join(ws).split() == ws] for words. *)
Lemma py_split_join (ws : list pystr) :
  Forall (word_of is_space) ws -> py_split (py_join SPACE ws) = ws.
Proof.
  unfold py_split. induction 1 as [|w ws [Hne Hw] Hws IH]; [reflexivity|].
  destruct ws as [|w' ws].
  - cbn [py_join]. now apply split_aux_end.
  - change (py_join SPACE (w :: w' :: ws))
      with (w ++ SPACE ++ py_join SPACE (w' :: ws)).
    rewrite split_aux_word by assumption. rewrite app_nil_r.
    cbn [SPACE app split_aux]. change (is_space 32) with true. cbv iota.
    destruct (rev w) eqn:E.
    + apply (f_equal (@rev Z)) in E. rewrite rev_involutive in E. now subst.
    + rewrite <- E, rev_involutive. now rewrite IH.
Qed.

Lemma py_join_nil_iff (ws : list pystr) :
  Forall (word_of is_space) ws -> py_join SPACE ws = [] -> ws = [].
Proof.
  intros H Hj. destruct ws as [|w ws]; [reflexivity|].
  inversion H as [|? ? [Hne _] _]; subst.
  destruct w as [|a w]; [congruence|].
  destruct (py_join_head SPACE a w ws) as [t Ht].
  set (j := py_join SPACE ((a :: w) :: ws)) in *.
  change (j = a :: t) in Ht. change (j = []) in Hj. congruence.
Qed.

Lemma clean_words_are_words s :
  Forall (word_of (fun c => is_removed c || is_space c)) (clean_words s).
Proof. apply split_aux_words. constructor. Qed.

Lemma words_space_free (ws : list pystr) :
  Forall (word_of (fun c => is_removed c || is_space c)) ws ->
  Forall (word_of is_space) ws.
Proof.
  intros H. eapply Forall_impl; [exact H|]. intros w.
  apply word_of_weaken. intros x Hx. now apply orb_false_iff in Hx.
Qed.

Lemma words_clean (ws : list pystr) :
  Forall (word_of (fun c => is_removed c || is_space c)) ws ->
  Forall (fun c => is_removed c = false) (py_join SPACE ws).
Proof.
  intros H. apply py_join_chars; [repeat constructor|].
  eapply Forall_impl; [exact H|]. intros w [_ Hw].
  eapply Forall_impl; [exact Hw|]. cbn. intros x Hx.
  now apply orb_false_iff in Hx.
Qed.

(** Text without special characters is its own cleaned form. *)
Lemma clean_fixed (s : pystr) :
  Forall (fun c => is_removed c = false) s ->
  flat_map (fun c => if cset_mem special_chars c then SPACE else [c]) s = s.
Proof.
  induction 1 as [|c s Hc Hs IH]; [reflexivity|].
  cbn [flat_map]. unfold is_removed in Hc. rewrite Hc, IH. reflexivity.
Qed.

Lemma clean_words_of_join (ws : list pystr) :
  Forall (word_of (fun c => is_removed c || is_space c)) ws ->
  clean_words (py_join SPACE ws) = ws.
Proof.
  intros H. unfold clean_words. rewrite <- split_cleaned.
  fold is_removed. rewrite clean_fixed by now apply words_clean.
  apply py_split_join. now apply words_space_free.
Qed.

Lemma sanitized_words_are_words query :
  Forall (word_of (fun c => is_removed c || is_space c))
         (sanitized_words query).
Proof.
  unfold sanitized_words. destruct (100 <? _).
  - apply Forall_firstn_keep, clean_words_are_words.
  - apply clean_words_are_words.
Qed.

(** ** The sanitizer *)

Lemma py_split_cleaned (s : pystr) :
  py_split (re_sub (OneOf special_chars) [TLit SPACE] s) = clean_words s.
Proof. rewrite re_sub_one_of. unfold py_split. apply split_cleaned. Qed.

(** What [_sanitize_query] computes, in terms of the words it keeps. *)
Lemma sanitize_query_unfold query :
  query <> [] -> query <> [42] ->
  _sanitize_query query
  = let q := py_join SPACE (sanitized_words query) in
    match q with
    | [] => DEFAULT_TOPIC
    | _ :: _ => if py_len q <? 3 then DEFAULT_TOPIC else q
    end.
Proof.
  intros Hne Hstar. unfold _sanitize_query.
  rewrite (bool_decide_eq_false_2 _ Hne), (bool_decide_eq_false_2 _ Hstar).
  cbn [orb]. cbv zeta. rewrite py_split_cleaned.
  rewrite (py_split_join (clean_words query))
    by apply words_space_free, clean_words_are_words.
  pose proof (sanitized_words_are_words query) as Hw.
  unfold sanitized_words in *.
  destruct (100 <? py_len (py_join SPACE (clean_words query)));
    rewrite py_strip_join by (apply words_space_free, Hw); reflexivity.
Qed.

Lemma single_spaced_join (ws : list pystr) :
  Forall (word_of is_space) ws -> single_spaced (py_join SPACE ws).
Proof. intros H. unfold single_spaced. now rewrite py_split_join. Qed.

(** X1. Whatever the query, the sanitized query is at least three
    characters long, holds none of the characters the aggregator rejects,
    and is in normal form: words joined by single spaces, no white space at
    either end. *)
Theorem sanitized_query_is_well_formed :
  forall query : pystr,
    3 <= py_len (_sanitize_query query)
    /\ Forall (fun c => is_removed c = false) (_sanitize_query query)
    /\ single_spaced (_sanitize_query query)
    /\ py_strip (_sanitize_query query) = _sanitize_query query.
Proof.
  intros query.
  assert (Hd : 3 <= py_len DEFAULT_TOPIC
               /\ Forall (fun c => is_removed c = false) DEFAULT_TOPIC
               /\ single_spaced DEFAULT_TOPIC
               /\ py_strip DEFAULT_TOPIC = DEFAULT_TOPIC).
  { split; [vm_compute; discriminate|]. split; [repeat constructor|].
    split; reflexivity. }
  destruct (decide (query = [])) as [->|Hne]; [exact Hd|].
  destruct (decide (query = [42])) as [->|Hstar]; [exact Hd|].
  rewrite (sanitize_query_unfold query Hne Hstar). cbv zeta.
  pose proof (sanitized_words_are_words query) as Hw.
  destruct (py_join SPACE (sanitized_words query)) as [|c q] eqn:Hq;
    [exact Hd|].
  destruct (py_len (c :: q) <? 3) eqn:Hlen; [exact Hd|].
  apply Z.ltb_ge in Hlen. rewrite <- Hq.
  split; [rewrite Hq; lia|]. split; [now apply words_clean|].
  split; [now apply single_spaced_join, words_space_free|].
  now apply py_strip_join, words_space_free.
Qed.

Lemma firstn_10_fixed (query : pystr) :
  let ws := sanitized_words query in
  (100 <? py_len (py_join SPACE ws)) = true -> firstn 10 ws = ws.
Proof.
  cbv zeta. unfold sanitized_words.
  destruct (100 <? py_len (py_join SPACE (clean_words query))) eqn:E.
  - intros _. rewrite firstn_firstn. reflexivity.
  - congruence.
Qed.

(** X2. Sanitizing is idempotent: a sanitized query passes the sanitizer
    unchanged. *)
Theorem sanitize_query_idempotent :
  forall query : pystr,
    _sanitize_query (_sanitize_query query) = _sanitize_query query.
Proof.
  intros query.
  assert (Hd : _sanitize_query DEFAULT_TOPIC = DEFAULT_TOPIC)
    by (vm_compute; reflexivity).
  destruct (decide (query = [])) as [->|Hne]; [exact Hd|].
  destruct (decide (query = [42])) as [->|Hstar]; [exact Hd|].
  rewrite (sanitize_query_unfold query Hne Hstar). cbv zeta.
  pose proof (sanitized_words_are_words query) as Hw.
  destruct (py_join SPACE (sanitized_words query)) as [|c q] eqn:Hq;
    [exact Hd|].
  destruct (py_len (c :: q) <? 3) eqn:Hlen; [exact Hd|].
  assert (Hclean : Forall (fun x => is_removed x = false) (c :: q))
    by (rewrite <- Hq; now apply words_clean).
  rewrite sanitize_query_unfold.
  - assert (Hsame : sanitized_words (c :: q) = sanitized_words query).
    { unfold sanitized_words at 1. rewrite <- Hq.
      rewrite clean_words_of_join by exact Hw.
      destruct (100 <? py_len (py_join SPACE (sanitized_words query))) eqn:E;
        [|reflexivity].
      now apply firstn_10_fixed. }
    rewrite Hsame. cbv zeta. rewrite Hq, Hlen. reflexivity.
  - discriminate.
  - intros [= -> ->]. inversion Hclean as [|? ? Hc _]. discriminate Hc.
Qed.

(** ** Keywords *)

Lemma kept_words_clean title n :
  kept_words title n
  = firstn n (List.filter (fun w => 2 <? py_len w) (clean_words title)).
Proof. reflexivity. Qed.

Lemma kept_words_long title n :
  Forall (fun w => 2 < py_len w) (kept_words title n).
Proof.
  unfold kept_words. apply Forall_firstn_keep.
  apply List.Forall_forall. intros w Hin.
  apply List.filter_In in Hin as [_ H]. now apply Z.ltb_lt in H.
Qed.

Lemma py_join_length_head (w : pystr) (ws : list pystr) :
  py_len w <= py_len (py_join SPACE (w :: ws)).
Proof.
  unfold py_len. destruct ws; cbn [py_join]; [lia|].
  rewrite length_app. lia.
Qed.

(** The keywords are the default topic or the joined kept words. *)
Lemma extract_keywords_cases title n :
  (extract_keywords_from_title title n = DEFAULT_TOPIC
   /\ (title = [] \/ kept_words title n = []))
  \/ (kept_words title n <> []
      /\ extract_keywords_from_title title n
         = py_join SPACE (kept_words title n)).
Proof.
  destruct title as [|c title]; [left; auto|].
  rewrite extract_keywords_unfold by congruence. cbv zeta.
  pose proof (kept_words_are_words (c :: title) n) as Hw.
  pose proof (kept_words_long (c :: title) n) as Hlong.
  destruct (kept_words (c :: title) n) as [|w ws] eqn:Hk; [left; auto|].
  right. split; [congruence|].
  pose proof (py_join_length_head w ws) as Hlen.
  inversion Hlong as [|? ? Hw2 _]; subst.
  destruct (py_join SPACE (w :: ws)) as [|x q] eqn:Hq.
  - exfalso. unfold py_len in *. cbn in Hlen. lia.
  - destruct (py_len (x :: q) <? 3) eqn:E; [|reflexivity].
    apply Z.ltb_lt in E. lia.
Qed.

(** With a count for a limit the two forms of the function agree. *)
Lemma extract_keywords_int_count title (k : Z) :
  extract_keywords_from_title_int title k
  = extract_keywords_from_title title (slice_count (length (long_words title)) k).
Proof.
  unfold extract_keywords_from_title_int, extract_keywords_from_title.
  destruct title as [|c title]; [reflexivity|].
  unfold py_list_to, slice_count, long_words. cbv zeta.
  destruct (k <? 0); reflexivity.
Qed.

Lemma long_words_clean title :
  long_words title
  = List.filter (fun w => 2 <? py_len w) (clean_words title).
Proof. unfold long_words. now rewrite py_split_cleaned. Qed.

(** X3. For every title and every integer limit, the keywords are the
    default topic, or at least one word, each longer than two
    characters, joined by single spaces: the slice [words[:max_words]]
    of the long words of the title.  With a limit that is not negative
    there are at most [max_words] of them; a negative limit counts from
    the end and drops that many of the long words.  At a count the
    function is the one the scheduled task calls. *)
Theorem keywords_are_few_long_words :
  forall (title : pystr) (max_words : Z),
    let query := extract_keywords_from_title_int title max_words in
    (forall n : nat,
        extract_keywords_from_title_int title (Z.of_nat n)
        = extract_keywords_from_title title n)
    /\ (query = DEFAULT_TOPIC
        \/ ((1 <= length (py_split query))%nat
            /\ Forall (fun w => 2 < py_len w) (py_split query)
            /\ single_spaced query
            /\ py_split query = py_list_to (long_words title) max_words
            /\ (0 <= max_words ->
                Z.of_nat (length (py_split query)) <= max_words)
            /\ (max_words < 0 ->
                Z.of_nat (length (py_split query))
                = Z.of_nat (length (long_words title)) + max_words))).
Proof.
  intros title k query. split.
  { intros n. rewrite extract_keywords_int_count. unfold slice_count.
    destruct (Z.of_nat n <? 0) eqn:E; [apply Z.ltb_lt in E; lia|].
    now rewrite Nat2Z.id. }
  unfold query. rewrite extract_keywords_int_count.
  set (n := slice_count (length (long_words title)) k).
  destruct (extract_keywords_cases title n) as [[H _]|[Hne H]]; [now left|].
  right. rewrite H.
  pose proof (words_space_free _ (kept_words_are_words title n)) as Hw.
  rewrite (py_split_join _ Hw).
  assert (Hkept : kept_words title n = py_list_to (long_words title) k).
  { rewrite kept_words_clean, <- long_words_clean.
    unfold n, slice_count, py_list_to. destruct (k <? 0); reflexivity. }
  assert (Hlen : length (kept_words title n)
                 = Nat.min n (length (long_words title))).
  { rewrite kept_words_clean, <- long_words_clean. apply length_firstn. }
  assert (Hpos : (1 <= length (kept_words title n))%nat)
    by (destruct (kept_words title n); [congruence|cbn; lia]).
  split; [exact Hpos|]. split; [apply kept_words_long|].
  split; [now apply single_spaced_join|]. split; [exact Hkept|].
  assert (Hn : n = if k <? 0
                   then Z.to_nat (Z.of_nat (length (long_words title)) + k)
                   else Z.to_nat k) by reflexivity.
  clearbody n. split; intros Hk.
  - destruct (k <? 0) eqn:E; [apply Z.ltb_lt in E; lia|]. lia.
  - destruct (k <? 0) eqn:E; [|apply Z.ltb_ge in E; lia]. lia.
Qed.

(** X4. With a limit of at most ten words, the keywords pass the sanitizer
    of [search_news] unchanged: the aggregator is asked exactly for the
    keywords derived from the title. *)
Theorem keywords_pass_the_sanitizer :
  forall (title : pystr) (max_words : nat),
    (max_words <= 10)%nat ->
    _sanitize_query (extract_keywords_from_title title max_words)
    = extract_keywords_from_title title max_words.
Proof.
  intros title n Hn.
  destruct (extract_keywords_cases title n) as [[H _]|[Hne H]];
    rewrite H; [vm_compute; reflexivity|].
  pose proof (kept_words_are_words title n) as Hw.
  pose proof (kept_words_long title n) as Hlong.
  assert (Hclean : Forall (fun x => is_removed x = false)
                     (py_join SPACE (kept_words title n)))
    by now apply words_clean.
  destruct (kept_words title n) as [|w ws] eqn:Hk; [congruence|].
  pose proof (py_join_length_head w ws) as Hlen.
  inversion Hlong as [|? ? Hw2 _]; subst.
  assert (Hws : sanitized_words (py_join SPACE (w :: ws)) = w :: ws).
  { unfold sanitized_words. rewrite clean_words_of_join by exact Hw.
    destruct (100 <? _); [|reflexivity].
    apply firstn_all2. rewrite <- Hk. unfold kept_words.
    rewrite length_firstn. lia. }
  rewrite sanitize_query_unfold.
  - rewrite Hws. cbv zeta.
    destruct (py_join SPACE (w :: ws)) as [|x q] eqn:Hq.
    + exfalso. unfold py_len in *. cbn in Hlen. lia.
    + destruct (py_len (x :: q) <? 3) eqn:E; [|reflexivity].
      apply Z.ltb_lt in E. lia.
  - intros Hnil. rewrite Hnil in Hlen. unfold py_len in *. cbn in Hlen. lia.
  - intros Hstar. rewrite Hstar in Hclean.
    inversion Hclean as [|? ? Hc _]. discriminate Hc.
Qed.

Lemma keywords_pass_the_sanitizer_witness :
  (5 <= 10)%nat
  /\ _sanitize_query (extract_keywords_from_title title_example 5)
     = py "Економіка зростає".
Proof.
  assert (H : (5 <= 10)%nat) by lia.
  split; [exact H|].
  rewrite (keywords_pass_the_sanitizer title_example 5 H).
  vm_compute. reflexivity.
Defined.

(** ** Substitution, in general *)

(** Inside a match the scan only counts down. *)
Lemma sub_loop_skip r tmpl : forall (s : pystr) (k : nat),
  (k <= length s)%nat ->
  sub_loop r tmpl s k = sub_loop r tmpl (skipn k s) O.
Proof.
  induction s as [|c s IH]; intros [|k] Hk; try reflexivity.
  - cbn in Hk. lia.
  - cbn [sub_loop skipn]. apply IH. cbn in Hk. lia.
Qed.

(** With an empty replacement nothing is added. *)
Lemma sub_loop_deletes r : forall (s : pystr) (k : nat),
  (length (sub_loop r [] s k) <= length s)%nat
  /\ incl (sub_loop r [] s k) s.
Proof.
  induction s as [|c s IH]; intros k.
  - destruct k; cbn [sub_loop].
    + destruct (re_match r []) as [[? ?]|]; cbn; split; auto using incl_nil_l.
    + split; [cbn; lia|apply incl_nil_l].
  - destruct k as [|k]; cbn [sub_loop].
    + destruct (re_match r (c :: s)) as [[rest g]|].
      * destruct (length (c :: s) - length rest)%nat; cbn [expand flat_map app].
        -- destruct (IH O) as [Hl Hi]. split; [cbn; lia|].
           apply incl_cons; [now left|]. now apply incl_tl.
        -- destruct (IH n) as [Hl Hi]. split; [cbn; lia|now apply incl_tl].
      * destruct (IH O) as [Hl Hi]. split; [cbn; lia|].
        apply incl_cons; [now left|]. now apply incl_tl.
    + destruct (IH k) as [Hl Hi]. split; [cbn; lia|now apply incl_tl].
Qed.

(** Where the pattern matches nowhere, the text stays. *)
Lemma re_sub_match_free r tmpl (s : pystr) :
  match_free r s -> re_sub r tmpl s = s.
Proof.
  unfold re_sub. induction s as [|c s IH]; intros [H0 Hs]; cbn [sub_loop].
  - now rewrite H0.
  - rewrite H0. now rewrite IH.
Qed.

Lemma opens_with_lt_chr r : opens_with_lt (Seq (Chr LT) r).
Proof.
  intros [|c s] g k H; [reflexivity|]. cbn [rmatch].
  now rewrite (proj2 (Z.eqb_neq c LT) H).
Qed.

Lemma opens_with_lt_seq r1 r2 : opens_with_lt r1 -> opens_with_lt (Seq r1 r2).
Proof. intros H s g k Hs. cbn [rmatch]. now apply H. Qed.

Lemma lt_free_match_free r (s : pystr) :
  opens_with_lt r -> Forall (fun c => c <> LT) s -> match_free r s.
Proof.
  intros Hr. induction 1 as [|c s Hc Hs IH]; cbn [match_free].
  - split; [now apply Hr|exact I].
  - split; [now apply Hr|exact IH].
Qed.

Lemma markup_patterns_open_with_lt :
  Forall opens_with_lt
    [re_heading; re_strong; re_em; re_ul; re_ol; re_li; re_p; re_br;
     re_other_tag; re_tag].
Proof.
  repeat constructor;
    first [ apply opens_with_lt_chr
          | apply opens_with_lt_seq, opens_with_lt_chr ].
Qed.

(** ** Blank lines *)

Lemma star_greedy_all (p : Z -> bool) : forall (s : pystr) g,
  star_greedy p s g (fun s1 g1 => Some (s1, g1)) = Some (drop_while p s, g).
Proof.
  induction s as [|c s IH]; intros g; [reflexivity|].
  cbn [star_greedy drop_while]. destruct (p c); [|reflexivity].
  now rewrite IH.
Qed.

Lemma drop_while_newlines (s : pystr) :
  drop_while (cset_mem (CsIn [CChar NL])) s = skipn (leading_newlines s) s.
Proof.
  induction s as [|c s IH]; [reflexivity|].
  cbn [drop_while leading_newlines cset_mem existsb citem_mem].
  rewrite orb_false_r. destruct (c =? NL); [exact IH|reflexivity].
Qed.

(** [\n{3,}] matches at a run of three or more line feeds, all of it. *)
Lemma re_match_blank_lines (s : pystr) :
  re_match re_blank_lines s
  = if (3 <=? leading_newlines s)%nat
    then Some (skipn (leading_newlines s) s, [])
    else None.
Proof.
  unfold re_match, re_blank_lines. cbn [seqs rmatch].
  destruct s as [|a s]; [reflexivity|]. cbn [leading_newlines].
  destruct (a =? NL); [|reflexivity].
  destruct s as [|b s]; [reflexivity|]. cbn [leading_newlines].
  destruct (b =? NL); [|reflexivity].
  destruct s as [|c s]; [reflexivity|]. cbn [leading_newlines].
  destruct (c =? NL); [|reflexivity].
  rewrite star_greedy_all, drop_while_newlines. reflexivity.
Qed.

Lemma starts_with_blank (s : pystr) :
  starts_with [NL; NL; NL] s = (3 <=? leading_newlines s)%nat.
Proof.
  destruct s as [|a [|b [|c s]]]; cbn [starts_with leading_newlines];
    rewrite ?(Z.eqb_sym NL);
    repeat match goal with
           | |- context [?x =? NL] => destruct (x =? NL)
           end; reflexivity.
Qed.

Lemma leading_newlines_skip (s : pystr) :
  leading_newlines (skipn (leading_newlines s) s) = O.
Proof.
  induction s as [|c s IH]; [reflexivity|]. cbn [leading_newlines].
  destruct (c =? NL) eqn:E; [exact IH|]. cbn [skipn leading_newlines].
  now rewrite E.
Qed.

Lemma leading_newlines_le (s : pystr) :
  (leading_newlines s <= length s)%nat.
Proof.
  induction s as [|c s IH]; [reflexivity|]. cbn [leading_newlines length].
  destruct (c =? NL); lia.
Qed.

(** The result of squeezing blank lines starts with as many line feeds as
    the text, two at most, and holds no run of three. *)
Lemma squeeze_blank_lines : forall (n : nat) (s : pystr),
  (length s <= n)%nat ->
  let out := re_sub re_blank_lines [TLit [NL; NL]] s in
  leading_newlines out = Nat.min (leading_newlines s) 2
  /\ py_contains [NL; NL; NL] out = false.
Proof.
  unfold re_sub.
  induction n as [|n IH]; intros s Hn.
  { destruct s; [|cbn in Hn; lia]. split; reflexivity. }
  destruct s as [|c s]; [split; reflexivity|].
  cbn [length] in Hn. cbv zeta. cbn [sub_loop].
  rewrite re_match_blank_lines.
  destruct (3 <=? leading_newlines (c :: s))%nat eqn:E3.
  - apply Nat.leb_le in E3.
    pose proof (leading_newlines_le (c :: s)) as Hle.
    rewrite length_skipn.
    replace (length (c :: s) - (length (c :: s) - leading_newlines (c :: s)))%nat
      with (leading_newlines (c :: s)) by lia.
    destruct (leading_newlines (c :: s)) as [|m] eqn:Hm; [lia|].
    cbn [leading_newlines] in Hm. destruct (c =? NL) eqn:Ec; [|discriminate].
    injection Hm as Hm.
    rewrite sub_loop_skip by (cbn [length] in Hle; lia).
    assert (Hrest : leading_newlines (skipn m s) = O)
      by (rewrite <- Hm; apply leading_newlines_skip).
    destruct (IH (skipn m s)) as [Hlead Hfree].
    { rewrite length_skipn. lia. }
    rewrite Hrest in Hlead. cbn [Nat.min] in Hlead.
    cbn [expand flat_map app]. split.
    + cbn [leading_newlines]. change (NL =? NL) with true. cbv iota.
      rewrite Hlead. lia.
    + cbn [py_contains]. rewrite !starts_with_blank.
      cbn [leading_newlines]. change (NL =? NL) with true. cbv iota.
      rewrite Hlead. cbn. exact Hfree.
  - apply Nat.leb_gt in E3.
    destruct (IH s) as [Hlead Hfree]; [lia|].
    split.
    + cbn [leading_newlines] in *. destruct (c =? NL); [|reflexivity].
      rewrite Hlead. lia.
    + cbn [py_contains]. rewrite starts_with_blank, Hfree, orb_false_r.
      apply Nat.leb_gt. cbn [leading_newlines] in *.
      destruct (c =? NL); [|lia]. rewrite Hlead. lia.
Qed.

(** ** Parts of a text without a run of three line feeds *)

Lemma no_blank_tail (c : Z) (s : pystr) :
  py_contains [NL; NL; NL] (c :: s) = false ->
  py_contains [NL; NL; NL] s = false.
Proof. cbn [py_contains]. intros H. now apply orb_false_iff in H. Qed.

Lemma starts_with_app (p s t : pystr) :
  starts_with p s = true -> starts_with p (s ++ t) = true.
Proof.
  revert s. induction p as [|a p IH]; intros [|b s] H; try reflexivity;
    try discriminate.
  cbn [starts_with app] in *. apply andb_true_iff in H as [H1 H2].
  rewrite H1. now apply IH.
Qed.

Lemma no_blank_prefix (s t : pystr) :
  py_contains [NL; NL; NL] (s ++ t) = false ->
  py_contains [NL; NL; NL] s = false.
Proof.
  induction s as [|c s IH]; intros H; [reflexivity|].
  cbn [app py_contains] in *. apply orb_false_iff in H as [H1 H2].
  rewrite (IH H2), orb_false_r.
  destruct (starts_with [NL; NL; NL] (c :: s)) eqn:E; [|reflexivity].
  apply (starts_with_app _ _ t) in E. cbn [app] in E. congruence.
Qed.

Lemma py_lstrip_suffix (s : pystr) : exists d, s = d ++ py_lstrip s.
Proof.
  induction s as [|c s [d Hd]]; [exists []; reflexivity|].
  cbn [py_lstrip]. destruct (is_space c).
  - exists (c :: d). cbn. now rewrite <- Hd.
  - exists []. reflexivity.
Qed.

Lemma py_rstrip_prefix (s : pystr) : exists d, s = py_rstrip s ++ d.
Proof.
  unfold py_rstrip. destruct (py_lstrip_suffix (rev s)) as [d Hd].
  exists (rev d). rewrite <- rev_app_distr, <- Hd. now rewrite rev_involutive.
Qed.

Lemma no_blank_suffix (d s : pystr) :
  py_contains [NL; NL; NL] (d ++ s) = false ->
  py_contains [NL; NL; NL] s = false.
Proof.
  induction d as [|c d IH]; intros H; [exact H|].
  apply IH. cbn [app] in H. now apply no_blank_tail in H.
Qed.

Lemma no_blank_strip (s : pystr) :
  py_contains [NL; NL; NL] s = false ->
  py_contains [NL; NL; NL] (py_strip s) = false.
Proof.
  intros H. unfold py_strip.
  destruct (py_lstrip_suffix s) as [d Hd].
  destruct (py_rstrip_prefix (py_lstrip s)) as [d' Hd'].
  rewrite Hd in H. apply no_blank_suffix in H.
  rewrite Hd' in H. now apply no_blank_prefix in H.
Qed.

Lemma no_blank_ellipsis (s : pystr) :
  py_contains [NL; NL; NL] s = false ->
  py_contains [NL; NL; NL] (s ++ ELLIPSIS) = false.
Proof.
  induction s as [|c s IH]; intros H; [reflexivity|].
  cbn [app py_contains] in *. apply orb_false_iff in H as [H1 H2].
  rewrite (IH H2), orb_false_r. rewrite starts_with_blank in *.
  apply Nat.leb_gt in H1. apply Nat.leb_gt.
  clear IH H2. revert H1.
  destruct s as [|b [|a s]]; cbn [app ELLIPSIS leading_newlines];
    repeat match goal with
           | |- context [?x =? NL] =>
               first [ progress change (46 =? NL) with false
                     | destruct (x =? NL) ]
           end; cbv iota; lia.
Qed.

(** X5. Whatever the input and the cap, the converter's output holds no run
    of three line feeds: paragraphs are never more than one blank line
    apart. *)
Theorem markup_has_no_blank_run :
  forall (html : pystr) (max_length : Z),
    py_contains [NL; NL; NL] (html_to_telegram html max_length) = false.
Proof.
  intros html max_length.
  assert (Hm : py_contains [NL; NL; NL] (telegram_markup html) = false).
  { unfold telegram_markup. apply no_blank_strip.
    eapply squeeze_blank_lines. reflexivity. }
  unfold html_to_telegram. destruct (max_length <? _); [|exact Hm].
  apply no_blank_ellipsis. unfold py_slice_to.
  destruct (max_length - 3 <? 0);
    eapply no_blank_prefix; rewrite firstn_skipn; exact Hm.
Qed.

Lemma no_blank_match_free (s : pystr) :
  py_contains [NL; NL; NL] s = false -> match_free re_blank_lines s.
Proof.
  induction s as [|c s IH]; intros H; cbn [match_free].
  - split; [reflexivity|exact I].
  - cbn [py_contains] in H. apply orb_false_iff in H as [H1 H2].
    split; [|now apply IH].
    rewrite re_match_blank_lines, <- starts_with_blank, H1. reflexivity.
Qed.

Lemma lt_free_fixed r tmpl (s : pystr) :
  opens_with_lt r -> Forall (fun c => c <> LT) s -> re_sub r tmpl s = s.
Proof. intros Hr Hs. now apply re_sub_match_free, lt_free_match_free. Qed.

(** X6. Plain text passes the converter untouched but for the trimming: for
    every input without [<] and without a run of three line feeds the
    converted text is the input stripped of surrounding white space, and
    that is the output whenever it fits the cap. *)
Theorem plain_text_is_only_trimmed :
  forall (html : pystr) (max_length : Z),
    Forall (fun c => c <> LT) html ->
    py_contains [NL; NL; NL] html = false ->
    telegram_markup html = py_strip html
    /\ (py_len (py_strip html) <= max_length ->
        html_to_telegram html max_length = py_strip html).
Proof.
  intros html max_length Hlt Hblank.
  assert (Hm : telegram_markup html = py_strip html).
  { unfold telegram_markup.
    rewrite !(fun r t H => lt_free_fixed r t html H Hlt)
      by first [ apply opens_with_lt_chr
               | apply opens_with_lt_seq, opens_with_lt_chr ].
    rewrite re_sub_match_free by now apply no_blank_match_free.
    reflexivity. }
  split; [exact Hm|]. intros Hfit. unfold html_to_telegram. rewrite Hm.
  destruct (max_length <? py_len (py_strip html)) eqn:E; [|reflexivity].
  apply Z.ltb_lt in E. lia.
Qed.

Lemma plain_text_is_only_trimmed_witness :
  Forall (fun c => c <> LT) (py "  Kyiv, 5 > 3  ")
  /\ html_to_telegram (py "  Kyiv, 5 > 3  ") 3800 = py "Kyiv, 5 > 3".
Proof.
  assert (Hlt : Forall (fun c => c <> LT) (py "  Kyiv, 5 > 3  "))
    by (vm_compute; repeat constructor; discriminate).
  split; [exact Hlt|].
  destruct (plain_text_is_only_trimmed (py "  Kyiv, 5 > 3  ") 3800 Hlt
              eq_refl) as [_ H].
  rewrite H; [vm_compute; reflexivity|vm_compute; discriminate].
Defined.

(** ** Tags *)

Lemma star_then_gt : forall (s : pystr) g k,
  star_greedy (cset_mem not_gt) s g (fun s1 g1 => rmatch (Chr GT) s1 g1 k)
  = match drop_while (cset_mem not_gt) s with
    | x :: rest => if x =? GT then k rest g else None
    | [] => None
    end.
Proof.
  induction s as [|c s IH]; intros g k; [reflexivity|].
  cbn [star_greedy drop_while].
  destruct (cset_mem not_gt c) eqn:Hc.
  - rewrite IH. cbn [rmatch].
    cbn in Hc. rewrite orb_false_r in Hc. apply negb_true_iff in Hc.
    rewrite Hc.
    destruct (drop_while (cset_mem not_gt) s) as [|x rest]; [reflexivity|].
    destruct (x =? GT); [destruct (k rest g); reflexivity|reflexivity].
  - reflexivity.
Qed.

(** [<[^>]+>] matches at [<], one character other than [>], and on to the
    next [>]. *)
Lemma re_match_tag (s : pystr) :
  re_match re_tag s
  = match s with
    | a :: c :: s' =>
        if (a =? LT) && negb (c =? GT) then
          match drop_while (cset_mem not_gt) s' with
          | x :: rest => if x =? GT then Some (rest, []) else None
          | [] => None
          end
        else None
    | _ => None
    end.
Proof.
  unfold re_match, re_tag. cbn [seqs Plus rmatch].
  destruct s as [|a s]; [reflexivity|].
  destruct (a =? LT); [|destruct s; reflexivity].
  destruct s as [|c s]; [reflexivity|]. cbn [andb].
  cbn [cset_mem not_gt existsb citem_mem]. rewrite orb_false_r.
  destruct (c =? GT); [reflexivity|]. cbn [negb].
  apply star_then_gt.
Qed.

Lemma drop_while_suffix (p : Z -> bool) (s : pystr) :
  exists d, s = d ++ drop_while p s /\ Forall (fun c => p c = true) d.
Proof.
  induction s as [|c s (d & Hd & Hp)]; [exists []; split; [reflexivity|constructor]|].
  cbn [drop_while]. destruct (p c) eqn:E.
  - exists (c :: d). split; [cbn; now rewrite <- Hd|now constructor].
  - exists []. split; [reflexivity|constructor].
Qed.

Lemma drop_while_all (p : Z -> bool) (s : pystr) :
  Forall (fun c => p c = true) s -> drop_while p s = [].
Proof.
  induction 1 as [|c s Hc Hs IH]; [reflexivity|].
  cbn [drop_while]. now rewrite Hc.
Qed.

Lemma drop_while_head (p : Z -> bool) (s : pystr) x rest :
  drop_while p s = x :: rest -> p x = false.
Proof.
  induction s as [|c s IH]; [discriminate|]. cbn [drop_while].
  destruct (p c) eqn:E; [exact IH|]. now intros [= <- _].
Qed.

Lemma not_gt_mem (c : Z) : cset_mem not_gt c = negb (c =? GT).
Proof. cbn. now rewrite orb_false_r. Qed.

(** No tag opens where no [>] follows. *)
Lemma no_tag_without_gt (s : pystr) :
  Forall (fun c => c <> GT) s -> forall a, re_match re_tag (a :: s) = None.
Proof.
  intros Hs a. rewrite re_match_tag. destruct s as [|c s]; [reflexivity|].
  destruct ((a =? LT) && negb (c =? GT)); [|reflexivity].
  inversion Hs as [|? ? _ Hs']; subst.
  rewrite drop_while_all; [reflexivity|].
  eapply Forall_impl; [exact Hs'|]. cbn beta. intros x Hx.
  rewrite not_gt_mem. now apply negb_true_iff, Z.eqb_neq.
Qed.

(** A match ends strictly inside the text: the rest is a proper suffix. *)
Lemma re_match_tag_rest (s rest : pystr) g :
  re_match re_tag s = Some (rest, g) ->
  exists n, (length s - length rest = S n)%nat
            /\ (n < length s)%nat
            /\ rest = skipn (S n) s.
Proof.
  rewrite re_match_tag. destruct s as [|a [|c s]]; try discriminate.
  destruct ((a =? LT) && negb (c =? GT)); [|discriminate].
  destruct (drop_while_suffix (cset_mem not_gt) s) as (d & Hd & _).
  destruct (drop_while (cset_mem not_gt) s) as [|x tl]; [discriminate|].
  destruct (x =? GT); [|discriminate]. intros [= <- <-].
  exists (S (S (length d))). rewrite Hd.
  cbn [length]. rewrite !length_app. cbn [length].
  split; [lia|]. split; [lia|].
  cbn [skipn]. rewrite skipn_app, skipn_all2 by lia.
  replace (S (length d) - length d)%nat with 1%nat by lia. reflexivity.
Qed.

Lemma incl_no_gt (s t : pystr) :
  incl s t -> Forall (fun c => c <> GT) t -> Forall (fun c => c <> GT) s.
Proof.
  intros Hi Ht. apply List.Forall_forall. intros c Hc.
  rewrite List.Forall_forall in Ht. apply Ht, Hi, Hc.
Qed.

Lemma strip_html_tags_free : forall (n : nat) (s : pystr),
  (length s <= n)%nat -> match_free re_tag (strip_html_tags s).
Proof.
  unfold strip_html_tags, re_sub.
  induction n as [|n IH]; intros s Hn.
  { destruct s; [|cbn in Hn; lia]. cbn. auto. }
  destruct s as [|a s]; [cbn; auto|]. cbn [length] in Hn.
  cbn [sub_loop]. destruct (re_match re_tag (a :: s)) as [[rest g]|] eqn:Hm.
  - destruct (re_match_tag_rest _ _ _ Hm) as (k & -> & Hk & Hrest).
    cbn [expand flat_map app]. cbn [length] in Hk.
    rewrite sub_loop_skip by lia. apply IH. rewrite length_skipn. lia.
  - assert (Hs : match_free re_tag (sub_loop re_tag [] s 0)) by (apply IH; lia).
    cbn [match_free]. split; [|exact Hs].
    rewrite re_match_tag in Hm. rewrite re_match_tag.
    destruct s as [|c s]; [reflexivity|].
    destruct (a =? LT) eqn:Ea; [|destruct (sub_loop _ _ _ _); reflexivity].
    cbn [andb] in Hm.
    destruct (c =? GT) eqn:Ec.
    + (* the next character closes at once *)
      cbn [sub_loop]. rewrite re_match_tag.
      apply Z.eqb_eq in Ec. subst c.
      destruct s as [|c' s]; cbn [andb]; [reflexivity|].
      change (GT =? LT) with false. cbn [andb].
      change (GT =? GT) with true. reflexivity.
    + (* no [>] follows at all *)
      cbn [negb] in Hm.
      assert (Hfree : Forall (fun x => x <> GT) (c :: s)).
      { constructor; [now apply Z.eqb_neq|].
        destruct (drop_while_suffix (cset_mem not_gt) s) as (d & Hd & Hp).
        destruct (drop_while (cset_mem not_gt) s) as [|x tl] eqn:Hdw.
        - rewrite Hd, app_nil_r. eapply Forall_impl; [exact Hp|].
          cbn beta. intros y Hy. rewrite not_gt_mem in Hy.
          now apply Z.eqb_neq, negb_true_iff.
        - exfalso. apply drop_while_head in Hdw. rewrite not_gt_mem in Hdw.
          apply negb_false_iff in Hdw. rewrite Hdw in Hm. discriminate. }
      pose proof (proj2 (sub_loop_deletes re_tag (c :: s) 0)) as Hincl.
      pose proof (incl_no_gt _ _ Hincl Hfree) as Hout.
      pose proof (no_tag_without_gt _ Hout LT) as Hnone.
      rewrite re_match_tag in Hnone. exact Hnone.
Qed.

(** X7. The preview helper [strip_html_tags] only deletes: its output is
    never longer than the input and holds only characters of the input; a
    text without [<] comes back unchanged; no tag is left in the output, so
    stripping twice is stripping once. *)
Theorem strip_html_tags_leaves_no_tag :
  forall text : pystr,
    py_len (strip_html_tags text) <= py_len text
    /\ incl (strip_html_tags text) text
    /\ (Forall (fun c => c <> LT) text -> strip_html_tags text = text)
    /\ match_free re_tag (strip_html_tags text)
    /\ strip_html_tags (strip_html_tags text) = strip_html_tags text.
Proof.
  intros text.
  pose proof (sub_loop_deletes re_tag text 0) as [Hlen Hincl].
  pose proof (strip_html_tags_free (length text) text (Nat.le_refl _)) as Hfree.
  split; [unfold py_len, strip_html_tags, re_sub; lia|].
  split; [exact Hincl|]. split.
  - intros Hlt. apply lt_free_fixed; [|exact Hlt].
    apply opens_with_lt_chr.
  - split; [exact Hfree|]. now apply re_sub_match_free.
Qed.

(** ** The channel post *)

(** X8. The channel post is the converted content and a bounded
    decoration: its length is at most 3868 characters plus the lengths of
    the post's link and of the site address. *)
Theorem channel_text_is_bounded :
  forall (site content : pystr) (wp_url : option pystr),
    py_len (channel_text site content wp_url)
    <= 3868 + py_len (default [] wp_url) + py_len site.
Proof.
  intros site content wp_url.
  pose proof (html_to_telegram_length content 3800 ltac:(lia)) as Hc.
  unfold channel_text, py_len in *.
  destruct (truthy_str wp_url); rewrite !length_app;
    repeat match goal with
           | |- context [length (py ?s)] =>
               let n := eval vm_compute in (length (py s)) in
               change (length (py s)) with n
           end; cbn [length]; lia.
Qed.

(* ===================================================================== *)
(** * The scheduled run, past its checks *)
(* ===================================================================== *)

Lemma record_phase_run user_id s sources title cat wp tg E w :
  record_phase user_id s sources title cat (fst wp) (snd wp) tg E w
  = let d1 := db_recorded E (trace w) user_id
                (record_of user_id s title cat wp tg) (db w) in
    let w1 := called (CallSendMessage (ChatInt user_id)
                        (auto_result_text title (snd wp) tg) Markdown)
                (set_db d1 w) in
    match tg_send E (trace w) (ChatInt user_id)
            (auto_result_text title (snd wp) tg) Markdown with
    | inl e => (Raised e, w1)
    | inr _ =>
        (Ok tt,
         set_db (set_logs (logs d1 ++ [success_row user_id title wp]) d1) w1)
    end.
Proof.
  unfold record_phase, save_published_article, add_article_fingerprint,
    update_last_publish_time, log_action, send_message, call, write_db, ask,
    bind. cbn.
  destruct (tg_send E (trace w) (ChatInt user_id)
              (auto_result_text title (snd wp) tg) Markdown); reflexivity.
Qed.

Lemma upload_cover_run main_news E w :
  upload_cover main_news E w
  = if truthy_str (n_image main_news) then
      match wp_upload E (trace w) (mkImage false None (n_image main_news))
      with
      | inr m => (Ok (Some m), called (cover_call main_news) w)
      | inl e => (Ok None, logged (LogImageUploadFailed e)
                             (called (cover_call main_news) w))
      end
    else (Ok None, w).
Proof.
  unfold upload_cover. destruct (truthy_str (n_image main_news));
    [|reflexivity].
  unfold try_except, bind, upload_image, call, log_line, ret, cover_call.
  destruct (wp_upload E (trace w) (mkImage false None (n_image main_news)));
    reflexivity.
Qed.

Lemma cleared_steps user_id E w s main_news sources article w3 cat title :
  cleared user_id E w s main_news sources article w3 cat title ->
  auto_publish_body user_id E w
  = auto_publish_steps user_id s main_news sources article cat E w3
  /\ db w3 = db w
  /\ trace w3
     = trace w ++ [seed_call; sources_call main_news; CallGptChat sources].
Proof.
  intros (Hr & (category & Hc & ->) & Hpass & Ht & Hfresh).
  pose proof (rewritten_frame _ _ _ _ _ _ _ _ Hr) as (Hd & Htr & _).
  pose proof (rewritten_body _ _ _ _ _ _ _ _ Hr) as Hb.
  rewrite <- Hd in Hpass, Hfresh.
  rewrite (publish_rewritten_checked _ _ _ _ _ _ _ _ _ Hc Hpass Ht) in Hb.
  rewrite bool_decide_eq_false_2 in Hb
    by (rewrite Hfresh; apply is_Some_None).
  rewrite <- Hd. auto.
Qed.

(** The steps after the checks either raise before anything is written or
    reach the record phase with the database as it was. *)
Lemma steps_outcome user_id s main_news sources
    (article : gmap string pystr) cat title E w3 :
  article !! "title"%string = Some title ->
  let run := auto_publish_steps user_id s main_news sources article cat E w3 in
  (exists e w', run = (Raised e, w') /\ db w' = db w3)
  \/ (exists wp tg w6,
        db w6 = db w3
        /\ run = record_phase user_id s sources title cat (fst wp) (snd wp)
                   tg E w6).
Proof.
  intros Ht run. subst run. unfold auto_publish_steps.
  rewrite (bind_run _ _ _ _ _ _ (dict_get_run _ _ _ E w3 Ht)).
  destruct (upload_cover main_news E w3) as [[media|e] w4] eqn:Hup;
    pose proof (keeps_db_at _ _ _ _ _ (keeps_db_upload_cover _) Hup) as Hd4;
    rewrite (bind_run _ _ _ _ _ _ Hup); [|left; eauto].
  destruct (site_phase s (mkArticle article cat) media E w4)
    as [[wp|e] w5] eqn:Hsite;
    pose proof (keeps_db_at _ _ _ _ _ (keeps_db_site _ _ _) Hsite) as Hd5;
    rewrite (bind_run _ _ _ _ _ _ Hsite);
    [|left; exists e, w5; split; [reflexivity|congruence]].
  destruct (channel_phase s article (snd wp) E w5) as [[tg|e] w6] eqn:Hchan;
    pose proof (keeps_db_at _ _ _ _ _ (keeps_db_channel _ _ _) Hchan) as Hd6;
    rewrite (bind_run _ _ _ _ _ _ Hchan);
    [|left; exists e, w6; split; [reflexivity|congruence]].
  right. exists wp, tg, w6. split; [congruence|reflexivity].
Qed.

(** Every scheduled run ends in one of three ways: nothing written, the
    default settings row created for a new operator, or the record phase
    reached past both checks. *)
Lemma body_outcome E w user_id :
  let run := auto_publish_body user_id E w in
  db (snd run) = db w
  \/ (user_settings (db w) !! user_id = None
      /\ run = (Ok tt,
                set_db (set_settings (<[user_id := default_settings]>
                                        (user_settings (db w))) (db w)) w))
  \/ (exists s main_news sources article w3 cat title wp tg w6,
        cleared user_id E w s main_news sources article w3 cat title
        /\ db w6 = db w
        /\ run = record_phase user_id s sources title cat (fst wp) (snd wp)
                   tg E w6).
Proof.
  intros run.
  assert (Hrun : run = auto_publish_body user_id E w) by reflexivity.
  clearbody run.
  destruct (user_settings (db w) !! user_id) as [s|] eqn:Hs.
  2:{ right. left. split; [reflexivity|]. rewrite Hrun.
      unfold auto_publish_body, get_user_settings, bind, read_db, write_db.
      rewrite Hs. reflexivity. }
  unfold auto_publish_body in Hrun.
  rewrite (bind_run _ _ _ _ _ _ (get_user_settings_stored _ _ E _ Hs))
    in Hrun.
  destruct (auto_publish_enabled s) eqn:Hon; cbn [negb] in Hrun;
    [|left; now rewrite Hrun].
  destruct (search_news_total DEFAULT_TOPIC (py "uk") (py "ua") 10 E w)
    as (items & line & H1).
  fold search_seed in H1. fold seed_call in H1.
  rewrite (bind_run _ _ _ _ _ _ H1) in Hrun.
  destruct items as [|main_news rest].
  { left. rewrite Hrun, tell_run. reflexivity. }
  destruct (search_news_total
              (extract_keywords_from_title (default [] (n_title main_news)) 5)
              (py "uk") (py "ua") 10 E
              (logged line (called seed_call w)))
    as (sources & line2 & H2).
  fold (search_sources main_news) in H2. fold (sources_call main_news) in H2.
  set (w2 := logged line2 (called (sources_call main_news)
                             (logged line (called seed_call w)))) in *.
  assert (Hsrc : sourced user_id E w s main_news sources w2).
  { split; [exact Hs|]. split; [exact Hon|]. eauto. }
  rewrite (bind_run _ _ _ _ _ _ H2) in Hrun.
  destruct (generate_article sources E w2) as [[article|e] w3] eqn:Hg;
    pose proof (keeps_db_at _ _ _ _ _ (keeps_db_generate _) Hg) as Hd3;
    rewrite (bind_run _ _ _ _ _ _ Hg) in Hrun;
    [|left; rewrite Hrun; exact Hd3].
  assert (Hr : rewritten user_id E w s main_news sources article w3)
    by (exists w2; auto).
  pose proof (rewritten_frame _ _ _ _ _ _ _ _ Hr) as (Hd & Htr & Hreq).
  destruct (has_required_lookup article "category" Hreq) as [category Hc];
    [cbn; tauto|].
  destruct (has_required_lookup article "title" Hreq) as [title Ht];
    [cbn; tauto|].
  destruct (passes_filter s (find_category category (wp_categories (db w3))))
    eqn:Hpass.
  2:{ left. rewrite Hrun.
      rewrite (publish_rewritten_skip _ _ _ _ _ _ _ _ Hc Hpass).
      rewrite tell_run. exact Hd. }
  rewrite (publish_rewritten_checked _ _ _ _ _ _ _ _ _ Hc Hpass Ht) in Hrun.
  destruct (article_fingerprints (db w3) !! title_hash (str_lower E) title)
    as [seen|] eqn:Hseen.
  { left. rewrite bool_decide_eq_true_2 in Hrun by eauto.
    rewrite Hrun, tell_run. exact Hd. }
  rewrite bool_decide_eq_false_2 in Hrun by apply is_Some_None.
  destruct (steps_outcome user_id s main_news sources article
              (find_category category (wp_categories (db w3))) title E w3 Ht)
    as [(e & w' & Hst & Hd')|(wp & tg & w6 & Hd6 & Hst)];
    rewrite Hst in Hrun.
  - left. rewrite Hrun. cbn [snd]. congruence.
  - right. right.
    exists s, main_news, sources, article, w3,
      (find_category category (wp_categories (db w3))), title, wp, tg, w6.
    split; [|split; [congruence|exact Hrun]].
    split; [exact Hr|]. rewrite Hd in *.
    split; [exists category; auto|]. auto.
Qed.

(** The database after the task, from the outcome of its body. *)
Lemma task_db user_id E w r w' :
  auto_publish_body user_id E w = (r, w') ->
  db (snd (auto_publish_task user_id E w))
  = match r with
    | Ok _ => db w'
    | Raised e => set_logs (logs (db w') ++ [error_row user_id e]) (db w')
    end.
Proof.
  intros H. rewrite (task_run _ _ _ _ _ H). destruct r as [[]|e];
    [reflexivity|]. rewrite failure_report_run. reflexivity.
Qed.

Lemma db_recorded_logs E t user_id rec d :
  logs (db_recorded E t user_id rec d) = logs d.
Proof. reflexivity. Qed.

(** The database after a run that reached the record phase. *)
Lemma recorded_db user_id s sources title cat wp tg E w w6 :
  auto_publish_body user_id E w
  = record_phase user_id s sources title cat (fst wp) (snd wp) tg E w6 ->
  db w6 = db w ->
  db (snd (auto_publish_task user_id E w))
  = set_logs (logs (db w) ++ [report_row E (trace w6) user_id title wp tg])
      (db_recorded E (trace w6) user_id (record_of user_id s title cat wp tg)
         (db w)).
Proof.
  intros Hb Hd. rewrite record_phase_run in Hb. cbv zeta in Hb.
  unfold report_row.
  destruct (tg_send E (trace w6) (ChatInt user_id)
              (auto_result_text title (snd wp) tg) Markdown) as [e|m];
    rewrite (task_db _ _ _ _ _ Hb); cbn [db set_db called];
    rewrite ?db_recorded_logs, Hd; reflexivity.
Qed.

Lemma cleared_row user_id E w s main_news sources article w3 cat title :
  cleared user_id E w s main_news sources article w3 cat title ->
  user_settings (db w) !! user_id = Some s /\ auto_publish_enabled s = true.
Proof. intros ((w2 & (Hs & Hon & _) & _) & _). auto. Qed.

(** Every scheduled run, whatever the services answer: either it writes
    no record and no fingerprint, and at most one audit row, an error row;
    or it passed both checks and wrote the record, the fingerprint, the
    time and one audit row. *)
Lemma task_outcome E w user_id :
  let wf := snd (auto_publish_task user_id E w) in
  (published_articles (db wf) = published_articles (db w)
   /\ article_fingerprints (db wf) = article_fingerprints (db w)
   /\ wp_categories (db wf) = wp_categories (db w)
   /\ (user_settings (db wf) = user_settings (db w)
       \/ (user_settings (db w) !! user_id = None
           /\ user_settings (db wf)
              = <[user_id := default_settings]> (user_settings (db w))))
   /\ (logs (db wf) = logs (db w)
       \/ exists e, logs (db wf) = logs (db w) ++ [error_row user_id e]))
  \/ (exists s main_news sources article w3 cat title wp tg w6,
        cleared user_id E w s main_news sources article w3 cat title
        /\ db w6 = db w
        /\ db wf
           = set_logs
               (logs (db w) ++ [report_row E (trace w6) user_id title wp tg])
               (db_recorded E (trace w6) user_id
                  (record_of user_id s title cat wp tg) (db w))).
Proof.
  intros wf. subst wf.
  destruct (body_outcome E w user_id)
    as [Hq|[(Hn & Hrun)|(s & mn & src & art & w3 & cat & title & wp & tg & w6
                          & Hcl & Hd6 & Hrun)]].
  - left. destruct (auto_publish_body user_id E w) as [r w'] eqn:Hb.
    cbn [snd] in Hq. rewrite (task_db _ _ _ _ _ Hb).
    destruct r as [[]|e]; rewrite ?Hq; cbn; eauto 10.
  - left. rewrite (task_db _ _ _ _ _ Hrun). cbn. eauto 10.
  - right. exists s, mn, src, art, w3, cat, title, wp, tg, w6.
    split; [exact Hcl|]. split; [exact Hd6|].
    exact (recorded_db _ _ _ _ _ _ _ _ _ _ Hrun Hd6).
Qed.

(** X9. The cover upload never stops a run: [upload_cover] always returns,
    with the database as it was; it calls the site exactly when the seed
    article names an image, and a failed upload only means no cover. *)
Theorem cover_upload_never_stops_the_run :
  forall (main_news : NewsItem) (E : Env) (w : World),
    exists media w',
      upload_cover main_news E w = (Ok media, w')
      /\ db w' = db w
      /\ new_calls w w'
         = (if truthy_str (n_image main_news) then [cover_call main_news]
            else [])
      /\ (forall e,
            wp_upload E (trace w) (mkImage false None (n_image main_news))
            = inl e -> media = None).
Proof.
  intros main_news E w. rewrite upload_cover_run.
  destruct (truthy_str (n_image main_news)).
  - destruct (wp_upload E (trace w) (mkImage false None (n_image main_news)))
      as [e|m]; eexists _, _; (split; [reflexivity|]);
      (split; [reflexivity|]); (split; [now apply new_calls_app|]);
      [reflexivity|discriminate].
  - exists None, w. split; [reflexivity|]. split; [reflexivity|].
    split; [|reflexivity]. unfold new_calls. apply drop_all.
Qed.

(** A scheduled run adds no record and no fingerprint, or one record
    under a title that had no fingerprint, with its fingerprint. *)
Lemma record_or_nothing E w user_id :
  let wf := snd (auto_publish_task user_id E w) in
  (published_articles (db wf) = published_articles (db w)
   /\ article_fingerprints (db wf) = article_fingerprints (db w))
  \/ exists rec,
       published_articles (db wf) = published_articles (db w) ++ [rec]
       /\ pa_user_id rec = user_id
       /\ article_fingerprints (db w)
            !! title_hash (str_lower E) (pa_title rec) = None
       /\ article_fingerprints (db wf)
          = <[title_hash (str_lower E) (pa_title rec) := pa_title rec]>
              (article_fingerprints (db w))
       /\ exists t,
            last_publish_time <$> user_settings (db wf) !! user_id
            = Some (Some t).
Proof.
  intros wf.
  pose proof (task_outcome E w user_id) as H. cbv zeta in H. fold wf in H.
  destruct H
    as [(Hp & Hf & _)
       |(s & mn & src & art & w3 & cat & title & wp & tg & w6
           & Hcl & Hd6 & Hdb)]; [left; auto|].
  destruct (cleared_row _ _ _ _ _ _ _ _ _ _ Hcl) as [Hs _].
  destruct Hcl as (_ & _ & _ & _ & Hfresh).
  right. exists (record_of user_id s title cat wp tg). rewrite Hdb. cbn.
  split; [reflexivity|]. split; [reflexivity|]. split; [exact Hfresh|].
  split.
  - unfold insert_fingerprint. now rewrite Hfresh.
  - exists (db_now E (trace w6)). rewrite lookup_alter_eq, Hs. reflexivity.
Qed.

(** X10. In every scheduled run, whatever the services answer, the
    category table and the other operators' settings stay as they were
    and at most one audit row is added.  Either no record and no
    fingerprint is written; or exactly one record is added, for this
    operator, under a title that had no fingerprint, and then the
    fingerprint of that title is registered and the operator's last
    publish time is set. *)
Theorem scheduled_run_outcomes :
  forall (E : Env) (w : World) (user_id : Z),
    let wf := snd (auto_publish_task user_id E w) in
    wp_categories (db wf) = wp_categories (db w)
    /\ (forall v, v <> user_id ->
          user_settings (db wf) !! v = user_settings (db w) !! v)
    /\ (exists rows,
          logs (db wf) = logs (db w) ++ rows /\ (length rows <= 1)%nat)
    /\ ((published_articles (db wf) = published_articles (db w)
         /\ article_fingerprints (db wf) = article_fingerprints (db w))
        \/ exists rec,
             published_articles (db wf) = published_articles (db w) ++ [rec]
             /\ pa_user_id rec = user_id
             /\ article_fingerprints (db w)
                  !! title_hash (str_lower E) (pa_title rec) = None
             /\ article_fingerprints (db wf)
                = <[title_hash (str_lower E) (pa_title rec) := pa_title rec]>
                    (article_fingerprints (db w))
             /\ exists t,
                  last_publish_time <$> user_settings (db wf) !! user_id
                  = Some (Some t)).
Proof.
  intros E w user_id wf.
  pose proof (record_or_nothing E w user_id) as Hrec.
  pose proof (task_outcome E w user_id) as H. cbv zeta in H. fold wf in H.
  destruct H
    as [(Hp & Hf & Hc & Hu & Hl)
       |(s & mn & src & art & w3 & cat & title & wp & tg & w6
           & Hcl & Hd6 & Hdb)].
  - split; [exact Hc|]. split; [|split; [|exact Hrec]].
    + intros v Hv. destruct Hu as [->|[_ ->]]; [reflexivity|].
      now rewrite lookup_insert_ne.
    + destruct Hl as [Hl|[e Hl]];
        [exists []; rewrite app_nil_r|exists [error_row user_id e]];
        split; auto.
  - split; [now rewrite Hdb|]. split; [|split; [|exact Hrec]].
    + intros v Hv. rewrite Hdb. cbn. now rewrite lookup_alter_ne.
    + eexists. rewrite Hdb. cbn. split; [reflexivity|]. cbn. lia.
Qed.

Lemma create_post_run a media E w :
  create_post a media E w
  = (match wp_post E (trace w) a media with
     | inl e => Raised e
     | inr resp =>
         if negb ((status resp =? 200) || (status resp =? 201))
         then Raised (post_refused resp)
         else match json resp with
              | inl e => Raised e
              | inr j => Ok j
              end
     end, called (CallWpCreatePost a media) w).
Proof.
  unfold create_post, bind, call, resp_json, raise, ret, post_refused.
  destruct (wp_post E (trace w) a media) as [e|resp]; [reflexivity|].
  destruct (negb ((status resp =? 200) || (status resp =? 201)));
    [reflexivity|]. destruct (json resp); reflexivity.
Qed.

Lemma site_phase_failed s a media E w e :
  auto_publish_to_wp s = true ->
  post_failure (wp_post E (trace w) a media) = Some e ->
  site_phase s a media E w = (Raised e, called (CallWpCreatePost a media) w).
Proof.
  intros Hon Hf. unfold site_phase. rewrite Hon.
  unfold bind at 1. rewrite create_post_run. unfold post_failure in Hf.
  destruct (wp_post E (trace w) a media) as [e'|resp];
    [now injection Hf as ->|].
  destruct (negb ((status resp =? 200) || (status resp =? 201)));
    [now injection Hf as ->|].
  destruct (json resp); [now injection Hf as ->|discriminate].
Qed.

Lemma upload_cover_trace main_news E w media w4 :
  upload_cover main_news E w = (Ok media, w4) ->
  db w4 = db w
  /\ trace w4
     = trace w ++ (if truthy_str (n_image main_news)
                   then [cover_call main_news] else []).
Proof.
  rewrite upload_cover_run. destruct (truthy_str (n_image main_news)).
  - destruct (wp_upload E (trace w) (mkImage false None (n_image main_news)));
      intros [= _ <-]; auto.
  - intros [= _ <-]. now rewrite app_nil_r.
Qed.

Lemma grows_trace_site s a media : grows_trace (site_phase s a media).
Proof. unfold site_phase, create_post, resp_json. frame. Qed.

(** X11. A failing post stops the scheduled run before the channel.  When
    the run has passed its checks and the site is a target, a post that
    fails (connection error, status other than 200 and 201, body that is
    not JSON) leaves the record, fingerprint and settings tables as they
    were, writes one error row with the exception's text and tells the
    operator; the channel is not called.  The cover, if any, has been
    uploaded before. *)
Theorem site_failure_stops_the_run :
  forall (E : Env) (w : World) (user_id : Z) (s : UserSettings)
         (main_news : NewsItem) (sources : list NewsItem)
         (article : gmap string pystr) (w3 : World) (cat : option Z)
         (title : pystr) (media : option Z) (w4 : World) (e : exn),
    cleared user_id E w s main_news sources article w3 cat title ->
    auto_publish_to_wp s = true ->
    upload_cover main_news E w3 = (Ok media, w4) ->
    post_failure (wp_post E (trace w4) (mkArticle article cat) media)
    = Some e ->
    let wf := snd (auto_publish_task user_id E w) in
    new_logs w wf = [error_row user_id e]
    /\ published_articles (db wf) = published_articles (db w)
    /\ article_fingerprints (db wf) = article_fingerprints (db w)
    /\ user_settings (db wf) = user_settings (db w)
    /\ new_calls w wf
       = [seed_call; sources_call main_news; CallGptChat sources]
           ++ (if truthy_str (n_image main_news)
               then [cover_call main_news] else [])
           ++ [CallWpCreatePost (mkArticle article cat) media;
               told user_id (msg_failed e)]
    /\ Forall (fun c => is_channel_post c = false) (new_calls w wf).
Proof.
  intros E w user_id s main_news sources article w3 cat title media w4 e
         Hcl Hon Hup Hfail wf.
  destruct (cleared_steps _ _ _ _ _ _ _ _ _ _ Hcl) as (Hb & Hd & Htr).
  destruct Hcl as (_ & _ & _ & Ht & _).
  destruct (upload_cover_trace _ _ _ _ _ Hup) as [Hd4 Ht4].
  assert (Hbody : auto_publish_body user_id E w
                  = (Raised e,
                     called (CallWpCreatePost (mkArticle article cat) media)
                            w4)).
  { rewrite Hb. unfold auto_publish_steps.
    rewrite (bind_run _ _ _ _ _ _ (dict_get_run _ _ _ E w3 Ht)).
    rewrite (bind_run _ _ _ _ _ _ Hup). cbv beta iota.
    now rewrite (bind_run _ _ _ _ _ _
                   (site_phase_failed _ _ _ _ _ _ Hon Hfail)). }
  pose proof (task_wraps _ _ _ _ _ Hbody) as (Hp & Hf & Hu & Hl & Hcalls).
  fold wf in Hp, Hf, Hu, Hl, Hcalls. cbn [db called] in Hp, Hf, Hu, Hl.
  rewrite Hd4, Hd in Hp, Hf, Hu, Hl.
  assert (Hnew : new_calls w wf
            = [seed_call; sources_call main_news; CallGptChat sources]
                ++ (if truthy_str (n_image main_news)
                    then [cover_call main_news] else [])
                ++ [CallWpCreatePost (mkArticle article cat) media;
                    told user_id (msg_failed e)]).
  { apply new_calls_app. rewrite Hcalls. cbn [trace called].
    rewrite Ht4, Htr, <- !app_assoc. reflexivity. }
  split; [now apply new_logs_app|]. split; [exact Hp|].
  split; [exact Hf|]. split; [exact Hu|]. split; [exact Hnew|].
  rewrite Hnew. unfold cover_call.
  destruct (truthy_str (n_image main_news)); repeat constructor.
Qed.

(** The scenario run stands cleared whenever the searches and the
    rewriter answer as in [env_ok]. *)
Ltac scenario_cleared :=
  split;
  [ eexists; split;
    [ split; [vm_compute; reflexivity|]; split; [reflexivity|];
      eexists _, _; split; vm_compute; reflexivity
    | vm_compute; reflexivity ]
  | split; [exists (py "Вдома"); split; vm_compute; reflexivity|];
    split; [reflexivity|]; split; vm_compute; reflexivity ].

Lemma site_failure_stops_the_run_witness :
  auto_publish_to_wp settings_on = true
  /\ post_failure (wp_post env_site_refuses (trace (world_cleared
                                                     env_site_refuses))
                     article_example None)
     = Some (PyExc "Exception"
               (py "Post creation failed: 500 - Internal Server Error"))
  /\ new_logs (world_example settings_on ∅) end_site_refuses
     = [error_row operator
          (PyExc "Exception"
             (py "Post creation failed: 500 - Internal Server Error"))].
Proof.
  split; [reflexivity|]. split; [vm_compute; reflexivity|].
  refine (proj1 (site_failure_stops_the_run env_site_refuses
            (world_example settings_on ∅) operator settings_on news_example
            [news_example] reply_full (world_cleared env_site_refuses)
            (Some 2) article_title None (world_cleared env_site_refuses)
            _ _ eq_refl _ _)).
  - scenario_cleared.
  - vm_compute. reflexivity.
  - vm_compute. reflexivity.
Defined.

Lemma grows_trace_record user_id s sources title cat pid url tg :
  grows_trace (record_phase user_id s sources title cat pid url tg).
Proof.
  intros E w. rewrite (record_phase_run user_id s sources title cat (pid, url)).
  cbv zeta.
  destruct (tg_send E (trace w) (ChatInt user_id)
              (auto_result_text title (snd (pid, url)) tg) Markdown);
    eexists; reflexivity.
Qed.

(** X12. Once both destinations have answered, the run is recorded
    whatever happens to the operator's report: the record, the
    fingerprint and the publish time are written before the report is
    sent.  The one audit row is the success row if the report was
    delivered; if not, it is an error row, although the article is
    published and recorded. *)
Theorem published_run_is_recorded :
  forall (E : Env) (w : World) (user_id : Z) (s : UserSettings)
         (main_news : NewsItem) (sources : list NewsItem)
         (article : gmap string pystr) (w3 : World) (cat : option Z)
         (title : pystr) (media : option Z) (w4 : World)
         (wp : option Z * option pystr) (w5 : World) (tg : option Z)
         (w6 : World),
    cleared user_id E w s main_news sources article w3 cat title ->
    upload_cover main_news E w3 = (Ok media, w4) ->
    site_phase s (mkArticle article cat) media E w4 = (Ok wp, w5) ->
    channel_phase s article (snd wp) E w5 = (Ok tg, w6) ->
    let wf := snd (auto_publish_task user_id E w) in
    let report := auto_result_text title (snd wp) tg in
    published_articles (db wf)
    = published_articles (db w) ++ [record_of user_id s title cat wp tg]
    /\ article_fingerprints (db wf) !! title_hash (str_lower E) title
       = Some title
    /\ user_settings (db wf) !! user_id
       = Some (stamped (db_now E (trace w6)) s)
    /\ (forall m,
          tg_send E (trace w6) (ChatInt user_id) report Markdown = inr m ->
          new_logs w wf = [success_row user_id title wp])
    /\ (forall e,
          tg_send E (trace w6) (ChatInt user_id) report Markdown = inl e ->
          new_logs w wf = [error_row user_id e]
          /\ In (told user_id (msg_failed e)) (new_calls w wf)).
Proof.
  intros E w user_id s main_news sources article w3 cat title media w4 wp w5
         tg w6 Hcl Hup Hsite Hchan wf report.
  destruct (cleared_steps _ _ _ _ _ _ _ _ _ _ Hcl) as (Hb & Hd & Htr).
  destruct (cleared_row _ _ _ _ _ _ _ _ _ _ Hcl) as [Hs _].
  destruct Hcl as (_ & _ & _ & Ht & Hfresh).
  pose proof (keeps_db_at _ _ _ _ _ (keeps_db_upload_cover _) Hup) as Hd4.
  pose proof (keeps_db_at _ _ _ _ _ (keeps_db_site _ _ _) Hsite) as Hd5.
  pose proof (keeps_db_at _ _ _ _ _ (keeps_db_channel _ _ _) Hchan) as Hd6.
  assert (Hd6' : db w6 = db w) by congruence.
  assert (Hbody : auto_publish_body user_id E w
                  = record_phase user_id s sources title cat (fst wp) (snd wp)
                      tg E w6).
  { rewrite Hb. unfold auto_publish_steps.
    rewrite (bind_run _ _ _ _ _ _ (dict_get_run _ _ _ E w3 Ht)).
    rewrite (bind_run _ _ _ _ _ _ Hup). cbv beta iota.
    rewrite (bind_run _ _ _ _ _ _ Hsite). cbv beta iota.
    now rewrite (bind_run _ _ _ _ _ _ Hchan). }
  pose proof (recorded_db _ _ _ _ _ _ _ _ _ _ Hbody Hd6') as Hdb.
  fold wf in Hdb.
  split; [now rewrite Hdb|]. split; [|split; [|split]].
  - rewrite Hdb. cbn. unfold insert_fingerprint. rewrite Hfresh.
    apply lookup_insert_eq.
  - rewrite Hdb. cbn. now rewrite lookup_alter_eq, Hs.
  - intros m Hm. apply new_logs_app. rewrite Hdb. cbn.
    unfold report_row. fold report. now rewrite Hm.
  - intros e He. split.
    + apply new_logs_app. rewrite Hdb. cbn.
      unfold report_row. fold report. now rewrite He.
    + assert (Hgrow : exists l, trace w6 = trace w ++ l).
      { destruct (upload_cover_trace _ _ _ _ _ Hup) as [_ Ht4].
        destruct (grows_trace_at _ _ _ _ _ (grows_trace_site _ _ _) Hsite)
          as [l5 Ht5].
        destruct (grows_trace_at _ _ _ _ _ (grows_trace_channel _ _ _) Hchan)
          as [l6 Ht6].
        eexists. rewrite Ht6, Ht5, Ht4, Htr, <- !app_assoc. reflexivity. }
      destruct Hgrow as [l Hl].
      rewrite record_phase_run in Hbody. cbv zeta in Hbody.
      fold report in Hbody. rewrite He in Hbody.
      pose proof (task_wraps _ _ _ _ _ Hbody) as (_ & _ & _ & _ & Hcalls).
      fold wf in Hcalls. cbn [trace called set_db] in Hcalls.
      rewrite Hl, <- !app_assoc in Hcalls.
      rewrite (new_calls_app _ _ _ Hcalls), !in_app_iff. right. right.
      now left.
Qed.

Lemma published_run_is_recorded_witness :
  tg_send env_operator_blocked (trace (world_sent env_operator_blocked))
    (ChatInt operator)
    (auto_result_text article_title (Some (wp_link post_example)) (Some 500))
    Markdown
  = inl operator_blocked
  /\ map pa_title (published_articles (db end_operator_blocked))
     = [article_title]
  /\ new_logs (world_example settings_on ∅) end_operator_blocked
     = [error_row operator operator_blocked].
Proof.
  pose proof (published_run_is_recorded env_operator_blocked
                (world_example settings_on ∅) operator settings_on
                news_example [news_example] reply_full
                (world_cleared env_operator_blocked) (Some 2) article_title
                None (world_cleared env_operator_blocked)
                (Some 42, Some (wp_link post_example))
                (world_posted env_operator_blocked) (Some 500)
                (world_sent env_operator_blocked))
    as H.
  cbv zeta in H.
  destruct H as (Hp & _ & _ & _ & Herr).
  - scenario_cleared.
  - vm_compute. reflexivity.
  - vm_compute. reflexivity.
  - vm_compute. reflexivity.
  - split; [reflexivity|]. split.
    + unfold end_operator_blocked. rewrite Hp. reflexivity.
    + exact (proj1 (Herr operator_blocked eq_refl)).
Defined.

(** X13. No title is recorded twice by the scheduled task.  If a run
    added a record and a later run, by any operator, in any world that
    still holds the fingerprints of the first, adds a record too, then the
    two titles differ in lower case. *)
Theorem no_title_is_recorded_twice :
  forall (E : Env) (w : World) (user_id : Z) (rec : PublishedArticle)
         (E' : Env) (w' : World) (user_id' : Z) (rec' : PublishedArticle),
    published_articles (db (snd (auto_publish_task user_id E w)))
    = published_articles (db w) ++ [rec] ->
    str_lower E' = str_lower E ->
    (forall h,
        is_Some (article_fingerprints
                   (db (snd (auto_publish_task user_id E w))) !! h) ->
        is_Some (article_fingerprints (db w') !! h)) ->
    published_articles (db (snd (auto_publish_task user_id' E' w')))
    = published_articles (db w') ++ [rec'] ->
    str_lower E (pa_title rec') <> str_lower E (pa_title rec).
Proof.
  intros E w user_id rec E' w' user_id' rec' Hrec Hlow Hkept Hrec' Heq.
  assert (Hgrew : forall (l : list PublishedArticle) x, l <> l ++ [x]).
  { intros l x H. apply (f_equal (@length _)) in H.
    rewrite length_app in H. cbn in H. lia. }
  destruct (record_or_nothing E w user_id)
    as [[Hp _]|(r & Hr & _ & _ & Hfp & _)];
    [rewrite Hp in Hrec; now apply Hgrew in Hrec|].
  destruct (record_or_nothing E' w' user_id')
    as [[Hp' _]|(r' & Hr' & _ & Hfresh' & _)];
    [rewrite Hp' in Hrec'; now apply Hgrew in Hrec'|].
  rewrite Hr in Hrec. apply app_inj_tail in Hrec as [_ ->].
  rewrite Hr' in Hrec'. apply app_inj_tail in Hrec' as [_ ->].
  assert (Hin : is_Some (article_fingerprints (db w')
                           !! title_hash (str_lower E) (pa_title rec))).
  { apply Hkept. rewrite Hfp, lookup_insert_eq. eauto. }
  rewrite Hlow in Hfresh'. unfold title_hash in Hfresh', Hin.
  rewrite Heq in Hfresh'. rewrite Hfresh' in Hin.
  destruct Hin as [? Hin]. discriminate.
Qed.

Lemma no_title_is_recorded_twice_witness :
  published_articles (db end_full) = [record_example article_title]
  /\ published_articles
       (db (snd (auto_publish_task operator env_other_title end_full)))
     = [record_example article_title; record_example other_title]
  /\ str_lower env_ok other_title <> str_lower env_ok article_title.
Proof.
  assert (H1 : published_articles (db end_full)
               = [record_example article_title])
    by (vm_compute; reflexivity).
  assert (H2 : published_articles
                 (db (snd (auto_publish_task operator env_other_title
                             end_full)))
               = [record_example article_title; record_example other_title])
    by (vm_compute; reflexivity).
  split; [exact H1|]. split; [exact H2|].
  apply (no_title_is_recorded_twice env_ok (world_example settings_on ∅)
           operator (record_example article_title) env_other_title end_full
           operator (record_example other_title)).
  - exact H1.
  - reflexivity.
  - intros h Hh. exact Hh.
  - rewrite H2, H1. reflexivity.
Defined.

(* ===================================================================== *)
(** * Reasoning about runs *)
(* ===================================================================== *)

Lemma wp_ret {A} (a : A) E w Q : Q (Ok a) w -> wp (ret a) E w Q.
Proof. exact id. Qed.

Lemma wp_raise {A} e E w (Q : result A -> World -> Prop) :
  Q (Raised e) w -> wp (raise e) E w Q.
Proof. exact id. Qed.

Lemma wp_bind {A B} (c : M A) (f : A -> M B) E w Q :
  wp c E w (fun r w' =>
              match r with
              | Ok a => wp (f a) E w' Q
              | Raised e => Q (Raised e) w'
              end) ->
  wp (bind c f) E w Q.
Proof.
  unfold wp, bind. destruct (c E w) as [[a|e] w']; exact id.
Qed.

Lemma wp_try {A} (c : M A) (h : exn -> M A) E w Q :
  wp c E w (fun r w' =>
              match r with
              | Ok a => Q (Ok a) w'
              | Raised e => wp (h e) E w' Q
              end) ->
  wp (try_except c h) E w Q.
Proof.
  unfold wp, try_except. destruct (c E w) as [[a|e] w']; exact id.
Qed.

Lemma wp_call {A} (c : Call) (answer : Env -> Trace -> exn + A) E w Q :
  (forall a, answer E (trace w) = inr a -> Q (Ok a) (called c w)) ->
  (forall e, answer E (trace w) = inl e -> Q (Raised e) (called c w)) ->
  wp (call c answer) E w Q.
Proof.
  intros Hok Herr. unfold wp, call.
  destruct (answer E (trace w)) as [e|a]; cbn; auto.
Qed.

Lemma wp_ask {A} (f : Env -> A) E w Q : Q (Ok (f E)) w -> wp (ask f) E w Q.
Proof. exact id. Qed.

Lemma wp_read_db {A} (f : Database -> A) E w Q :
  Q (Ok (f (db w))) w -> wp (read_db f) E w Q.
Proof. exact id. Qed.

Lemma wp_write_db f E w Q :
  Q (Ok tt) (set_db (f (db w)) w) -> wp (write_db f) E w Q.
Proof. exact id. Qed.

Lemma wp_log_line l E w Q : Q (Ok tt) (logged l w) -> wp (log_line l) E w Q.
Proof. exact id. Qed.

Lemma wp_set_fsm f E w Q :
  Q (Ok tt) (mkWorld (db w) (trace w) (logger w) f) -> wp (set_fsm f) E w Q.
Proof. exact id. Qed.

Lemma wp_get_fsm E w Q : Q (Ok (fsm w)) w -> wp get_fsm E w Q.
Proof. exact id. Qed.

Lemma wp_run {A} (c : M A) E w (Q : result A -> World -> Prop) :
  wp c E w Q -> Q (fst (c E w)) (snd (c E w)).
Proof. exact id. Qed.

(** One step of a run: the rule of the computation at the head. *)
Ltac wp_step :=
  lazymatch goal with
  | |- wp (bind _ _) _ _ _ => apply wp_bind
  | |- wp (try_except _ _) _ _ _ => apply wp_try
  | |- wp (ret _) _ _ _ => apply wp_ret
  | |- wp (raise _) _ _ _ => apply wp_raise
  | |- wp (call _ _) _ _ _ => apply wp_call; intros ? ?
  | |- wp (ask _) _ _ _ => apply wp_ask
  | |- wp (read_db _) _ _ _ => apply wp_read_db
  | |- wp (write_db _) _ _ _ => apply wp_write_db
  | |- wp (log_line _) _ _ _ => apply wp_log_line
  | |- wp (set_fsm _) _ _ _ => apply wp_set_fsm
  | |- wp get_fsm _ _ _ => apply wp_get_fsm
  | |- wp (if ?b then _ else _) _ _ _ => destruct b eqn:?
  | |- wp (match ?x with _ => _ end) _ _ _ => destruct x eqn:?
  end.

(** The world after a step, in constructor form. *)
Ltac wp_world :=
  cbv beta iota;
  cbn [db trace logger fsm set_db called logged wp_categories user_settings
       published_articles article_fingerprints logs set_published
       set_fingerprints set_logs set_settings].

Ltac wp_go := repeat (wp_world; wp_step).

(** The same, forgetting what the services answered. *)
Ltac wp_step_any :=
  lazymatch goal with
  | |- wp (call _ _) _ _ _ => apply wp_call; intros ? _
  | _ => wp_step
  end.

Ltac wp_go_any := repeat (wp_world; wp_step_any).


(* ===================================================================== *)
(** * The manual handler, outcomes *)
(* ===================================================================== *)

(** Every run of the manual handler, whatever the services answer. *)
Lemma handler_outcome E w cb :
  wp (publish_handler cb) E w (fun r wf =>
    wp_categories (db wf) = wp_categories (db w)
    /\ user_settings (db wf) = user_settings (db w)
    /\ ((published_articles (db wf) = published_articles (db w)
         /\ article_fingerprints (db wf) = article_fingerprints (db w)
         /\ fsm wf = fsm w
         /\ (logs (db wf) = logs (db w)
             \/ exists e, logs (db wf) = logs (db w) ++ [manual_error_row cb e]))
        \/ (exists article title,
              generated_article (fsm w) = Some article
              /\ fields article !! "title"%string = Some title
              /\ manually_recorded E cb w wf title
              /\ (fsm wf = fsm w \/ (fsm wf = fsm_empty /\ r = Ok tt))))).
Proof.
  unfold publish_handler, publish_body.
  change (fun (_ : Env) (w0 : World) => (Ok (fsm w0), w0)) with get_fsm.
  unfold edit_text, callback_answer, send_message, create_post, resp_json,
    upload_image, dict_get, save_published_article, add_article_fingerprint,
    log_action.
  wp_go_any.
  all: wp_world.
  all: split; [reflexivity|]; split; [reflexivity|].
  all: try (left; split; [reflexivity|]; split; [reflexivity|];
            split; [reflexivity|];
            first [left; reflexivity | right; eexists; reflexivity]).
  all: right; eexists _, _; split; [reflexivity|]; split; [eassumption|];
    (split;
     [ eexists _, _;
       cbn [db trace logger fsm set_db called logged published_articles
            article_fingerprints logs set_published set_fingerprints
            set_logs pa_title pa_user_id pa_wp_post_id fst snd];
       rewrite <- ?app_assoc; repeat split; reflexivity
     | first [left; reflexivity | right; split; reflexivity] ]).
Qed.

(** X14. Every run of the manual handler, whatever the services answer,
    leaves the categories and the settings as they were and ends in one
    of two ways.  Either nothing is recorded: records, fingerprints and
    conversation state are as before and at most one audit row, an error
    row, is added.  Or the article of the conversation state is recorded:
    one record for the operator, the fingerprint of its title and a
    success row are written together; the conversation state is cleared
    only in that case, and only if the handler returned. *)
Theorem manual_publish_outcomes :
  forall (E : Env) (w : World) (cb : Callback),
    let run := publish_handler cb E w in
    let wf := snd run in
    wp_categories (db wf) = wp_categories (db w)
    /\ user_settings (db wf) = user_settings (db w)
    /\ ((published_articles (db wf) = published_articles (db w)
         /\ article_fingerprints (db wf) = article_fingerprints (db w)
         /\ fsm wf = fsm w
         /\ (logs (db wf) = logs (db w)
             \/ exists e,
                  logs (db wf) = logs (db w) ++ [manual_error_row cb e]))
        \/ (exists article title rec rows,
              generated_article (fsm w) = Some article
              /\ fields article !! "title"%string = Some title
              /\ published_articles (db wf)
                 = published_articles (db w) ++ [rec]
              /\ pa_title rec = title
              /\ pa_user_id rec = from_user_id cb
              /\ is_Some (article_fingerprints (db wf)
                            !! title_hash (str_lower E) title)
              /\ logs (db wf)
                 = logs (db w)
                     ++ manual_success_row cb title (pa_wp_post_id rec)
                        :: rows
              /\ (fsm wf = fsm w
                  \/ (fsm wf = fsm_empty /\ fst run = Ok tt)))).
Proof.
  intros E w cb run wf. subst wf run.
  pose proof (wp_run _ _ _ _ (handler_outcome E w cb))
    as (Hc & Hu & [Hq|(article & title & Ha & Ht & Hrec & Hfsm)]).
  - split; [exact Hc|]. split; [exact Hu|]. left. exact Hq.
  - split; [exact Hc|]. split; [exact Hu|]. right.
    destruct Hrec as (rec & rows & Hp & Hti & Hus & Hfp & Hl).
    exists article, title, rec, rows.
    repeat (split; [assumption|]). split; [|split; [exact Hl|exact Hfsm]].
    rewrite Hfp. apply insert_fingerprint_lookup.
Qed.

Lemma insert_fingerprint_keeps h title (t : gmap string pystr) h' :
  is_Some (t !! h') -> is_Some (insert_fingerprint h title t !! h').
Proof.
  intros H. destruct (decide (h = h')) as [->|Hne].
  - apply insert_fingerprint_lookup.
  - now rewrite insert_fingerprint_other.
Qed.

(** Each event keeps the fingerprints it found, and keeps the invariant
    of the two stores. *)
Lemma event_keeps E ev w :
  (forall h, is_Some (article_fingerprints (db w) !! h) ->
             is_Some (article_fingerprints (db (run_event E ev w)) !! h))
  /\ (records_have_fingerprints E w ->
      records_have_fingerprints E (run_event E ev w)).
Proof.
  unfold records_have_fingerprints.
  destruct ev as [user_id|cb|title]; cbn [run_event].
  - destruct (record_or_nothing E w user_id)
      as [[Hp Hf]|(rec & Hp & _ & _ & Hf & _)]; rewrite Hp, Hf.
    + auto.
    + assert (Hk : forall h,
                is_Some (article_fingerprints (db w) !! h) ->
                is_Some (<[title_hash (str_lower E) (pa_title rec)
                           := pa_title rec]>
                           (article_fingerprints (db w)) !! h)).
      { intros h Hh.
        destruct (decide (title_hash (str_lower E) (pa_title rec) = h))
          as [->|Hne]; [rewrite lookup_insert_eq; eauto|].
        now rewrite lookup_insert_ne. }
      split; [exact Hk|]. intros Hinv. apply Forall_app. split.
      * eapply Forall_impl; [exact Hinv|]. intros r. apply Hk.
      * constructor; [|constructor]. rewrite lookup_insert_eq. eauto.
  - pose proof (wp_run _ _ _ _ (handler_outcome E w cb))
      as (_ & _ & [(Hp & Hf & _)|(article & title & _ & _ & Hrec & _)]).
    + rewrite Hp, Hf. auto.
    + destruct Hrec as (rec & rows & Hp & Hti & _ & Hf & _).
      rewrite Hp, Hf. split; [intros h; apply insert_fingerprint_keeps|].
      intros Hinv. apply Forall_app. split.
      * eapply Forall_impl; [exact Hinv|]. intros r.
        apply insert_fingerprint_keeps.
      * constructor; [|constructor]. rewrite Hti.
        apply insert_fingerprint_lookup.
  - rewrite add_article_fingerprint_run. cbn.
    split; [intros h; apply insert_fingerprint_keeps|].
    intros Hinv. eapply Forall_impl; [exact Hinv|]. intros r.
    apply insert_fingerprint_keeps.
Qed.

Lemma events_keep E evs : forall w,
  (forall h, is_Some (article_fingerprints (db w) !! h) ->
             is_Some (article_fingerprints (db (run_events E evs w)) !! h))
  /\ (records_have_fingerprints E w ->
      records_have_fingerprints E (run_events E evs w)).
Proof.
  unfold run_events.
  induction evs as [|ev evs IH]; intros w; cbn [fold_left]; [auto|].
  destruct (event_keeps E ev w) as [H1 H2].
  destruct (IH (run_event E ev w)) as [H3 H4]. split; auto.
Qed.

(** X15. A duplicate stays a duplicate.  Over any sequence of scheduled
    runs, manual publications and registrations, whatever the services
    answer, a title that [check_duplicate] flags is flagged ever after. *)
Theorem duplicate_answer_is_permanent :
  forall (E : Env) (evs : list Event) (w : World) (title : pystr),
    fst (check_duplicate title E w) = Ok true ->
    fst (check_duplicate title E (run_events E evs w)) = Ok true.
Proof.
  intros E evs w title. rewrite !check_duplicate_run. cbn [fst].
  intros [= H]. f_equal. apply bool_decide_eq_true in H.
  apply bool_decide_eq_true. now apply events_keep.
Qed.

(** X16. Every record has its fingerprint, and keeps it: the invariant
    holds again after any sequence of scheduled runs, manual
    publications and registrations, whatever the services answer. *)
Theorem records_keep_their_fingerprints :
  forall (E : Env) (evs : list Event) (w : World),
    records_have_fingerprints E w ->
    records_have_fingerprints E (run_events E evs w).
Proof. intros E evs w. apply events_keep. Qed.

(** X17. Under that invariant the scheduled task never records a title
    again: the record a run adds differs in lower case from every
    record already stored, be it from a scheduled run or from a manual
    publication. *)
Theorem scheduled_run_never_repeats_a_record :
  forall (E : Env) (w : World) (user_id : Z) (rec old : PublishedArticle),
    records_have_fingerprints E w ->
    published_articles (db (snd (auto_publish_task user_id E w)))
    = published_articles (db w) ++ [rec] ->
    In old (published_articles (db w)) ->
    str_lower E (pa_title rec) <> str_lower E (pa_title old).
Proof.
  intros E w user_id rec old Hinv Hrec Hold Heq.
  destruct (record_or_nothing E w user_id)
    as [[Hp _]|(r & Hr & _ & Hfresh & _)].
  - rewrite Hp in Hrec. apply (f_equal (@length _)) in Hrec.
    rewrite length_app in Hrec. cbn in Hrec. lia.
  - rewrite Hr in Hrec. apply app_inj_tail in Hrec as [_ ->].
    unfold records_have_fingerprints in Hinv.
    rewrite List.Forall_forall in Hinv. specialize (Hinv old Hold).
    unfold title_hash in Hinv, Hfresh. rewrite <- Heq, Hfresh in Hinv.
    destruct Hinv as [? ?]. discriminate.
Qed.

Lemma duplicate_answer_is_permanent_witness :
  fst (check_duplicate article_title env_ok world_seen) = Ok true
  /\ fst (check_duplicate article_title env_ok
            (run_events env_ok [Fired operator; Pressed press_publish_wp]
               world_seen))
     = Ok true.
Proof.
  assert (H : fst (check_duplicate article_title env_ok world_seen) = Ok true)
    by (vm_compute; reflexivity).
  split; [exact H|].
  exact (duplicate_answer_is_permanent env_ok
           [Fired operator; Pressed press_publish_wp] world_seen
           article_title H).
Defined.

Lemma end_full_has_fingerprints E :
  str_lower E = lower_simple -> records_have_fingerprints E end_full.
Proof.
  intros HE. unfold records_have_fingerprints. rewrite HE.
  assert (H : published_articles (db end_full)
              = [record_example article_title]) by (vm_compute; reflexivity).
  rewrite H. constructor; [|constructor].
  eexists. vm_compute. reflexivity.
Defined.

Lemma records_keep_their_fingerprints_witness :
  records_have_fingerprints env_ok end_full
  /\ records_have_fingerprints env_ok
       (run_events env_ok [Fired operator; Registered other_title] end_full).
Proof.
  split; [exact (end_full_has_fingerprints env_ok eq_refl)|].
  exact (records_keep_their_fingerprints env_ok
           [Fired operator; Registered other_title] end_full
           (end_full_has_fingerprints env_ok eq_refl)).
Defined.

Lemma scheduled_run_never_repeats_a_record_witness :
  records_have_fingerprints env_other_title end_full
  /\ In (record_example article_title) (published_articles (db end_full))
  /\ str_lower env_other_title other_title
     <> str_lower env_other_title article_title.
Proof.
  assert (H1 : published_articles (db end_full)
               = [record_example article_title])
    by (vm_compute; reflexivity).
  assert (Hin : In (record_example article_title)
                   (published_articles (db end_full)))
    by (rewrite H1; now left).
  split; [exact (end_full_has_fingerprints env_other_title eq_refl)|].
  split; [exact Hin|].
  apply (scheduled_run_never_repeats_a_record env_other_title end_full
           operator (record_example other_title)
           (record_example article_title)
           (end_full_has_fingerprints env_other_title eq_refl)).
  - rewrite H1. vm_compute. reflexivity.
  - exact Hin.
Defined.

(* ===================================================================== *)
(** * The settings of an operator *)
(* ===================================================================== *)

Lemma get_user_settings_run user_id E w :
  get_user_settings user_id E w
  = (Ok (row_of user_id (db w)),
     match user_settings (db w) !! user_id with
     | Some _ => w
     | None =>
         set_db (set_settings (<[user_id := default_settings]>
                                 (user_settings (db w))) (db w)) w
     end).
Proof.
  unfold get_user_settings, row_of, bind, read_db, write_db, ret.
  destruct (user_settings (db w) !! user_id); reflexivity.
Qed.

(** After the read the row is stored, whatever was there before. *)
Lemma get_user_settings_rows user_id E w :
  let w1 := snd (get_user_settings user_id E w) in
  user_settings (db w1) !! user_id = Some (row_of user_id (db w))
  /\ (forall v, v <> user_id ->
        user_settings (db w1) !! v = user_settings (db w) !! v).
Proof.
  rewrite get_user_settings_run. cbn [snd]. unfold row_of.
  destruct (user_settings (db w) !! user_id) eqn:Hs; cbn.
  - auto.
  - rewrite lookup_insert_eq. split; [reflexivity|].
    intros v Hv. now rewrite lookup_insert_ne.
Qed.

Lemma row_of_stored user_id d s :
  user_settings d !! user_id = Some s -> row_of user_id d = s.
Proof. unfold row_of. now intros ->. Qed.

Lemma update_user_setting_run user_id kv E w :
  update_user_setting user_id kv E w
  = (Ok tt,
     let w1 := snd (get_user_settings user_id E w) in
     set_db (set_settings (alter (apply_setting kv) user_id
                             (user_settings (db w1))) (db w1)) w1).
Proof.
  unfold update_user_setting, bind. rewrite get_user_settings_run.
  reflexivity.
Qed.

Lemma update_user_setting_rows user_id kv E w :
  let w2 := snd (update_user_setting user_id kv E w) in
  user_settings (db w2) !! user_id
  = Some (apply_setting kv (row_of user_id (db w)))
  /\ (forall v, v <> user_id ->
        user_settings (db w2) !! v = user_settings (db w) !! v).
Proof.
  rewrite update_user_setting_run. cbn [snd]. cbv zeta.
  destruct (get_user_settings_rows user_id E w) as [H1 H2].
  cbn [db set_db user_settings set_settings]. split.
  - now rewrite lookup_alter_eq, H1.
  - intros v Hv. rewrite lookup_alter_ne by auto. now apply H2.
Qed.

(** What the two settings operations leave alone. *)
Lemma settings_frame user_id kv E w :
  let w1 := snd (get_user_settings user_id E w) in
  let w2 := snd (update_user_setting user_id kv E w) in
  (wp_categories (db w1) = wp_categories (db w)
   /\ published_articles (db w1) = published_articles (db w)
   /\ article_fingerprints (db w1) = article_fingerprints (db w)
   /\ logs (db w1) = logs (db w)
   /\ trace w1 = trace w)
  /\ (wp_categories (db w2) = wp_categories (db w)
      /\ published_articles (db w2) = published_articles (db w)
      /\ article_fingerprints (db w2) = article_fingerprints (db w)
      /\ logs (db w2) = logs (db w)
      /\ trace w2 = trace w).
Proof.
  rewrite update_user_setting_run, get_user_settings_run. cbn [snd].
  destruct (user_settings (db w) !! user_id); cbn; auto 10.
Qed.

(** X18. The settings row is created on first use and only then.
    [get_user_settings] answers with the stored row, or with the
    defaults (automatic mode off, 180 minutes, site on, channel off, no
    category filter) which it stores; a second read returns the same row
    and changes nothing; no other operator's row and no other table is
    touched, and no service is called. *)
Theorem settings_row_is_created_once :
  forall (E : Env) (w : World) (user_id : Z),
    let run := get_user_settings user_id E w in
    let w1 := snd run in
    fst run = Ok (row_of user_id (db w))
    /\ (user_settings (db w) !! user_id = None ->
        fst run = Ok (mkSettings false 180 true false [] None))
    /\ user_settings (db w1) !! user_id = Some (row_of user_id (db w))
    /\ get_user_settings user_id E w1 = (Ok (row_of user_id (db w)), w1)
    /\ (forall v, v <> user_id ->
          user_settings (db w1) !! v = user_settings (db w) !! v)
    /\ wp_categories (db w1) = wp_categories (db w)
    /\ published_articles (db w1) = published_articles (db w)
    /\ article_fingerprints (db w1) = article_fingerprints (db w)
    /\ logs (db w1) = logs (db w)
    /\ trace w1 = trace w.
Proof.
  intros E w user_id run w1. subst w1 run.
  destruct (get_user_settings_rows user_id E w) as [H1 H2].
  destruct (settings_frame user_id (Set_auto_publish_enabled true) E w)
    as [(Hc & Hp & Hf & Hl & Ht) _].
  split; [now rewrite get_user_settings_run|].
  split; [intros Hn; rewrite get_user_settings_run; unfold row_of;
          now rewrite Hn|].
  split; [exact H1|]. split; [now apply get_user_settings_stored|].
  auto 10.
Qed.

(** X19. A setting that is written is the setting that is read.  After
    [update_user_setting] the operator's row is the row as it was (the
    defaults, if there was none) with that one column changed;
    [get_user_settings] returns it; the other operators' rows and the
    other tables are as before. *)
Theorem setting_update_round_trip :
  forall (E : Env) (w : World) (user_id : Z) (kv : Setting),
    let run := update_user_setting user_id kv E w in
    let w2 := snd run in
    fst run = Ok tt
    /\ get_user_settings user_id E w2
       = (Ok (apply_setting kv (row_of user_id (db w))), w2)
    /\ (forall v, v <> user_id ->
          user_settings (db w2) !! v = user_settings (db w) !! v)
    /\ wp_categories (db w2) = wp_categories (db w)
    /\ published_articles (db w2) = published_articles (db w)
    /\ article_fingerprints (db w2) = article_fingerprints (db w)
    /\ logs (db w2) = logs (db w)
    /\ trace w2 = trace w.
Proof.
  intros E w user_id kv run w2. subst w2 run.
  destruct (update_user_setting_rows user_id kv E w) as [H1 H2].
  destruct (settings_frame user_id kv E w) as [_ (Hc & Hp & Hf & Hl & Ht)].
  split; [now rewrite update_user_setting_run|].
  split; [now apply get_user_settings_stored|]. auto 10.
Qed.

(* ===================================================================== *)
(** * The target switches *)
(* ===================================================================== *)

Lemma screen_keeps_db (screen : UserSettings -> pystr) user_id E w :
  is_Some (user_settings (db w) !! user_id) ->
  db (snd ((settings <- get_user_settings user_id ;;
            edit_text (screen settings)) E w)) = db w.
Proof.
  intros [s Hs]. unfold bind.
  rewrite (get_user_settings_stored _ _ E _ Hs).
  unfold edit_text. rewrite call_run. reflexivity.
Qed.

(** A switch: read the row, write one column, answer, show the screen. *)
Lemma switch_db (kv : UserSettings -> Setting) (screen : UserSettings -> pystr)
    answer user_id E w :
  db (snd ((settings <- get_user_settings user_id ;;
            update_user_setting user_id (kv settings) ;;
            callback_answer answer ;;
            settings <- get_user_settings user_id ;;
            edit_text (screen settings)) E w))
  = db (snd (update_user_setting user_id (kv (row_of user_id (db w))) E
               (snd (get_user_settings user_id E w)))).
Proof.
  unfold bind at 1. rewrite get_user_settings_run. cbn [fst snd].
  set (w1 := match user_settings (db w) !! user_id with
             | Some _ => w
             | None => _
             end).
  unfold bind at 1.
  destruct (update_user_setting user_id (kv (row_of user_id (db w))) E w1)
    as [r w2] eqn:Hup.
  pose proof (update_user_setting_rows user_id
                (kv (row_of user_id (db w))) E w1) as [Hrow _].
  rewrite Hup in Hrow. cbn [snd] in Hrow.
  rewrite update_user_setting_run in Hup. injection Hup as <- Hw2.
  unfold bind at 1. unfold callback_answer at 1. rewrite call_run.
  cbn [snd].
  destruct (tg_answer E (trace w2) answer); [reflexivity|].
  rewrite screen_keeps_db; [reflexivity|]. cbn. eauto.
Qed.

Lemma switch_rows (kv : UserSettings -> Setting)
    (screen : UserSettings -> pystr) answer user_id E w :
  let wf := snd ((settings <- get_user_settings user_id ;;
                  update_user_setting user_id (kv settings) ;;
                  callback_answer answer ;;
                  settings <- get_user_settings user_id ;;
                  edit_text (screen settings)) E w) in
  user_settings (db wf) !! user_id
  = Some (apply_setting (kv (row_of user_id (db w))) (row_of user_id (db w)))
  /\ (forall v, v <> user_id ->
        user_settings (db wf) !! v = user_settings (db w) !! v)
  /\ wp_categories (db wf) = wp_categories (db w)
  /\ published_articles (db wf) = published_articles (db w)
  /\ article_fingerprints (db wf) = article_fingerprints (db w)
  /\ logs (db wf) = logs (db w).
Proof.
  cbv zeta. rewrite switch_db.
  set (w1 := snd (get_user_settings user_id E w)).
  destruct (get_user_settings_rows user_id E w) as [H1 H2]. fold w1 in H1, H2.
  destruct (update_user_setting_rows user_id (kv (row_of user_id (db w))) E w1)
    as [H3 H4].
  destruct (settings_frame user_id (kv (row_of user_id (db w))) E w)
    as [(Hc & Hp & Hf & Hl & _) _]. fold w1 in Hc, Hp, Hf, Hl.
  destruct (settings_frame user_id (kv (row_of user_id (db w))) E w1)
    as [_ (Hc' & Hp' & Hf' & Hl' & _)].
  rewrite (row_of_stored _ _ _ H1) in H3.
  split; [exact H3|]. split.
  - intros v Hv. rewrite H4 by auto. now apply H2.
  - repeat split; congruence.
Qed.

(** X20. A target switch flips one flag.  Whatever the services answer,
    after [toggle_wp_handler] (and likewise [toggle_tg_handler]) the
    operator's row is the row as it was, or the defaults, with that one
    flag negated; the other rows and tables are as before; pressing the
    switch twice gives the row back. *)
Theorem target_switch_flips_one_flag :
  forall (E : Env) (w : World) (cb : Callback),
    let user_id := from_user_id cb in
    let r := row_of user_id (db w) in
    let wp1 := snd (toggle_wp_handler cb E w) in
    let tg1 := snd (toggle_tg_handler cb E w) in
    user_settings (db wp1) !! user_id
    = Some (apply_setting
              (Set_auto_publish_to_wp (negb (auto_publish_to_wp r))) r)
    /\ user_settings (db tg1) !! user_id
       = Some (apply_setting
                 (Set_auto_publish_to_tg (negb (auto_publish_to_tg r))) r)
    /\ (forall v, v <> user_id ->
          user_settings (db wp1) !! v = user_settings (db w) !! v
          /\ user_settings (db tg1) !! v = user_settings (db w) !! v)
    /\ (forall E', row_of user_id (db (snd (toggle_wp_handler cb E' wp1))) = r)
    /\ (forall E', row_of user_id (db (snd (toggle_tg_handler cb E' tg1))) = r).
Proof.
  intros E w cb user_id r wp1 tg1.
  pose proof (switch_rows
                (fun s => Set_auto_publish_to_wp (negb (auto_publish_to_wp s)))
                publish_targets_text (py "✅ Змінено") user_id) as Hwp.
  pose proof (switch_rows
                (fun s => Set_auto_publish_to_tg (negb (auto_publish_to_tg s)))
                publish_targets_text (py "✅ Змінено") user_id) as Htg.
  cbv zeta in Hwp, Htg.
  assert (W1 : user_settings (db wp1) !! user_id
               = Some (apply_setting
                         (Set_auto_publish_to_wp (negb (auto_publish_to_wp r)))
                         r))
    by exact (proj1 (Hwp E w)).
  assert (T1 : user_settings (db tg1) !! user_id
               = Some (apply_setting
                         (Set_auto_publish_to_tg (negb (auto_publish_to_tg r)))
                         r))
    by exact (proj1 (Htg E w)).
  split; [exact W1|]. split; [exact T1|].
  split; [intros v Hv; split;
          [exact (proj1 (proj2 (Hwp E w)) v Hv)
          |exact (proj1 (proj2 (Htg E w)) v Hv)]|].
  split; intros E'.
  - assert (W3 : user_settings (db (snd (toggle_wp_handler cb E' wp1)))
                   !! user_id
                 = Some (apply_setting
                           (Set_auto_publish_to_wp
                              (negb (auto_publish_to_wp
                                       (row_of user_id (db wp1)))))
                           (row_of user_id (db wp1))))
      by exact (proj1 (Hwp E' wp1)).
    rewrite (row_of_stored _ _ _ W3), (row_of_stored _ _ _ W1).
    destruct r as [a b c d e f]. cbn. now rewrite negb_involutive.
  - assert (T3 : user_settings (db (snd (toggle_tg_handler cb E' tg1)))
                   !! user_id
                 = Some (apply_setting
                           (Set_auto_publish_to_tg
                              (negb (auto_publish_to_tg
                                       (row_of user_id (db tg1)))))
                           (row_of user_id (db tg1))))
      by exact (proj1 (Htg E' tg1)).
    rewrite (row_of_stored _ _ _ T3), (row_of_stored _ _ _ T1).
    destruct r as [a b c d e f]. cbn. now rewrite negb_involutive.
Qed.

(* ===================================================================== *)
(** * The schedule *)
(* ===================================================================== *)

Lemma bytes_of_string_inj : forall s t : string,
  bytes_of_string s = bytes_of_string t -> s = t.
Proof.
  induction s as [|a s IH]; intros [|b t]; cbn; try discriminate; auto.
  intros [= Hab Hst]. f_equal; [|now apply IH].
  apply N2Z.inj in Hab.
  rewrite <- (ascii_N_embedding a), <- (ascii_N_embedding b).
  now rewrite Hab.
Qed.

Lemma to_int_proper (n : Z) :
  Z.to_int n <> Decimal.Pos Decimal.Nil /\ Z.to_int n <> Decimal.Neg Decimal.Nil.
Proof.
  destruct n as [|p|p]; cbn; split; try discriminate;
    intros [= H]; now apply DecimalPos.Unsigned.to_uint_nonnil in H.
Qed.

(** [str] of an integer tells the integer. *)
Lemma str_of_Z_inj (n m : Z) : str_of_Z n = str_of_Z m -> n = m.
Proof.
  unfold str_of_Z. intros H. apply bytes_of_string_inj in H.
  apply DecimalZ.to_int_inj.
  destruct (to_int_proper n) as [Hn1 Hn2].
  destruct (to_int_proper m) as [Hm1 Hm2].
  pose proof (DecimalString.NilZero.isi _ Hn1 Hn2) as Hn.
  pose proof (DecimalString.NilZero.isi _ Hm1 Hm2) as Hm.
  rewrite H in Hn. congruence.
Qed.

Lemma job_name_inj (u v : Z) : job_name u = job_name v -> u = v.
Proof. unfold job_name. intros H. apply app_inv_head in H. now apply str_of_Z_inj. Qed.

Lemma get_job_none id (js : list Job) :
  get_job id js = None <-> Forall (fun j => has_id id j = false) js.
Proof.
  unfold get_job. induction js as [|j js IH]; cbn; [split; auto|].
  destruct (has_id id j) eqn:Hj.
  - split; [discriminate|]. intros H. inversion H. congruence.
  - rewrite IH. split; [now constructor|]. intros H. now inversion H.
Qed.

Lemma without_absent id (js : list Job) :
  get_job id js = None ->
  List.filter (fun j => negb (has_id id j)) js = js.
Proof.
  rewrite get_job_none. induction 1 as [|j js Hj _ IH]; cbn; [reflexivity|].
  now rewrite Hj, IH.
Qed.

Lemma get_job_without id (js : list Job) :
  get_job id (List.filter (fun j => negb (has_id id j)) js) = None.
Proof.
  apply get_job_none. apply List.Forall_forall. intros j Hj.
  apply List.filter_In in Hj as [_ Hj]. now apply negb_true_iff.
Qed.

Lemma get_job_without_other id id' (js : list Job) :
  id <> id' ->
  get_job id' (List.filter (fun j => negb (has_id id j)) js) = get_job id' js.
Proof.
  intros Hne. unfold get_job. induction js as [|j js IH]; cbn; [reflexivity|].
  destruct (has_id id j) eqn:Hj; cbn.
  - destruct (has_id id' j) eqn:Hj'; [|exact IH].
    apply bool_decide_eq_true in Hj, Hj'. congruence.
  - destruct (has_id id' j); [reflexivity|exact IH].
Qed.

Lemma get_job_app id (js js' : list Job) :
  get_job id (js ++ js')
  = match get_job id js with
    | Some j => Some j
    | None => get_job id js'
    end.
Proof.
  unfold get_job. induction js as [|j js IH]; cbn; [reflexivity|].
  destruct (has_id id j); [reflexivity|exact IH].
Qed.

Lemma without_twice id (js : list Job) :
  List.filter (fun j => negb (has_id id j))
    (List.filter (fun j => negb (has_id id j)) js)
  = List.filter (fun j => negb (has_id id j)) js.
Proof. apply without_absent, get_job_without. Qed.

Lemma without_ids id (js : list Job) :
  unique_ids js -> unique_ids (List.filter (fun j => negb (has_id id j)) js).
Proof.
  unfold unique_ids. induction js as [|j js IH]; cbn; [auto|].
  intros H. apply NoDup_cons in H as [Hj Hjs].
  destruct (negb (has_id id j)); cbn; [|now apply IH].
  apply NoDup_cons. split; [|now apply IH].
  intros Hin. apply Hj. apply list_elem_of_fmap in Hin as (j' & -> & Hin).
  apply list_elem_of_fmap. exists j'. split; [reflexivity|].
  apply list_elem_of_In in Hin. apply List.filter_In in Hin as [Hin _].
  now apply list_elem_of_In.
Qed.

(** The scheduler after [start_user_schedule]: the operator's old job, if
    any, is gone and the new one is last. *)
Lemma start_user_schedule_run user_id n s :
  start_user_schedule user_id n s
  = inr (mkScheduler
           (List.filter (fun j => negb (has_id (job_name user_id) j)) (jobs s)
              ++ [mkJob (job_name user_id) n user_id])
           (schedule_log s ++ [LogStarted user_id n])).
Proof.
  unfold start_user_schedule, remove_job, add_job. cbv zeta. cbn [job_id].
  destruct (get_job (job_name user_id) (jobs s)) eqn:Hj.
  - now rewrite get_job_without.
  - now rewrite Hj, without_absent.
Qed.

Lemma stop_user_schedule_run user_id s :
  stop_user_schedule user_id s
  = inr (match get_job (job_name user_id) (jobs s) with
         | Some _ =>
             mkScheduler
               (List.filter (fun j => negb (has_id (job_name user_id) j))
                            (jobs s))
               (schedule_log s ++ [LogStopped user_id])
         | None => s
         end).
Proof.
  unfold stop_user_schedule, remove_job. cbv zeta.
  destruct (get_job (job_name user_id) (jobs s)); reflexivity.
Qed.

Lemma has_id_own id n u : has_id id (mkJob id n u) = true.
Proof. now apply bool_decide_eq_true. Qed.

(** The operator's job after a start, and after a stop. *)
Lemma start_gives_the_job user_id n s :
  exists s',
    start_user_schedule user_id n s = inr s'
    /\ get_job (job_name user_id) (jobs s')
       = Some (mkJob (job_name user_id) n user_id)
    /\ (forall v, v <> user_id ->
          get_job (job_name v) (jobs s') = get_job (job_name v) (jobs s)).
Proof.
  eexists. split; [apply start_user_schedule_run|]. cbn [jobs]. split.
  - rewrite get_job_app, get_job_without. unfold get_job. cbn.
    now rewrite has_id_own.
  - intros v Hv. rewrite get_job_app.
    rewrite get_job_without_other
      by (intros H; apply job_name_inj in H; congruence).
    destruct (get_job (job_name v) (jobs s)); [reflexivity|].
    unfold get_job. cbn.
    destruct (has_id (job_name v) _) eqn:H; [|reflexivity].
    apply bool_decide_eq_true in H. cbn in H. apply job_name_inj in H.
    congruence.
Qed.

Lemma stop_leaves_no_job user_id s :
  exists s',
    stop_user_schedule user_id s = inr s'
    /\ get_job (job_name user_id) (jobs s') = None
    /\ (forall v, v <> user_id ->
          get_job (job_name v) (jobs s') = get_job (job_name v) (jobs s)).
Proof.
  eexists. split; [apply stop_user_schedule_run|].
  destruct (get_job (job_name user_id) (jobs s)) as [j|] eqn:Hj.
  - cbn [jobs]. split; [apply get_job_without|].
    intros v Hv. apply get_job_without_other.
    intros H. apply job_name_inj in H. congruence.
  - split; [exact Hj|reflexivity].
Qed.

(** X21. Starting a schedule never fails and leaves exactly one job for
    the operator, with the interval asked for.  The jobs of the other
    operators stay; ids stay unique; starting again replaces the job, so
    the last interval is the one that counts. *)
Theorem start_registers_one_job :
  forall (user_id interval_minutes : Z) (s : Scheduler),
    exists s',
      start_user_schedule user_id interval_minutes s = inr s'
      /\ get_job (job_name user_id) (jobs s')
         = Some (mkJob (job_name user_id) interval_minutes user_id)
      /\ List.filter (has_id (job_name user_id)) (jobs s')
         = [mkJob (job_name user_id) interval_minutes user_id]
      /\ (forall v, v <> user_id ->
            get_job (job_name v) (jobs s') = get_job (job_name v) (jobs s))
      /\ (unique_ids (jobs s) -> unique_ids (jobs s'))
      /\ (forall m s'',
            start_user_schedule user_id m s' = inr s'' ->
            exists s0,
              start_user_schedule user_id m s = inr s0
              /\ jobs s'' = jobs s0).
Proof.
  intros user_id n s. eexists. split; [apply start_user_schedule_run|].
  cbn [jobs].
  set (rest := List.filter (fun j => negb (has_id (job_name user_id) j))
                           (jobs s)).
  assert (Hnone : get_job (job_name user_id) rest = None)
    by apply get_job_without.
  split; [|split; [|split; [|split]]].
  - rewrite get_job_app, Hnone. unfold get_job. cbn. now rewrite has_id_own.
  - rewrite List.filter_app. cbn. rewrite has_id_own.
    apply get_job_none in Hnone.
    replace (List.filter (has_id (job_name user_id)) rest) with (@nil Job);
      [reflexivity|].
    symmetry. clear -Hnone. induction Hnone as [|j js Hj _ IH]; cbn;
      [reflexivity|]. now rewrite Hj.
  - intros v Hv. rewrite get_job_app. unfold rest.
    rewrite get_job_without_other
      by (intros H; apply job_name_inj in H; congruence).
    destruct (get_job (job_name v) (jobs s)); [reflexivity|].
    unfold get_job. cbn.
    destruct (has_id (job_name v) _) eqn:H; [|reflexivity].
    apply bool_decide_eq_true in H. cbn in H. apply job_name_inj in H.
    congruence.
  - intros Hu. unfold unique_ids. rewrite map_app. cbn.
    apply NoDup_app. split; [now apply without_ids|]. split.
    + intros x Hx Hx'. apply list_elem_of_singleton in Hx'. subst x.
      apply list_elem_of_fmap in Hx as (j & Hj & Hin).
      apply get_job_none in Hnone. rewrite List.Forall_forall in Hnone.
      apply list_elem_of_In in Hin. specialize (Hnone j Hin).
      apply bool_decide_eq_false in Hnone. congruence.
    + apply NoDup_singleton.
  - intros m s'' H. rewrite start_user_schedule_run in H.
    injection H as <-. eexists. split; [apply start_user_schedule_run|].
    cbn [jobs]. rewrite List.filter_app. cbn. rewrite has_id_own. cbn.
    fold rest. now rewrite app_nil_r, (without_absent _ _ Hnone).
Qed.

(** X22. Stopping a schedule never fails.  The operator has no job
    afterwards, the jobs of the other operators stay, and without a job
    nothing changes, not even the log; stopping what was just started
    gives back the jobs of before, those of the operator apart. *)
Theorem stop_removes_the_job :
  forall (user_id : Z) (s : Scheduler),
    exists s',
      stop_user_schedule user_id s = inr s'
      /\ get_job (job_name user_id) (jobs s') = None
      /\ (forall v, v <> user_id ->
            get_job (job_name v) (jobs s') = get_job (job_name v) (jobs s))
      /\ (get_job (job_name user_id) (jobs s) = None -> s' = s)
      /\ (forall n s1 s2,
            start_user_schedule user_id n s = inr s1 ->
            stop_user_schedule user_id s1 = inr s2 ->
            jobs s2 = jobs s').
Proof.
  intros user_id s. eexists. split; [apply stop_user_schedule_run|].
  destruct (get_job (job_name user_id) (jobs s)) as [j|] eqn:Hj.
  - cbn [jobs]. split; [apply get_job_without|]. split; [|split].
    + intros v Hv. apply get_job_without_other.
      intros H. apply job_name_inj in H. congruence.
    + discriminate.
    + intros n s1 s2 H1 H2. rewrite start_user_schedule_run in H1.
      injection H1 as <-. rewrite stop_user_schedule_run in H2.
      injection H2 as <-. cbn [jobs].
      rewrite get_job_app, get_job_without. unfold get_job at 1. cbn.
      rewrite has_id_own. cbn [jobs].
      rewrite List.filter_app. cbn. rewrite has_id_own. cbn.
      now rewrite app_nil_r, without_twice.
  - split; [exact Hj|]. split; [reflexivity|]. split; [reflexivity|].
    intros n s1 s2 H1 H2. rewrite start_user_schedule_run in H1.
    injection H1 as <-. rewrite stop_user_schedule_run in H2.
    injection H2 as <-. cbn [jobs].
    rewrite get_job_app, get_job_without. unfold get_job at 1. cbn.
    rewrite has_id_own. cbn [jobs].
    rewrite List.filter_app. cbn. rewrite has_id_own. cbn.
    now rewrite app_nil_r, without_twice, (without_absent _ _ Hj).
Qed.

(* ===================================================================== *)
(** * The switch of automatic mode *)
(* ===================================================================== *)

Lemma settings_handler_db cb E w :
  is_Some (user_settings (db w) !! from_user_id cb) ->
  db (snd (settings_handler cb E w)) = db w.
Proof. apply screen_keeps_db. Qed.

(** Where [toggle_auto_handler] ends: the flag is written and the
    schedule started or stopped before the first call that can fail. *)
Lemma toggle_auto_end E (b : Bot) cb :
  let user_id := from_user_id cb in
  let r := row_of user_id (db (fst b)) in
  let new_status := negb (auto_publish_enabled r) in
  let bf := snd (toggle_auto_handler cb E b) in
  db (fst bf)
  = db (snd (update_user_setting user_id
               (Set_auto_publish_enabled new_status) E
               (snd (get_user_settings user_id E (fst b)))))
  /\ inr (snd bf)
     = (if new_status
        then start_user_schedule user_id (auto_publish_interval r) (snd b)
        else stop_user_schedule user_id (snd b)).
Proof.
  cbv zeta. destruct b as [w s]. cbn [fst snd].
  set (user_id := from_user_id cb). set (r := row_of user_id (db w)).
  set (new_status := negb (auto_publish_enabled r)).
  rewrite (get_user_settings_run user_id E w) at 1. cbn [snd].
  set (w1 := match user_settings (db w) !! user_id with
             | Some _ => w
             | None => _
             end).
  pose proof (update_user_setting_rows user_id
                (Set_auto_publish_enabled new_status) E w1) as [Hrow _].
  cbv zeta in Hrow.
  assert (Hup : update_user_setting user_id
                  (Set_auto_publish_enabled new_status) E w1
                = (Ok tt,
                   snd (update_user_setting user_id
                          (Set_auto_publish_enabled new_status) E w1)))
    by (rewrite update_user_setting_run; reflexivity).
  set (w2 := snd (update_user_setting user_id
                    (Set_auto_publish_enabled new_status) E w1)) in *.
  assert (Hrun : toggle_auto_handler cb E (w, s)
                 = bind_bot
                     (if new_status then
                        bind_bot
                          (in_scheduler
                             (start_user_schedule user_id
                                (auto_publish_interval r)))
                          (fun _ =>
                             in_world
                               (callback_answer
                                  (py "✅ Автопублікацію увімкнено")))
                      else
                        bind_bot (in_scheduler (stop_user_schedule user_id))
                          (fun _ =>
                             in_world
                               (callback_answer
                                  (py "⚪ Автопублікацію вимкнено"))))
                     (fun _ => in_world (settings_handler cb)) E (w2, s)).
  { unfold toggle_auto_handler. fold user_id.
    unfold bind_bot at 1. unfold in_world at 1. cbn [fst snd].
    rewrite get_user_settings_run. fold r. fold new_status. fold w1.
    unfold bind_bot at 1. unfold in_world at 1. cbn [fst snd].
    rewrite Hup. reflexivity. }
  rewrite Hrun. clear Hrun.
  assert (Hkeep : forall (f : Scheduler -> exn + Scheduler) s' answer,
            f s = inr s' ->
            let bf :=
              snd (bind_bot
                     (bind_bot (in_scheduler f)
                        (fun _ => in_world (callback_answer answer)))
                     (fun _ => in_world (settings_handler cb)) E (w2, s)) in
            db (fst bf) = db w2 /\ inr (snd bf) = f s).
  { intros f s' answer Hf. cbv zeta. rewrite Hf.
    unfold bind_bot, in_scheduler, in_world. cbn [fst snd]. rewrite Hf.
    cbn [fst snd]. unfold callback_answer. rewrite call_run.
    destruct (tg_answer E (trace w2) answer); cbn [fst snd];
      [split; reflexivity|].
    destruct (settings_handler cb E _) as [r'' w''] eqn:Hs. cbn [fst snd].
    split; [|reflexivity].
    change w'' with (snd (r'', w'')). rewrite <- Hs.
    rewrite settings_handler_db; [reflexivity|]. cbn. fold user_id. eauto. }
  destruct new_status.
  - apply (Hkeep (start_user_schedule user_id (auto_publish_interval r)) _ _
             (start_user_schedule_run _ _ _)).
  - apply (Hkeep (stop_user_schedule user_id) _ _
             (stop_user_schedule_run _ _)).
Qed.

(** X23. The switch of automatic mode keeps the schedule in step with
    the settings.  After [toggle_auto_handler], whatever the services
    answer and whatever the schedule held before, the stored flag is the
    negation of the old one and the operator has a job exactly when the
    flag is on; that job runs at the stored interval.  The rows and jobs
    of the other operators are as before. *)
Theorem auto_switch_keeps_schedule_in_step :
  forall (E : Env) (b : Bot) (cb : Callback),
    let user_id := from_user_id cb in
    let bf := snd (toggle_auto_handler cb E b) in
    let row := row_of user_id (db (fst bf)) in
    schedule_agrees user_id bf
    /\ auto_publish_enabled row
       = negb (auto_publish_enabled (row_of user_id (db (fst b))))
    /\ (auto_publish_enabled row = true ->
        get_job (job_name user_id) (jobs (snd bf))
        = Some (mkJob (job_name user_id) (auto_publish_interval row) user_id))
    /\ (forall v, v <> user_id ->
          get_job (job_name v) (jobs (snd bf))
          = get_job (job_name v) (jobs (snd b))
          /\ user_settings (db (fst bf)) !! v
             = user_settings (db (fst b)) !! v).
Proof.
  intros E b cb user_id bf row.
  destruct (toggle_auto_end E b cb) as [Hdb Hs].
  fold user_id in Hdb, Hs. fold bf in Hdb, Hs.
  set (r := row_of user_id (db (fst b))) in *.
  set (w1 := snd (get_user_settings user_id E (fst b))) in *.
  destruct (get_user_settings_rows user_id E (fst b)) as [G1 G2].
  fold w1 in G1, G2. fold r in G1.
  destruct (update_user_setting_rows user_id
              (Set_auto_publish_enabled (negb (auto_publish_enabled r))) E w1)
    as [U1 U2].
  rewrite <- Hdb in U1, U2. rewrite (row_of_stored _ _ _ G1) in U1.
  assert (Hrow : row = apply_setting
                         (Set_auto_publish_enabled
                            (negb (auto_publish_enabled r))) r)
    by (unfold row; now rewrite (row_of_stored _ _ _ U1)).
  assert (Hflag : auto_publish_enabled row = negb (auto_publish_enabled r))
    by now rewrite Hrow.
  assert (Hint : auto_publish_interval row = auto_publish_interval r)
    by now rewrite Hrow.
  destruct (start_gives_the_job user_id (auto_publish_interval r)
              (snd b)) as (s1 & Hs1 & Hjob1 & Hoth1).
  destruct (stop_leaves_no_job user_id (snd b))
    as (s0 & Hs0 & Hjob0 & Hoth0).
  unfold schedule_agrees. fold row. rewrite Hflag, Hint.
  destruct (negb (auto_publish_enabled r)).
  - rewrite Hs1 in Hs. injection Hs as ->.
    split; [rewrite Hjob1; split; eauto|]. split; [reflexivity|].
    split; [auto|]. intros v Hv. split; [now apply Hoth1|].
    rewrite U2 by auto. now apply G2.
  - rewrite Hs0 in Hs. injection Hs as ->.
    split; [rewrite Hjob0; split; [intros [? ?]|]; discriminate|].
    split; [reflexivity|]. split; [discriminate|].
    intros v Hv. split; [now apply Hoth0|].
    rewrite U2 by auto. now apply G2.
Qed.

(* ===================================================================== *)
(** * The router *)
(* ===================================================================== *)

Lemma starts_with_shorter (p q s : pystr) :
  starts_with (p ++ q) s = true -> starts_with p s = true.
Proof.
  revert s. induction p as [|a p IH]; intros s; [reflexivity|].
  destruct s as [|b s]; cbn; [discriminate|].
  intros H. apply andb_true_iff in H as [-> H]. now apply IH.
Qed.

(** Two prefixes of one text: one is a prefix of the other. *)
Lemma starts_with_both (p q s : pystr) :
  starts_with p s = true -> starts_with q s = true ->
  starts_with p q || starts_with q p = true.
Proof.
  revert q s. induction p as [|a p IH]; intros q s; [reflexivity|].
  destruct q as [|b q]; [intros _ _; apply orb_true_r|].
  destruct s as [|c s]; cbn; [discriminate|].
  intros Hp Hq. apply andb_true_iff in Hp as [Hac Hp].
  apply andb_true_iff in Hq as [Hbc Hq].
  apply Z.eqb_eq in Hac, Hbc. subst.
  rewrite !Z.eqb_refl. cbn. eauto.
Qed.

Lemma starts_with_self (p s : pystr) : starts_with p (p ++ s) = true.
Proof.
  induction p as [|a p IH]; [reflexivity|]. cbn. now rewrite Z.eqb_refl.
Qed.

(** A filter that accepts a text with the prefix [p] is compatible with
    [p]. *)
Lemma accepts_with_prefix f (p data : pystr) :
  accepts f data = true -> starts_with p data = true ->
  match f with
  | DataIs s => starts_with p s
  | DataStartsWith s => starts_with s p || starts_with p s
  end = true.
Proof.
  destruct f as [s|s]; cbn [accepts]; intros Hf Hp.
  - apply bool_decide_eq_true in Hf. now subst.
  - eapply starts_with_both; eauto.
Qed.

(** X24. The filter of [publish_handler] takes every button whose data
    starts with [publish_], the three registered before it apart.  So
    the handlers registered after it under such data are never reached:
    no button leads to [publish_draft_handler] or to
    [publish_targets_handler]; the buttons of the drafts and of the
    publish targets run [publish_handler]. *)
Theorem publish_prefix_shadows_two_handlers :
  forall data : pystr,
    (starts_with (py "publish_") data = true ->
     In (route data)
        [Some "publish_manual_article_handler"%string;
         Some "process_manual_publish"%string;
         Some "publish_menu_handler"%string;
         Some "publish_handler"%string])
    /\ route data <> Some "publish_draft_handler"%string
    /\ route data <> Some "publish_targets_handler"%string
    /\ route (py "publish_draft:" ++ data) = Some "publish_handler"%string
    /\ route (py "publish_targets") = Some "publish_handler"%string.
Proof.
  intros data. split; [|split; [|split; [|split]]].
  - intros Hp. unfold route, callback_handlers. cbn [first_accepting].
    repeat match goal with
           | |- In (if accepts ?f data then _ else _) _ =>
               destruct (accepts f data) eqn:?;
               [ first
                   [ cbn; tauto
                   | exfalso;
                     match goal with
                     | H : accepts _ data = true |- _ =>
                         pose proof (accepts_with_prefix _ _ _ H Hp) as Hc;
                         vm_compute in Hc; discriminate
                     end ]
               | ]
           end.
    exfalso.
    match goal with
    | H : accepts (DataStartsWith (py "publish_")) data = false |- _ =>
        cbn [accepts] in H; congruence
    end.
  - unfold route, callback_handlers. cbn [first_accepting].
    repeat match goal with
           | |- (if accepts ?f data then _ else _) <> _ =>
               destruct (accepts f data) eqn:?; [try discriminate|]
           end; [|discriminate].
    exfalso.
    match goal with
    | H : accepts (DataStartsWith (py "publish_draft:")) data = true,
      H' : accepts (DataStartsWith (py "publish_")) data = false |- _ =>
        cbn [accepts] in H, H';
        change (py "publish_draft:") with (py "publish_" ++ py "draft:") in H;
        apply starts_with_shorter in H; congruence
    end.
  - unfold route, callback_handlers. cbn [first_accepting].
    repeat match goal with
           | |- (if accepts ?f data then _ else _) <> _ =>
               destruct (accepts f data) eqn:?; [try discriminate|]
           end; [|discriminate].
    exfalso.
    match goal with
    | H : accepts (DataIs (py "publish_targets")) data = true,
      H' : accepts (DataStartsWith (py "publish_")) data = false |- _ =>
        cbn [accepts] in H, H'; apply bool_decide_eq_true in H; subst data;
        vm_compute in H'; discriminate
    end.
  - unfold route, callback_handlers. cbn [first_accepting].
    repeat match goal with
           | |- (if accepts ?f ?d then _ else _) = _ =>
               let H := fresh in
               destruct (accepts f d) eqn:H;
               [ first
                   [ reflexivity
                   | exfalso;
                     pose proof (accepts_with_prefix _ (py "publish_draft:") _
                                   H (starts_with_self _ _)) as Hc;
                     vm_compute in Hc; discriminate ]
               | ]
           end.
    exfalso.
    match goal with
    | H : accepts (DataStartsWith (py "publish_")) _ = false |- _ =>
        cbn [accepts] in H;
        change (py "publish_draft:") with (py "publish_" ++ py "draft:") in H;
        rewrite <- app_assoc, starts_with_self in H; discriminate
    end.
  - vm_compute. reflexivity.
Qed.

(** The record [publish_handler] writes when no destination is asked
    for. *)
Lemma unpublished_record E w cb p t rest article title :
  py_split_char 95 (cb_data cb) = p :: t :: rest ->
  wants_wp t = false ->
  wants_tg t = false ->
  generated_article (fsm w) = Some article ->
  fields article !! "title"%string = Some title ->
  (forall tr body, tg_edit E tr body = inr tt) ->
  wp (publish_handler cb) E w (fun r wf =>
    (exists l, trace wf = trace w ++ l
               /\ Forall (fun c => is_destination_call E c = false) l)
    /\ published_articles (db wf)
       = published_articles (db w)
           ++ [mkPublished (from_user_id cb) None None title None
                           (category_id article) false false]
    /\ article_fingerprints (db wf)
       = insert_fingerprint (title_hash (str_lower E) title) title
           (article_fingerprints (db w))
    /\ (exists rows,
          logs (db wf)
          = logs (db w) ++ manual_success_row cb title None :: rows)
    /\ (is_Some (fields article !! "category"%string) ->
        r = Ok tt /\ fsm wf = fsm_empty)).
Proof.
  intros Hsplit Hwp Htg Ha Ht Hedit.
  unfold publish_handler. rewrite Hsplit.
  change (fun (_ : Env) (w0 : World) => (Ok (fsm w0), w0)) with get_fsm.
  apply wp_bind, wp_ret. apply wp_bind, wp_get_fsm. rewrite Ha.
  unfold publish_body. rewrite Hwp, Htg.
  unfold edit_text, dict_get, save_published_article,
    add_article_fingerprint, log_action. rewrite Ht.
  repeat (wp_world;
          lazymatch goal with
          | |- wp (call _ _) _ _ _ =>
              apply wp_call; intros ? Hans;
              [clear Hans|cbv beta in Hans; rewrite Hedit in Hans; discriminate]
          | _ => wp_step
          end).
  all: wp_world; cbn [fst snd].
  all: rewrite <- ?app_assoc.
  all: (split; [eexists; split; [reflexivity|repeat constructor]|]).
  all: (split; [reflexivity|]); (split; [reflexivity|]).
  all: (split; [eexists; reflexivity|]).
  all: first [ intros _; split; reflexivity
             | intros [? ?]; discriminate ].
Qed.

(** X25. A publish type other than [wp], [tg] and [both] publishes
    nowhere and is recorded all the same.  When the data of the button
    names another type (as [publish_targets] and [publish_draft:N] do),
    an article is in the conversation state and the progress messages
    pass, [publish_handler] calls neither the site nor the channel, and
    yet stores a record with both flags off, registers the fingerprint of
    the title and writes a success row; if the article has a category it
    reports success and clears the conversation state. *)
Theorem other_publish_type_records_without_publishing :
  forall (E : Env) (w : World) (cb : Callback) (p t : pystr)
         (rest : list pystr) (article : Article) (title : pystr),
    py_split_char 95 (cb_data cb) = p :: t :: rest ->
    wants_wp t = false ->
    wants_tg t = false ->
    generated_article (fsm w) = Some article ->
    fields article !! "title"%string = Some title ->
    (forall tr body, tg_edit E tr body = inr tt) ->
    let run := publish_handler cb E w in
    let wf := snd run in
    Forall (fun c => is_destination_call E c = false) (new_calls w wf)
    /\ published_articles (db wf)
       = published_articles (db w)
           ++ [mkPublished (from_user_id cb) None None title None
                           (category_id article) false false]
    /\ is_Some (article_fingerprints (db wf)
                  !! title_hash (str_lower E) title)
    /\ In (manual_success_row cb title None) (new_logs w wf)
    /\ (is_Some (fields article !! "category"%string) ->
        fst run = Ok tt /\ fsm wf = fsm_empty).
Proof.
  intros E w cb p t rest article title Hsplit Hwp Htg Ha Ht Hedit run wf.
  pose proof (wp_run _ _ _ _
                (unpublished_record E w cb p t rest article title
                   Hsplit Hwp Htg Ha Ht Hedit))
    as ((l & Hl & Hnone) & Hp & Hf & (rows & Hrows) & Hend).
  fold run in Hl, Hp, Hf, Hrows, Hend. fold wf in Hl, Hp, Hf, Hrows, Hend.
  split; [now rewrite (new_calls_app _ _ _ Hl)|].
  split; [exact Hp|]. split; [|split; [|exact Hend]].
  - rewrite Hf. apply insert_fingerprint_lookup.
  - rewrite (new_logs_app _ _ _ Hrows). now left.
Qed.

Lemma other_publish_type_records_without_publishing_witness :
  route (cb_data press_publish_targets) = Some "publish_handler"%string
  /\ wants_wp (py "targets") = false
  /\ wants_tg (py "targets") = false
  /\ Forall (fun c => is_destination_call env_ok c = false)
            (new_calls world_manual end_targets)
  /\ published_articles (db end_targets)
     = [mkPublished operator None None article_title None (Some 2)
                    false false].
Proof.
  split; [vm_compute; reflexivity|]. split; [reflexivity|].
  split; [reflexivity|].
  pose proof (other_publish_type_records_without_publishing env_ok
                world_manual press_publish_targets (py "publish")
                (py "targets") [] (mkArticle reply_full (Some 2))
                article_title) as H.
  cbv zeta in H.
  destruct H as (Hnone & Hp & _).
  - vm_compute. reflexivity.
  - reflexivity.
  - reflexivity.
  - reflexivity.
  - vm_compute. reflexivity.
  - intros tr body. reflexivity.
  - split; [exact Hnone|exact Hp].
Defined.

(* ===================================================================== *)
(** * The failure report *)
(* ===================================================================== *)

(** X26. The scheduled task raises only when its own failure report
    cannot be delivered.  If the task raises [e'], its body had raised
    some [e], the error row of [e] is the audit row the task wrote, the
    operator was sent the failure message of [e] last of all, and [e'] is
    what that message raised.  A body that returns, or a report that is
    delivered, makes the task return. *)
Theorem task_raises_only_when_the_report_fails :
  forall (E : Env) (w : World) (user_id : Z) (e' : exn),
    let run := auto_publish_task user_id E w in
    let wf := snd run in
    fst run = Raised e' ->
    exists e w',
      auto_publish_body user_id E w = (Raised e, w')
      /\ tg_send E (trace w') (ChatInt user_id) (msg_failed e) NoParseMode
         = inl e'
      /\ logs (db wf) = logs (db w') ++ [error_row user_id e]
      /\ trace wf = trace w' ++ [told user_id (msg_failed e)].
Proof.
  intros E w user_id e' run wf Hraised. subst wf run.
  destruct (auto_publish_body user_id E w) as [[[]|e] w'] eqn:Hb.
  - rewrite (task_run _ _ _ _ _ Hb) in Hraised. discriminate.
  - exists e, w'. split; [reflexivity|].
    pose proof (task_wraps _ _ _ _ _ Hb) as (_ & _ & _ & Hl & Ht).
    rewrite (task_run _ _ _ _ _ Hb), failure_report_run in Hraised.
    cbn [fst] in Hraised.
    destruct (tg_send E (trace w') (ChatInt user_id) (msg_failed e)
                NoParseMode) as [e0|m]; [|discriminate].
    injection Hraised as ->. auto.
Qed.

Lemma task_raises_only_when_the_report_fails_witness :
  fst (auto_publish_task operator env_operator_blocked
         (world_example settings_on ∅))
  = Raised operator_blocked
  /\ exists e w',
       auto_publish_body operator env_operator_blocked
         (world_example settings_on ∅) = (Raised e, w')
       /\ logs (db end_operator_blocked) = logs (db w') ++ [error_row operator e].
Proof.
  assert (H : fst (auto_publish_task operator env_operator_blocked
                     (world_example settings_on ∅))
              = Raised operator_blocked) by (vm_compute; reflexivity).
  split; [exact H|].
  destruct (task_raises_only_when_the_report_fails env_operator_blocked
              (world_example settings_on ∅) operator operator_blocked H)
    as (e & w' & Hb & _ & Hl & _).
  exists e, w'. split; [exact Hb|exact Hl].
Defined.
